(** * modchat: chat gateway, model-handle factory and decomposition service

  A shallow embedding of the request paths of

  - [backend/src/mod/models/model_factory.py]  ([ModelFactory]),
  - [mod-agent/src/enums/model_vendors.py]     (the vendor catalog),
  - [mod-agent/src/errors/error_handlers.py]   ([handle_vendor_exception]),
  - [backend/src/mod/app.py]                   ([chat], [regenerate],
    [submit_feedback], [process_decomposed_response]),
  - [mod-agent/src/server.py]                  ([handle_task]),
  - [backend/src/mod/file_handlers.py]         (validation, loading and
    extraction of uploaded files),
  - [backend/src/mod/conversation_manager.py]  (the in-memory index and the
    event log),
  - [mod-agent/src/models/model_registry.py]   ([AVAILABLE_VENDORS]),

  followed by the properties of the specification that concern them and by
  further properties of the same code.

  Python values are an inductive type, dictionaries keep their insertion
  order (association lists) where the code iterates them and are finite
  maps ([gmap]) where it only looks keys up, exceptions are values of an
  error monad, and the mutable singletons of the processes (the model
  cache, the checkpoint store, the feedback table) are threaded as explicit
  state.  Everything outside the repository (the interpreter's [hash], the
  environment, the provider SDKs, the checkpoint saver, the network) is a
  field of a [platform] or [externals] record that the functions take as an
  argument. *)

From stdpp Require Import gmap strings list sorting pretty.
From Stdlib Require Import ZArith QArith Lia Ascii.
Close Scope Q_scope.

(* ===================================================================== *)
(** * Strings *)
(* ===================================================================== *)

Module Str.

Definition newline : string := String (ascii_of_nat 10) EmptyString.

(** [c.lower()] on one ASCII letter. *)
Definition lower_ascii (c : ascii) : ascii :=
  let n := nat_of_ascii c in
  if (65 <=? n)%nat && (n <=? 90)%nat then ascii_of_nat (n + 32) else c.

(** [s.lower()]. *)
Fixpoint lower (s : string) : string :=
  match s with
  | EmptyString => EmptyString
  | String c rest => String (lower_ascii c) (lower rest)
  end.

(** [needle in s]. *)
Fixpoint contains (needle s : string) : bool :=
  String.prefix needle s
  || match s with
     | EmptyString => false
     | String _ rest => contains needle rest
     end.

(** [c in s] for a single character. *)
Fixpoint has_char (c : ascii) (s : string) : bool :=
  match s with
  | EmptyString => false
  | String d rest => Ascii.eqb c d || has_char c rest
  end.

(** [s.replace(c, repl)] for a one-character pattern. *)
Fixpoint replace_char (c : ascii) (repl : string) (s : string) : string :=
  match s with
  | EmptyString => EmptyString
  | String d rest =>
      if Ascii.eqb c d then repl +:+ replace_char c repl rest
      else String d (replace_char c repl rest)
  end.

Fixpoint drop (n : nat) (s : string) : string :=
  match n, s with
  | O, _ => s
  | S k, String _ rest => drop k rest
  | S _, EmptyString => EmptyString
  end.

(** [s.replace(pat, repl)] for a non-empty pattern; [fuel] bounds the
    positions still to be visited. *)
Fixpoint replace_from (fuel : nat) (pat repl s : string) : string :=
  match fuel with
  | O => s
  | S fuel' =>
      match s with
      | EmptyString => EmptyString
      | String d rest =>
          if String.prefix pat s
          then repl +:+ replace_from fuel' pat repl (drop (String.length pat) s)
          else String d (replace_from fuel' pat repl rest)
      end
  end.

Definition replace (pat repl s : string) : string :=
  replace_from (String.length s) pat repl s.

(** [s.split(sep)] for a one-character separator: never empty. *)
Fixpoint split (sep : ascii) (s : string) : list string :=
  match s with
  | EmptyString => [EmptyString]
  | String d rest =>
      if Ascii.eqb sep d then EmptyString :: split sep rest
      else match split sep rest with
           | seg :: segs => String d seg :: segs
           | [] => [String d EmptyString]
           end
  end.

(** [sep.join(parts)] *)
Fixpoint join (sep : string) (parts : list string) : string :=
  match parts with
  | [] => EmptyString
  | p :: rest =>
      match rest with
      | [] => p
      | _ => p +:+ sep +:+ join sep rest
      end
  end.

(** The first [n] characters. *)
Fixpoint take (n : nat) (s : string) : string :=
  match n, s with
  | S k, String c rest => String c (take k rest)
  | _, _ => EmptyString
  end.

(** [s[:n]]: a negative [n] counts from the end. *)
Definition slice_to (n : Z) (s : string) : string :=
  if (0 <=? n)%Z then take (Z.to_nat n) s
  else take (String.length s - Z.to_nat (- n)) s.

(** [s.endswith(c)] for a single character. *)
Fixpoint ends_with (c : ascii) (s : string) : bool :=
  match s with
  | EmptyString => false
  | String d EmptyString => Ascii.eqb c d
  | String _ rest => ends_with c rest
  end.

End Str.

(* ===================================================================== *)
(** * Python values *)
(* ===================================================================== *)

Module Py.

#[local] Set Warnings "-register-all".

(** A float is the rational it denotes, an infinity or NaN.  Rounding to
    binary64 is not modelled: the code only converts and compares. *)
Inductive pyfloat :=
| FNan
| FInf (negative : bool)
| FFin (q : Q).

(** What [json] decoding produces. *)
Inductive pyval :=
| PNone
| PBool (b : bool)
| PInt (z : Z)
| PFloat (f : pyfloat)
| PStr (s : string)
| PList (items : list pyval)
| PDict (entries : list (string * pyval)).

(** A [dict] with string keys, in insertion order. *)
Definition dict := list (string * pyval).

(** [d.get(key)] *)
Fixpoint dict_lookup (d : dict) (key : string) : option pyval :=
  match d with
  | [] => None
  | (k, v) :: rest => if String.eqb k key then Some v else dict_lookup rest key
  end.

(** [d.get(key, dflt)] *)
Definition dict_get (d : dict) (key : string) (dflt : pyval) : pyval :=
  default dflt (dict_lookup d key).

Definition Qltb (x y : Q) : bool := negb (Qle_bool y x).

(** [a < b] on floats: every comparison with NaN is false. *)
Definition float_lt (a b : pyfloat) : bool :=
  match a, b with
  | FNan, _ | _, FNan => false
  | FInf true, FInf true => false
  | FInf true, _ => true
  | _, FInf true => false
  | FInf false, _ => false
  | FFin _, FInf false => true
  | FFin x, FFin y => Qltb x y
  end.

(** The numbers the clamping expressions range over: [int] and [float]. *)
Inductive pynum :=
| NInt (z : Z)
| NFloat (f : pyfloat).

Definition num_float (n : pynum) : pyfloat :=
  match n with
  | NInt z => FFin (inject_Z z)
  | NFloat f => f
  end.

(** Mixed comparison is exact in Python. *)
Definition num_lt (a b : pynum) : bool := float_lt (num_float a) (num_float b).

(** [min(a, b)]: the first argument unless the second is smaller. *)
Definition min2 (a b : pynum) : pynum := if num_lt b a then b else a.

(** [max(a, b)]: the first argument unless the second is larger. *)
Definition max2 (a b : pynum) : pynum := if num_lt a b then b else a.

Definition num_val (n : pynum) : pyval :=
  match n with
  | NInt z => PInt z
  | NFloat f => PFloat f
  end.

(** [bool(v)] *)
Definition truthy (v : pyval) : bool :=
  match v with
  | PNone => false
  | PBool b => b
  | PInt z => negb (z =? 0)%Z
  | PFloat (FFin q) => negb (Qeq_bool q 0)
  | PFloat _ => true
  | PStr s => negb (String.eqb s "")
  | PList l => match l with [] => false | _ => true end
  | PDict d => match d with [] => false | _ => true end
  end.

(** [type(v).__name__] *)
Definition type_name (v : pyval) : string :=
  match v with
  | PNone => "NoneType"
  | PBool _ => "bool"
  | PInt _ => "int"
  | PFloat _ => "float"
  | PStr _ => "str"
  | PList _ => "list"
  | PDict _ => "dict"
  end.

(** [v != s] for a string literal [s]. *)
Definition differs_from_str (v : pyval) (s : string) : bool :=
  match v with
  | PStr t => negb (String.eqb t s)
  | _ => true
  end.

(** [f"{v}"]: the text of [None], strings, booleans and integers; the
    printing of the other values is left to [repr_other]. *)
Definition format_value (repr_other : pyval -> string) (v : pyval) : string :=
  match v with
  | PNone => "None"
  | PStr s => s
  | PBool true => "True"
  | PBool false => "False"
  | PInt z => pretty z
  | _ => repr_other v
  end.

End Py.

(* ===================================================================== *)
(** * Exceptions and results *)
(* ===================================================================== *)

Module Exn.

(** An exception is identified by the name of its class, as the handlers of
    the code name classes and [handle_vendor_exception] reads
    [e.__class__.__name__].  FastAPI's [HTTPException] carries the status the
    client will see. *)
Inductive exn :=
| HTTPException (status_code : nat) (detail : string)
| PyExn (class_name : string) (message : string).

Definition class_name_of (e : exn) : string :=
  match e with
  | HTTPException _ _ => "HTTPException"
  | PyExn c _ => c
  end.

(** [str(e)]; an [HTTPException] prints as ["<status>: <detail>"]. *)
Definition str (e : exn) : string :=
  match e with
  | HTTPException c d => pretty c +:+ ": " +:+ d
  | PyExn _ m => m
  end.

(** [isinstance(e, cls)] for the classes the handlers name. *)
Definition is_a (cls : string) (e : exn) : bool := String.eqb (class_name_of e) cls.

Inductive result (A : Type) :=
| Ok (a : A)
| Raise (e : exn).
Arguments Ok {A} a.
Arguments Raise {A} e.

#[export] Instance result_ret : MRet result := fun A a => Ok a.
#[export] Instance result_bind : MBind result := fun A B f m =>
  match m with
  | Ok a => f a
  | Raise e => Raise e
  end.

(** [try: body except Exception as e: handler(e)] *)
Definition try_except {A} (body : result A) (handler : exn -> result A) : result A :=
  match body with
  | Ok a => Ok a
  | Raise e => handler e
  end.

(** An absent value raises [e]. *)
Definition lift_opt {A} (o : option A) (e : exn) : result A :=
  match o with
  | Some a => Ok a
  | None => Raise e
  end.

End Exn.
Export Exn.

(* ===================================================================== *)
(** * The vendor catalog ([enums/model_vendors.py]) *)
(* ===================================================================== *)

Module Vendors.

(** One entry of a vendor's model list: [{"id": ..., "name": ...}]. *)
Record model_entry := {
  entry_id : string;
  entry_name : option string
}.

(** The members of a vendor enumeration, by their [.value]. *)
Record vendor := {
  APIKey : string;
  VendorID : string;
  DisplayName : string;
  LangchainPackage : string;
  LangchainModuleName : string;
  LangchainInterfaceClass : string;
  APIKeyNotFoundError : string;
  RateLimitError : string;
  AuthenticationError : string;
  APIError : string;
  TimeoutError : string;
  CardModels : list model_entry;
  ModelNameKey : string;
  ModelAPIKey : string;
  TemperatureKey : string;
  MaxTokensKey : string;
  TopPKey : string;
  RequestTimeoutKey : string
}.

Definition OPENAI_MODELS : list model_entry := [
  {| entry_id := "gpt-4.1-mini"; entry_name := Some "GPT-4.1 Mini" |};
  {| entry_id := "gpt-4.1-nano"; entry_name := Some "GPT-4.1 Nano" |};
  {| entry_id := "gpt-4.1"; entry_name := Some "GPT-4.1" |} ].

Definition OpenAI : vendor := {|
  APIKey := "OPENAI_API_KEY";
  VendorID := "openai";
  DisplayName := "OpenAI";
  LangchainPackage := "langchain-openai";
  LangchainModuleName := "langchain_openai";
  LangchainInterfaceClass := "ChatOpenAI";
  APIKeyNotFoundError := "OpenAI API key not found. Please set OPENAI_API_KEY environment variable.";
  RateLimitError := "OpenAI rate limit exceeded. Please try again later.";
  AuthenticationError := "OpenAI API key is invalid or expired.";
  APIError := "OpenAI API error: {error_msg}";
  TimeoutError := "OpenAI API request timed out. Please try again.";
  CardModels := OPENAI_MODELS;
  ModelNameKey := "model_name";
  ModelAPIKey := "openai_api_key";
  TemperatureKey := "temperature";
  MaxTokensKey := "max_tokens";
  TopPKey := "top_p";
  RequestTimeoutKey := "request_timeout"
|}.

Definition ANTHROPIC_MODELS : list model_entry := [
  {| entry_id := "claude-3-opus-latest"; entry_name := Some "Claude 3 Opus" |};
  {| entry_id := "claude-3-7-sonnet-latest"; entry_name := Some "Claude 3.7 Sonnet" |};
  {| entry_id := "claude-3-5-haiku-latest"; entry_name := Some "Claude 3.5 Haiku" |} ].

Definition Anthropic : vendor := {|
  APIKey := "ANTHROPIC_API_KEY";
  VendorID := "anthropic";
  DisplayName := "Anthropic";
  LangchainPackage := "langchain-anthropic";
  LangchainModuleName := "langchain_anthropic";
  LangchainInterfaceClass := "ChatAnthropic";
  APIKeyNotFoundError := "Anthropic API key not found. Please set OPENAI_API_KEY environment variable.";
  RateLimitError := "Anthropic rate limit exceeded. Please try again later.";
  AuthenticationError := "Anthropic API key is invalid or expired.";
  APIError := "Anthropic API error: {error_msg}";
  TimeoutError := "Anthropic API request timed out. Please try again.";
  CardModels := ANTHROPIC_MODELS;
  ModelNameKey := "model";
  ModelAPIKey := "anthropic_api_key";
  TemperatureKey := "temperature";
  MaxTokensKey := "max_tokens";
  TopPKey := "top_p";
  RequestTimeoutKey := "default_request_timeout"
|}.

Definition GOOGLE_MODELS : list model_entry := [
  {| entry_id := "gemini-2.5-flash"; entry_name := Some "Gemini 2.5 Flash" |} ].

Definition Google : vendor := {|
  APIKey := "GEMINI_API_KEY";
  VendorID := "google";
  DisplayName := "Google";
  LangchainPackage := "langchain-google-genai";
  LangchainModuleName := "langchain_google_genai";
  LangchainInterfaceClass := "ChatGoogleGenerativeAI";
  APIKeyNotFoundError := "Gemini API key not found. Please set OPENAI_API_KEY environment variable.";
  RateLimitError := "Gemini rate limit exceeded. Please try again later.";
  AuthenticationError := "Gemini API key is invalid or expired.";
  APIError := "Gemini API error: {error_msg}";
  TimeoutError := "Gemini API request timed out. Please try again.";
  CardModels := GOOGLE_MODELS;
  ModelNameKey := "model";
  ModelAPIKey := "google_api_key";
  TemperatureKey := "temperature";
  MaxTokensKey := "max_output_tokens";
  TopPKey := "top_p";
  RequestTimeoutKey := "timeout"
|}.

Definition OLLAMA_MODELS : list model_entry := [
  {| entry_id := "llama3.1"; entry_name := None |} ].

Definition Ollama : vendor := {|
  APIKey := "";
  VendorID := "ollama";
  DisplayName := "Ollama";
  LangchainPackage := "langchain-ollama";
  LangchainModuleName := "langchain_ollama";
  LangchainInterfaceClass := "ChatOllama";
  APIKeyNotFoundError := "Ollama API key not found. Please set OPENAI_API_KEY environment variable.";
  RateLimitError := "Ollama rate limit exceeded. Please try again later.";
  AuthenticationError := "Ollama API key is invalid or expired.";
  APIError := "Ollama API error: {error_msg}";
  TimeoutError := "Ollama API request timed out. Please try again.";
  CardModels := OLLAMA_MODELS;
  ModelNameKey := "model";
  ModelAPIKey := "";
  TemperatureKey := "temperature";
  MaxTokensKey := "";
  TopPKey := "top_p";
  RequestTimeoutKey := "timeout"
|}.

Definition MODEL_VENDORS : list vendor := [OpenAI; Anthropic; Google; Ollama].

End Vendors.
Export Vendors.

(* ===================================================================== *)
(** * Vendor exceptions ([errors/error_handlers.py]) *)
(* ===================================================================== *)

Module Errors.

(** The [LLMChatError] subclasses, with the [code] their constructors fix. *)
Definition ModelInitializationError (message : string) : exn :=
  PyExn "ModelInitializationError" message.
Definition APIKeyError (message : string) : exn := PyExn "APIKeyError" message.
Definition RateLimitError (message : string) : exn := PyExn "RateLimitError" message.

Definition error_code (e : exn) : nat :=
  match e with
  | HTTPException c _ => c
  | PyExn c _ =>
      if String.eqb c "APIKeyError" then 401
      else if String.eqb c "RateLimitError" then 429
      else if String.eqb c "ModelInitializationError" then 400
      else if String.eqb c "FileProcessingError" then 400
      else if String.eqb c "ConversationError" then 400
      else if String.eqb c "ValidationError" then 400
      else 500
  end.

(** [handle_vendor_exception(e, vendor)] *)
Definition handle_vendor_exception (e : exn) (v : vendor) : exn :=
  let error_class := class_name_of e in
  let error_msg := Exn.str e in
  if Str.contains "RateLimitError" error_class then
    RateLimitError (Vendors.RateLimitError v)
  else if Str.contains "AuthenticationError" error_class then
    APIKeyError (Vendors.AuthenticationError v)
  else if Str.contains "APIError" error_class then
    ModelInitializationError (Str.replace "{error_msg}" error_msg (Vendors.APIError v))
  else if Str.contains "Timeout" error_class then
    ModelInitializationError (Vendors.TimeoutError v)
  else
    ModelInitializationError (DisplayName v +:+ " error: " +:+ error_msg).

End Errors.
Export Errors.

(* ===================================================================== *)
(** * The interpreter and the process environment *)
(* ===================================================================== *)

Module Platform.
Import Py.

(** What the factory obtains from outside the repository.  String hashing is
    salted per process, string-to-number parsing and the hash combinators of
    tuples and frozensets belong to the interpreter, imports and provider
    constructors to the installed SDKs. *)
Record platform := {
  getenv : string -> option string;
  hash_str : string -> Z;
  hash_none : Z;
  hash_float_other : pyfloat -> Z;
  hash_tuple : list Z -> Z;
  hash_frozenset : list Z -> Z;
  float_of_str : string -> option pyfloat;
  int_of_str : string -> option Z;
  import_failure : vendor -> option exn;
  constructor_failure : string -> gmap string pyval -> option exn
}.

(** Integers at or beyond this magnitude do not convert to a float. *)
Definition float_overflow : Z := 2 ^ 1024 - 2 ^ 970.

(** [float(v)] *)
Definition to_float (P : platform) (v : pyval) : result pyfloat :=
  match v with
  | PBool b => Ok (FFin (inject_Z (if b then 1 else 0)))
  | PInt z =>
      if (Z.abs z <? float_overflow)%Z then Ok (FFin (inject_Z z))
      else Raise (PyExn "OverflowError" "int too large to convert to float")
  | PFloat f => Ok f
  | PStr s =>
      lift_opt (float_of_str P s)
        (PyExn "ValueError" ("could not convert string to float: '" +:+ s +:+ "'"))
  | PNone | PList _ | PDict _ =>
      Raise (PyExn "TypeError"
               ("float() argument must be a string or a real number, not '"
                +:+ type_name v +:+ "'"))
  end.

(** [int(v)]: a float is truncated towards zero. *)
Definition to_int (P : platform) (v : pyval) : result Z :=
  match v with
  | PBool b => Ok (if b then 1 else 0)%Z
  | PInt z => Ok z
  | PFloat FNan => Raise (PyExn "ValueError" "cannot convert float NaN to integer")
  | PFloat (FInf _) => Raise (PyExn "OverflowError" "cannot convert float infinity to integer")
  | PFloat (FFin q) => Ok (Z.quot (Qnum q) (Zpos (Qden q)))
  | PStr s =>
      lift_opt (int_of_str P s)
        (PyExn "ValueError" ("invalid literal for int() with base 10: '" +:+ s +:+ "'"))
  | PNone | PList _ | PDict _ =>
      Raise (PyExn "TypeError"
               ("int() argument must be a string, a bytes-like object or a real number, not '"
                +:+ type_name v +:+ "'"))
  end.

(** [sys.hash_info.modulus] on a 64-bit build. *)
Definition hash_modulus : Z := 2 ^ 61 - 1.

(** [hash(n)] for an [int]: reduction modulo the Mersenne prime, sign kept,
    [-1] reserved. *)
Definition hash_int (n : Z) : Z :=
  let h := (Z.sgn n * (Z.abs n mod hash_modulus))%Z in
  if (h =? -1)%Z then (-2)%Z else h.

(** [hash(x)] for a [float]: numbers that compare equal hash equal. *)
Definition hash_float (P : platform) (f : pyfloat) : Z :=
  match f with
  | FInf false => 314159
  | FInf true => -314159
  | FNan => hash_float_other P FNan
  | FFin q =>
      let r := Qred q in
      if Pos.eqb (Qden r) 1 then hash_int (Qnum r) else hash_float_other P f
  end.

(** [hash(v)]; lists and dicts are unhashable. *)
Definition py_hash (P : platform) (v : pyval) : result Z :=
  match v with
  | PNone => Ok (hash_none P)
  | PBool b => Ok (if b then 1 else 0)%Z
  | PInt z => Ok (hash_int z)
  | PFloat f => Ok (hash_float P f)
  | PStr s => Ok (hash_str P s)
  | PList _ | PDict _ =>
      Raise (PyExn "TypeError" ("unhashable type: '" +:+ type_name v +:+ "'"))
  end.

(** The hashes of the [(key, value)] tuples of [d.items()], in order; the
    first unhashable value raises. *)
Fixpoint hash_items (P : platform) (d : dict) : result (list Z) :=
  match d with
  | [] => Ok []
  | (k, v) :: rest =>
      hv ← py_hash P v;
      hs ← hash_items P rest;
      mret (hash_tuple P [hash_str P k; hv] :: hs)
  end.

(** [hash(frozenset(d.items()))]: a frozenset combines the hashes of its
    elements irrespective of their order, so the combinator is applied to the
    sorted hashes. *)
Definition hash_settings (P : platform) (d : dict) : result Z :=
  hs ← hash_items P d;
  mret (hash_frozenset P (merge_sort Z.le hs)).

End Platform.
Export Platform.

(* ===================================================================== *)
(** * The model factory ([models/model_factory.py]) *)
(* ===================================================================== *)

Module ModelFactory.
Import Py.

(** A chat-model object: the class it instantiates, the keyword arguments
    it was built from, and its identity (the order of its allocation). *)
Record handle := {
  handle_id : nat;
  handle_class : string;
  handle_config : gmap string pyval
}.

(** The singleton's [_model_cache], with the number of handles allocated so
    far. *)
Record factory := {
  model_cache : gmap string handle;
  allocated : nat
}.

Definition new_factory : factory := {| model_cache := ∅; allocated := 0 |}.

(** [self._vendor_lookup.get(name)]: the dictionary built from
    [MODEL_VENDORS], a later vendor overriding an earlier one of the same
    id. *)
Definition vendor_lookup (name : string) : option vendor :=
  snd <$> list_find (fun v => String.eqb (VendorID v) name) (reverse MODEL_VENDORS).

(** The clamping expression of [temperature] and [top_p]. *)
Definition clamp_unit (t : pyfloat) : pynum :=
  max2 (NInt 0) (min2 (NInt 1) (NFloat t)).

(** The clamping expression of [max_tokens]. *)
Definition clamp_tokens (n : Z) : Z := Z.max 1 (Z.min 32000 n).

(** [_create_model_class]; [fresh] is the identity the new object gets. *)
Definition _create_model_class (P : platform) (fresh : nat)
    (v : vendor) (model_id : string) (settings : dict) : result handle :=
  _ ← match import_failure P v with
      | Some ae =>
          if is_a "AttributeError" ae || is_a "ImportError" ae
             || is_a "ModuleNotFoundError" ae
          then Raise (ModelInitializationError
                 ("Error while importing " +:+ LangchainPackage v +:+ ": " +:+ Exn.str ae))
          else Raise ae
      | None => Ok tt
      end;
  (* Get API key *)
  let api_key := getenv P (APIKey v) in
  _ ← match api_key with
      | Some (String _ _) => Ok tt
      | Some EmptyString | None => Raise (APIKeyError (APIKeyNotFoundError v))
      end;
  (* Extract settings with validation *)
  temperature ← to_float P (dict_get settings "temperature" (PFloat (FFin (7 # 10))));
  let temperature := clamp_unit temperature in
  max_tokens ← to_int P (dict_get settings "contextLength" (PInt 4000));
  let max_tokens := clamp_tokens max_tokens in
  top_p ← to_float P (dict_get settings "topP" (PFloat (FFin (inject_Z 1))));
  let top_p := clamp_unit top_p in
  let model_config : gmap string pyval :=
    <[RequestTimeoutKey v := PInt 60]>
      (<[TopPKey v := num_val top_p]>
        (<[TemperatureKey v := num_val temperature]>
          (<[ModelNameKey v := PStr model_id]> ∅))) in
  let model_config :=
    if negb (String.eqb (ModelAPIKey v) "")
    then <[ModelAPIKey v := PStr (default "" api_key)]> model_config
    else model_config in
  let model_config :=
    if negb (String.eqb (MaxTokensKey v) "")
    then <[MaxTokensKey v := PInt max_tokens]> model_config
    else model_config in
  (* Create model *)
  match constructor_failure P (LangchainInterfaceClass v) model_config with
  | Some e => Raise e
  | None =>
      Ok {| handle_id := fresh;
            handle_class := LangchainInterfaceClass v;
            handle_config := model_config |}
  end.

(** [_handle_vendor_error] *)
Definition _handle_vendor_error {A} (error : exn) (v : vendor) : result A :=
  Raise (handle_vendor_exception error v).

Definition cache_key (vendor_name model_id : string) (h : Z) : string :=
  vendor_name +:+ ":" +:+ model_id +:+ ":" +:+ pretty h.

(** [get_model]: the result, and the factory afterwards. *)
Definition get_model (P : platform) (self : factory)
    (vendor_arg model_id : string) (settings : option dict) : result handle * factory :=
  let settings := default [] settings in
  (* Normalize vendor name *)
  let vendor_name := Str.lower vendor_arg in
  match vendor_lookup vendor_name with
  | None => (Raise (ModelInitializationError ("Unsupported vendor: " +:+ vendor_name)), self)
  | Some model_vendor =>
      if negb (existsb (fun model => String.eqb (entry_id model) model_id)
                 (CardModels model_vendor))
      then (Raise (ModelInitializationError ("Unsupported model: " +:+ model_id)), self)
      else
        (* Generate a cache key *)
        match hash_settings P settings with
        | Raise e => (Raise e, self)
        | Ok h =>
            let key := cache_key vendor_name model_id h in
            (* Check cache first *)
            match model_cache self !! key with
            | Some model => (Ok model, self)
            | None =>
                (* Create a new model instance *)
                match _create_model_class P (allocated self) model_vendor model_id settings with
                | Ok model =>
                    (Ok model,
                     {| model_cache := <[key := model]> (model_cache self);
                        allocated := S (allocated self) |})
                | Raise e => (_handle_vendor_error e model_vendor, self)
                end
            end
        end
  end.

(** [clear_cache] *)
Definition clear_cache (self : factory) : factory :=
  {| model_cache := ∅; allocated := allocated self |}.

(** [get_supported_vendors] *)
Definition get_supported_vendors : list string := map VendorID MODEL_VENDORS.

End ModelFactory.
Export ModelFactory.

(* ===================================================================== *)
(** * The decomposition service ([mod-agent/src/server.py]) *)
(* ===================================================================== *)

Module AgentServer.
Import Py.

(** [DecomposedResponse.model_dump()]: a component is a [Dict[str, str]]. *)
Definition component := list (string * string).

Record DecomposedResponse := {
  response : string;
  components : list component;
  explanations : list (string * string)
}.

(** The parts of an [a2a.types.Artifact]. *)
Inductive part :=
| TextPart (text : string)
| FilePart (uri : string)
| DataPart (data : dict).

Record artifact := {
  artifactId : string;
  parts : list part
}.

Record task := {
  contextId : string;
  task_ident : string;
  task_state : string;
  artifacts : option (list artifact)
}.

(** The agent graph behind [app.state.agent.ainvoke] and the printing of
    values other than strings in an f-string. *)
Record agent_env := {
  agent_ainvoke : pyval -> string -> result (option DecomposedResponse);
  repr_other : pyval -> string
}.

(** [v[key]] *)
Definition subscript (v : pyval) (key : string) : result pyval :=
  match v with
  | PDict d => lift_opt (dict_lookup d key) (PyExn "KeyError" ("'" +:+ key +:+ "'"))
  | PStr _ => Raise (PyExn "TypeError" "string indices must be integers")
  | PList _ => Raise (PyExn "TypeError" "list indices must be integers or slices, not str")
  | _ => Raise (PyExn "TypeError" "object is not subscriptable")
  end.

(** [v[0]] *)
Definition first_item (v : pyval) : result pyval :=
  match v with
  | PList (x :: _) => Ok x
  | PList [] => Raise (PyExn "IndexError" "list index out of range")
  | PStr (String c _) => Ok (PStr (String c EmptyString))
  | PStr EmptyString => Raise (PyExn "IndexError" "string index out of range")
  | PDict _ => Raise (PyExn "KeyError" "0")
  | _ => Raise (PyExn "TypeError" "object is not subscriptable")
  end.

(** [v.lower()] *)
Definition lower_of (v : pyval) : result string :=
  match v with
  | PStr s => Ok (Str.lower s)
  | _ => Raise (PyExn "AttributeError" "object has no attribute 'lower'")
  end.

(** [list(component.keys())[0]] *)
Definition first_label (c : component) : result string :=
  match c with
  | (k, _) :: _ => Ok k
  | [] => Raise (PyExn "IndexError" "list index out of range")
  end.

(** [[list(component.keys())[0] for component in components]] *)
Fixpoint labels_of (cs : list component) : result (list string) :=
  match cs with
  | [] => Ok []
  | c :: rest =>
      k ← first_label c;
      ks ← labels_of rest;
      mret (k :: ks)
  end.

Definition component_val (c : component) : pyval :=
  PDict (map (fun kv => (kv.1, PStr kv.2)) c).

(** The [response_data] dictionary of a decomposition. *)
Definition response_data_of (cs : list component) (output_type : string)
    (output_structure : list string) : dict :=
  [ ("components", PList (map component_val cs));
    ("outputType", PStr output_type);
    ("outputStructure", PList (map PStr output_structure)) ].

(** The thread key of a task: [f"{user_token}-{conversation_id}"]. *)
Definition task_thread_id (E : agent_env) (data : dict) : string :=
  let conversation_id := dict_get data "conversation_id" PNone in
  let user_token := dict_get data "userToken" PNone in
  format_value (repr_other E) user_token +:+ "-"
    +:+ format_value (repr_other E) conversation_id.

(** The body of the [try] block of [handle_task]. *)
Definition decompose_task (E : agent_env) (data : dict) (thread_id : string) : result dict :=
  message ← subscript (PDict data) "message";
  message_parts ← subscript message "parts";
  part0 ← first_item message_parts;
  response_text ← subscript part0 "text";
  (* Validate input *)
  _ ← (if negb (truthy response_text)
       then Raise (HTTPException 400 "No response text provided")
       else Ok tt);
  decomposed_response ← agent_ainvoke E response_text thread_id;
  decomposed_data ←
    lift_opt decomposed_response
      (HTTPException 500 "A decomposition request was sent but no response was found.");
  (* Extract components from decomposed response *)
  let cs := components decomposed_data in
  (* Determine output type based on response content *)
  text_lower ← lower_of response_text;
  let output_type :=
    if Str.contains "email" text_lower then "email"
    else if Str.contains "report" text_lower then "report"
    else "document" in
  (* Prepare response *)
  output_structure ← match cs with
                     | [] => Ok []
                     | _ => labels_of cs
                     end;
  mret (response_data_of cs output_type output_structure).

(** [handle_task]: the completed task, or the [HTTPException] raised. *)
Definition handle_task (E : agent_env) (data : dict) : result task :=
  let thread_id := task_thread_id E data in
  response_data ←
    try_except (decompose_task E data thread_id)
      (fun e => Raise (HTTPException 500 (Exn.str e)));
  mret {| contextId := "1234";
          task_ident := "asdf";
          task_state := "completed";
          artifacts := Some [ {| artifactId := "myartifact";
                                 parts := [DataPart response_data] |} ] |}.

End AgentServer.
Export AgentServer.

(* ===================================================================== *)
(** * The gateway ([backend/src/mod/app.py]) *)
(* ===================================================================== *)

Module Gateway.
Import Py.

(** What a chain runs: a handle of the factory, or its structured-output
    variant. *)
Inductive runnable :=
| ChatModel (h : handle)
| StructuredOutput (h : handle) (schema : pyval) (method : option string).

Inductive message :=
| HumanMessage (content : string)
| AIMessage (content : string).

(** The compiled graph of [acreate_chain]: system prompt and model. *)
Record chain := {
  chain_llm : runnable;
  chain_system_prompt : pyval
}.

Record metadata_entry := {
  md_session_id : string;
  md_model : string;
  md_settings : dict
}.

Record feedback_row := {
  row_values : list Z;
  row_comments : pyval
}.

(** The state the gateway process keeps between requests: the factory
    singleton, the checkpoint store (one message list per thread key), the
    manager's session map and metadata log, and the feedback table.  The
    manager's in-memory conversation index, access times and event log are
    left out: no value returned by [acreate_chain] depends on them. *)
Record app_state := {
  factory_of : factory;
  checkpoints : gmap string (list message);
  conversation_sessions : gmap string string;
  metadata : gmap string (list metadata_entry);
  feedback : list feedback_row
}.

(** A JSON object sent back to the client. *)
Abbreviation payload := (gmap string pyval).

(** The collaborators of the gateway: identifier generation, the JSON
    parser, the provider SDK, file processing, chain construction, the model
    behind a chain, the HTTP call to the decomposition service with the
    validation of its answer, and the database. *)
Record externals := {
  uuid4 : nat -> string;
  decompose_endpoint : string;
  json_loads : string -> option pyval;
  with_structured_output_failure : handle -> pyval -> option string -> option exn;
  process_uploaded_files : list pyval -> Z -> result (list string);
  extract_document_content : list string -> string;
  chain_failure : runnable -> pyval -> option exn;
  model_reply : chain -> list message -> result string;
  post_task : string -> dict -> result pyval;
  validate_task : pyval -> result task;
  connection_failure : option exn;
  insert_failure : feedback_row -> option exn
}.

(** ** Stateful computations that may raise *)

Definition action (A : Type) : Type := app_state -> result A * app_state.

Definition ret {A} (a : A) : action A := fun s => (Ok a, s).
Definition raise {A} (e : exn) : action A := fun s => (Raise e, s).
Definition bind {A B} (m : action A) (k : A -> action B) : action B :=
  fun s => match m s with
           | (Ok a, s') => k a s'
           | (Raise e, s') => (Raise e, s')
           end.
(** [try: m except Exception as e: handler(e)]; the effects of [m] stay. *)
Definition catch {A} (m : action A) (handler : exn -> action A) : action A :=
  fun s => match m s with
           | (Ok a, s') => (Ok a, s')
           | (Raise e, s') => handler e s'
           end.
Definition lift {A} (r : result A) : action A := fun s => (r, s).
Definition modify (f : app_state -> app_state) : action unit := fun s => (Ok tt, f s).

#[export] Instance action_ret : MRet action := fun A a => ret a.
#[export] Instance action_bind : MBind action := fun A B k m => bind m k.

(** [if c: raise e] *)
Definition raise_if (c : bool) (e : exn) : action unit :=
  if c then raise e else ret tt.

(** ** MOD agent communication *)

(** The envelope of [acall_mod_agent]. *)
Definition task_envelope (task_id user_token conversation_id output : string) : dict :=
  [ ("id", PStr task_id);
    ("userToken", PStr user_token);
    ("conversation_id", PStr conversation_id);
    ("message", PDict [ ("role", PStr "user");
                        ("parts", PList [ PDict [ ("text", PStr output) ] ]) ]) ].

(** [acall_mod_agent]: the decoded body of the answer; transport errors,
    timeouts and error statuses raise. *)
Definition acall_mod_agent (X : externals) (output endpoint conversation_id user_token : string)
  : result pyval :=
  let task_id := uuid4 X 3 in
  post_task X ("/" +:+ endpoint) (task_envelope task_id user_token conversation_id output).

(** [list(component.keys())[0]] on a decoded component. *)
Definition first_key (component : pyval) : result pyval :=
  match component with
  | PDict ((k, _) :: _) => Ok (PStr k)
  | PDict [] => Raise (PyExn "IndexError" "list index out of range")
  | _ => Raise (PyExn "AttributeError" "object has no attribute 'keys'")
  end.

Fixpoint first_keys (cs : list pyval) : result (list pyval) :=
  match cs with
  | [] => Ok []
  | c :: rest =>
      k ← first_key c;
      ks ← first_keys rest;
      mret (k :: ks)
  end.

(** [[list(component.keys())[0] for component in components]] for a truthy
    [components]: a list is traversed, a string or dict yields strings (which
    have no [keys]), anything else is not iterable. *)
Definition output_structure (cs : pyval) : result (list pyval) :=
  match cs with
  | PList items => first_keys items
  | PStr _ | PDict _ => Raise (PyExn "AttributeError" "'str' object has no attribute 'keys'")
  | _ => Raise (PyExn "TypeError" "object is not iterable")
  end.

(** The body of the loop over the parts of one artifact. *)
Definition merge_part (response_data : payload) (p : part) : result payload :=
  match p with
  | DataPart data =>
      let cs := dict_get data "components" (PList []) in
      if truthy cs then
        labels ← output_structure cs;
        mret (<["outputStructure" := PList labels]>
               (<["outputType" := dict_get data "outputType" (PStr "")]>
                 (<["components" := cs]> response_data)))
      else Ok response_data
  | _ => Raise (PyExn "AttributeError" "object has no attribute 'data'")
  end.

Fixpoint merge_parts (response_data : payload) (ps : list part) : result payload :=
  match ps with
  | [] => Ok response_data
  | p :: rest =>
      response_data ← merge_part response_data p;
      merge_parts response_data rest
  end.

Fixpoint merge_artifacts (response_data : payload) (arts : list artifact) : result payload :=
  match arts with
  | [] => Ok response_data
  | a :: rest =>
      response_data ← merge_parts response_data (parts a);
      merge_artifacts response_data rest
  end.

(** [process_decomposed_response] *)
Definition process_decomposed_response (X : externals) (task_response : pyval) : result payload :=
  t ← validate_task X task_response;
  match artifacts t with
  | Some arts => merge_artifacts ∅ arts
  | None => Ok ∅
  end.


(** ** State accessors *)

Definition set_factory (f : factory) (s : app_state) : app_state :=
  {| factory_of := f; checkpoints := checkpoints s;
     conversation_sessions := conversation_sessions s;
     metadata := metadata s; feedback := feedback s |}.

Definition set_checkpoints (c : gmap string (list message)) (s : app_state) : app_state :=
  {| factory_of := factory_of s; checkpoints := c;
     conversation_sessions := conversation_sessions s;
     metadata := metadata s; feedback := feedback s |}.

Definition set_conversation_sessions (m : gmap string string) (s : app_state) : app_state :=
  {| factory_of := factory_of s; checkpoints := checkpoints s;
     conversation_sessions := m;
     metadata := metadata s; feedback := feedback s |}.

Definition set_metadata (m : gmap string (list metadata_entry)) (s : app_state) : app_state :=
  {| factory_of := factory_of s; checkpoints := checkpoints s;
     conversation_sessions := conversation_sessions s;
     metadata := m; feedback := feedback s |}.

Definition set_feedback (rows : list feedback_row) (s : app_state) : app_state :=
  {| factory_of := factory_of s; checkpoints := checkpoints s;
     conversation_sessions := conversation_sessions s;
     metadata := metadata s; feedback := rows |}.

(** [model_factory.get_model(vendor, model_id, settings)] on the singleton. *)
Definition factory_get_model (P : platform) (vendor_arg model_id : string) (settings : dict)
  : action handle :=
  fun s =>
    let '(r, f) := get_model P (factory_of s) vendor_arg model_id (Some settings) in
    (r, set_factory f s).

(** ** The conversation manager, as far as the endpoints use it *)

(** [acreate_chain]: an absent or empty id is replaced by a fresh one, the
    session is recorded, and any failure while building the graph is wrapped
    into the manager's own [ConversationError], a class distinct from the one
    [app.py] imports from [error_handlers]. *)
Definition acreate_chain (X : externals) (llm : runnable) (system_prompt : pyval)
    (session_id : string) (conversation_id : option string) : action (string * chain) :=
  catch
    (let conversation_id :=
       match conversation_id with
       | Some (String _ _ as c) => c
       | _ => uuid4 X 2
       end in
     modify (fun s => set_conversation_sessions
                        (<[conversation_id := session_id]> (conversation_sessions s)) s);;
     match chain_failure X llm system_prompt with
     | Some e => raise e
     | None => ret (conversation_id,
                    {| chain_llm := llm; chain_system_prompt := system_prompt |})
     end)
    (fun e => raise (PyExn "conversation_manager.ConversationError"
                       ("Failed to create conversation: " +:+ Exn.str e))).

(** [record_metadata] *)
Definition record_metadata (session_id conversation_id model : string) (settings : dict)
  : action unit :=
  modify (fun s =>
    let entry := {| md_session_id := session_id; md_model := model; md_settings := settings |} in
    set_metadata
      (<[conversation_id := default [] (metadata s !! conversation_id) ++ [entry]]> (metadata s)) s).

(** [chain.ainvoke({"messages": [input]}, config)] with
    [config["configurable"]["thread_id"] = thread_id]: the checkpoint saver is
    a key-value store over thread keys; the history of the thread is read, the
    input and the reply are appended, and the result is written back under
    the same key.  A failing model leaves the store as it was. *)
Definition ainvoke (X : externals) (c : chain) (input thread_id : string)
  : action (list message) :=
  fun s =>
    let history := default [] (checkpoints s !! thread_id) in
    let messages := history ++ [HumanMessage input] in
    match model_reply X c messages with
    | Ok reply =>
        let messages := messages ++ [AIMessage reply] in
        (Ok messages, set_checkpoints (<[thread_id := messages]> (checkpoints s)) s)
    | Raise e => (Raise e, s)
    end.

Definition content_of (m : message) : string :=
  match m with
  | HumanMessage c => c
  | AIMessage c => c
  end.

(** [history["messages"][-1].content] *)
Definition last_content (messages : list message) : result string :=
  match last messages with
  | Some m => Ok (content_of m)
  | None => Raise (PyExn "IndexError" "list index out of range")
  end.

(** ** [POST /chat] *)

(** The request body, its fields at the types the interface gives them; an
    absent string field is the empty string its [data.get] defaults to. *)
Record chat_request := {
  req_message : string;
  req_model : string;
  req_userToken : string;
  req_vendor : string;
  req_settings : dict;
  req_files : list dict;
  req_decompose : pyval;
  req_session_id : option string;
  req_conversation_id : option string
}.

Definition default_system_prompt : string := "You are a helpful AI assistant.".

Definition indent20 : string := "                    ".

(** The [structured_request] f-string. *)
Definition structured_request (response_format : string) : string :=
  Str.newline +:+ indent20 +:+ "Required JSON output:" +:+ Str.newline
  +:+ indent20 +:+ "```json" +:+ Str.newline
  +:+ indent20
  +:+ Str.replace_char "}" "}}" (Str.replace_char "{" "{{" response_format)
  +:+ Str.newline
  +:+ indent20 +:+ "```" +:+ Str.newline
  +:+ indent20.

(** [llm.with_structured_output(response_obj, method=format_method)] *)
Definition with_structured_output (X : externals) (llm : handle) (schema : pyval)
    (method : option string) : result runnable :=
  match with_structured_output_failure X llm schema method with
  | Some e => Raise e
  | None => Ok (StructuredOutput llm schema method)
  end.

(** The structured-output block of [chat]: the system prompt and the model
    the chain will be built from. *)
Definition augment_prompt (X : externals) (vendor_arg : string) (settings : dict)
    (llm : handle) : pyval * runnable :=
  (* Get system prompt from settings *)
  let system_prompt := dict_get settings "systemPrompt" (PStr default_system_prompt) in
  let response_format := dict_get settings "responseFormat" PNone in
  (* Augment the system prompt to request structured output if needed *)
  if truthy response_format && differs_from_str response_format "{}" then
    match response_format with
    | PStr rf =>
        match json_loads X rf with
        | None => (* except json.JSONDecodeError *) (system_prompt, ChatModel llm)
        | Some response_obj =>
            match system_prompt with
            | PStr sp =>
                let system_prompt :=
                  if negb (Str.contains "json" (Str.lower sp))
                  then PStr (sp +:+ Str.newline +:+ Str.newline +:+ structured_request rf)
                  else system_prompt in
                let format_method :=
                  if String.eqb (Str.lower vendor_arg) "openai" then Some "json_mode" else None in
                match with_structured_output X llm response_obj format_method with
                | Ok llm' => (system_prompt, llm')
                | Raise _ => (* except Exception *) (system_prompt, ChatModel llm)
                end
            | _ => (* [system_prompt.lower()] raises; except Exception *)
                (system_prompt, ChatModel llm)
            end
        end
    | _ => (* [json.loads] of a non-string raises; except Exception *)
        (system_prompt, ChatModel llm)
    end
  else (system_prompt, ChatModel llm).

(** The file block of [chat]: the user input, extended by the document
    content when files were processed. *)
Definition load_documents (P : platform) (X : externals) (settings : dict)
    (files : list dict) (user_input : string) : result string :=
  let file_paths := filter (fun p => truthy p = true) (map (fun file => dict_get file "path" PNone) files) in
  documents ←
    match file_paths with
    | [] => Ok []
    | _ =>
        (* Set chunk size from settings if available *)
        chunk_size ← to_int P (dict_get settings "chunkSize" (PInt 1000));
        match process_uploaded_files X file_paths chunk_size with
        | Ok documents => Ok documents
        | Raise e => if is_a "FileProcessingError" e then Ok [] else Raise e
        end
    end;
  (* Add document content to user input if available *)
  match documents with
  | [] => Ok user_input
  | _ => Ok (user_input +:+ Str.newline +:+ Str.newline +:+ "Relevant document content:"
             +:+ Str.newline +:+ extract_document_content X documents)
  end.

(** The thread key of a chat: [f"{user_token}-{conversation_id}"]. *)
Definition chat_thread_id (user_token conversation_id : string) : string :=
  user_token +:+ "-" +:+ conversation_id.

(** The two calls inside the decomposition block of [chat]. *)
Definition decomposition (X : externals)
    (response_content conversation_id user_token : string) : result payload :=
  decomposed_data ← acall_mod_agent X response_content (decompose_endpoint X)
                      conversation_id user_token;
  process_decomposed_response X decomposed_data.

(** The decomposition block of [chat]: the payload after it. *)
Definition decompose_response (X : externals) (response_data : payload)
    (response_content conversation_id user_token : string) : payload :=
  match decomposition X response_content conversation_id user_token with
  | Ok decomposed_response =>
      (* Add decomposed components to response *)
      decomposed_response ∪ response_data
  | Raise _ =>
      (* Continue without components if decomposition fails *)
      response_data
  end.

(** The [response_data] dictionary before decomposition. *)
Definition response_payload (data : chat_request)
    (response_content conversation_id : string) : payload :=
  <["conversation_id" := PStr conversation_id]>
    (<["vendor" := PStr (req_vendor data)]>
      (<["model" := PStr (req_model data)]>
        (<["text" := PStr response_content]> ∅))).

(** The inner [try] of [chat]: invocation, response assembly,
    decomposition. *)
Definition respond (X : externals) (data : chat_request) (c : chain)
    (user_input conversation_id : string) : action payload :=
  let thread_id := chat_thread_id (req_userToken data) conversation_id in
  catch
    (chat_history ← ainvoke X c user_input thread_id;
     response_content ← lift (last_content chat_history);
     (* Prepare response data *)
     let response_data := response_payload data response_content conversation_id in
     (* If decompose is enabled, perform decomposition *)
     let response_data :=
       if truthy (req_decompose data)
       then decompose_response X response_data response_content conversation_id
              (req_userToken data)
       else response_data in
     mret response_data)
    (fun e => raise (HTTPException 500 ("Error from language model: " +:+ Exn.str e))).

(** The file block and the chain block of [chat], given the system prompt
    and the model the structured-output block left: the conversation id, the
    chain and the user input the invocation will use. *)
Definition open_conversation (P : platform) (X : externals) (data : chat_request)
    (session_id conversation_id : string) (system_prompt : pyval) (llm : runnable)
  : action (string * chain * string) :=
  (* Process any uploaded files *)
  user_input ← lift (load_documents P X (req_settings data) (req_files data) (req_message data));
  (* Create conversation chain *)
  '(conversation_id, c) ←
    catch
      (r ← acreate_chain X llm system_prompt session_id (Some conversation_id);
       record_metadata session_id r.1 (req_model data) (req_settings data);;
       mret r)
      (fun e =>
         if is_a "ConversationError" e
         then raise (HTTPException 400
                ("An exception occurred while creating conversation chain: " +:+ Exn.str e))
         else raise e);
  mret (conversation_id, c, user_input).

(** [chat] up to the invocation of the chain. *)
Definition chat_setup (P : platform) (X : externals) (data : chat_request)
  : action (string * chain * string) :=
  let session_id := default (uuid4 X 0) (req_session_id data) in
  (* Validate required inputs *)
  raise_if (String.eqb (req_message data) "") (HTTPException 400 "Empty message");;
  raise_if (String.eqb (req_model data) "") (HTTPException 400 "No model selected");;
  raise_if (String.eqb (req_vendor data) "") (HTTPException 400 "No vendor specified");;
  (* Generate a conversation ID (or use one if provided) *)
  let conversation_id := default (uuid4 X 1) (req_conversation_id data) in
  (* Get LLM instance from factory *)
  llm ← factory_get_model P (req_vendor data) (req_model data) (req_settings data);
  let '(system_prompt, llm) := augment_prompt X (req_vendor data) (req_settings data) llm in
  open_conversation P X data session_id conversation_id system_prompt llm.

(** The outer [try] of [chat]. *)
Definition chat_body (P : platform) (X : externals) (data : chat_request) : action payload :=
  '(conversation_id, c, user_input) ← chat_setup P X data;
  (* Get response from the chain *)
  respond X data c user_input conversation_id.

(** [chat]: [Ok] is the 200 response, [Raise (HTTPException c d)] the
    response with status [c]. *)
Definition chat (P : platform) (X : externals) (data : chat_request) : action payload :=
  catch (chat_body P X data)
    (fun e =>
       if is_a "ModelInitializationError" e
       then raise (HTTPException 400 (Exn.str e))
       else raise (HTTPException 500
              ("An unexpected error occurred. Please try again." +:+ Str.newline +:+ Exn.str e))).

(** ** [POST /regenerate] *)

Record regenerate_request := {
  rg_text : string;
  rg_prompt : string;
  rg_model : string;
  rg_vendor : string;
  rg_settings : dict;
  rg_conversation_id : option string;
  rg_session_id : option string;
  rg_component_title : string;
  rg_original_response : string;
  rg_original_prompt : string
}.

(** The [regen_input] f-string. *)
Definition regen_input (data : regenerate_request) : string :=
  "Original user request:" +:+ Str.newline +:+ rg_original_prompt data
  +:+ Str.newline +:+ Str.newline
  +:+ "Original assistant response:" +:+ Str.newline +:+ rg_original_response data
  +:+ Str.newline +:+ Str.newline
  +:+ "You are editing the component titled '" +:+ rg_component_title data +:+ "'. "
  +:+ "Its current text is:" +:+ Str.newline +:+ rg_text data
  +:+ Str.newline +:+ Str.newline
  +:+ "Edit only that component using the user's instruction: " +:+ rg_prompt data
  +:+ Str.newline
  +:+ "Return only the updated text for this component.".

(** The thread key of a regeneration: the conversation id itself. *)
Definition regenerate_thread_id (conversation_id : string) : string := conversation_id.

(** The inner [try] of [regenerate]. *)
Definition regenerate_invoke (X : externals) (data : regenerate_request)
    (llm : handle) (system_prompt : pyval) (session_id : string) : action (string * string) :=
  catch
    ('(conversation_id, c) ←
       acreate_chain X (ChatModel llm) system_prompt session_id (rg_conversation_id data);
     record_metadata session_id conversation_id (rg_model data) (rg_settings data);;
     regenerated ← ainvoke X c (regen_input data) (regenerate_thread_id conversation_id);
     regenerated_content ← lift (last_content regenerated);
     mret (conversation_id, regenerated_content))
    (fun e => raise (HTTPException 500 ("Regeneration failed: " +:+ Exn.str e))).

(** [regenerate] *)
Definition regenerate (P : platform) (X : externals) (data : regenerate_request)
  : action payload :=
  catch
    (let session_id := default (uuid4 X 0) (rg_session_id data) in
     llm ← factory_get_model P (rg_vendor data) (rg_model data) (rg_settings data);
     let system_prompt :=
       dict_get (rg_settings data) "systemPrompt" (PStr default_system_prompt) in
     '(conversation_id, regenerated_content) ←
       regenerate_invoke X data llm system_prompt session_id;
     mret (<["conversation_id" := PStr conversation_id]>
            (<["text" := PStr regenerated_content]> (∅ : payload))))
    (fun e => raise (HTTPException 500 ("Regeneration failed: " +:+ Exn.str e))).

(** ** [POST /feedback] *)

(** [[int(r) for r in ratings]] *)
Fixpoint ints_of (P : platform) (ratings : list pyval) : result (list Z) :=
  match ratings with
  | [] => Ok []
  | r :: rest =>
      v ← to_int P r;
      vs ← ints_of P rest;
      mret (v :: vs)
  end.

(** The [INSERT] with its [commit]; a failure reaches the handler that
    misspells the [detail] keyword, so what leaves it is a [TypeError]. *)
Definition insert_feedback (X : externals) (row : feedback_row) : action unit :=
  catch
    (match insert_failure X row with
     | Some ex => raise ex
     | None => modify (fun s => set_feedback (feedback s ++ [row]) s)
     end)
    (fun ex => raise (PyExn "TypeError"
                        "HTTPException.__init__() got an unexpected keyword argument 'detaiil'")).

(** [isinstance(ratings, list) and len(ratings) == 10] *)
Definition ten_ratings (ratings : pyval) : option (list pyval) :=
  match ratings with
  | PList rs => if (length rs =? 10)%nat then Some rs else None
  | _ => None
  end.

(** [submit_feedback] *)
Definition submit_feedback (P : platform) (X : externals) (data : option dict)
  : action payload :=
  catch
    (let data := default [] data in
     let ratings := dict_get data "ratings" PNone in
     let comments := dict_get data "comments" (PStr "") in
     rs ← lift (lift_opt (ten_ratings ratings)
                  (HTTPException 400 "Submitted invalid ratings"));
     values ← lift (ints_of P rs);
     match connection_failure X with
     | Some e => raise e
     | None =>
         insert_feedback X {| row_values := values; row_comments := comments |};;
         mret (<["success" := PBool true]> (∅ : payload))
     end)
    (fun e => raise (HTTPException 500 ("Encountered error: " +:+ Exn.str e))).

(** The status code the client receives. *)
Definition status_of {A} (r : result A) : nat :=
  match r with
  | Ok _ => 200
  | Raise (HTTPException c _) => c
  | Raise (PyExn _ _) => 500
  end.

End Gateway.
Export Gateway.

(* ===================================================================== *)
(** * A concrete deployment, for running the model *)
(* ===================================================================== *)

Module Scenario.
Import Py.

(** A process with the provider SDKs installed and the OpenAI key set. *)
Definition demo_platform : platform := {|
  getenv := fun name => if String.eqb name "OPENAI_API_KEY" then Some "sk-demo" else None;
  hash_str := fun s => Z.of_nat (String.length s) * 1000003;
  hash_none := 613068;
  hash_float_other := fun _ => 7;
  hash_tuple := foldr (fun h acc => h + 31 * acc) 17;
  hash_frozenset := foldr Z.lxor 0;
  float_of_str := fun _ => None;
  int_of_str := fun _ => None;
  import_failure := fun _ => None;
  constructor_failure := fun _ _ => None
|}%Z.

(** The same process without any variable in its environment. *)
Definition bare_platform : platform := {|
  getenv := fun _ => None;
  hash_str := hash_str demo_platform;
  hash_none := hash_none demo_platform;
  hash_float_other := hash_float_other demo_platform;
  hash_tuple := hash_tuple demo_platform;
  hash_frozenset := hash_frozenset demo_platform;
  float_of_str := float_of_str demo_platform;
  int_of_str := int_of_str demo_platform;
  import_failure := import_failure demo_platform;
  constructor_failure := constructor_failure demo_platform
|}.

Definition timeout_error : exn := PyExn "ReadTimeout" "timed out".

(** A gateway whose model answers and whose decomposition call times
    out. *)
Definition demo_externals : externals := {|
  uuid4 := fun n => "uuid-" +:+ pretty n;
  decompose_endpoint := "decompose";
  json_loads := fun s => if String.eqb s "{}" then Some (PDict []) else None;
  with_structured_output_failure := fun _ _ _ => None;
  process_uploaded_files := fun _ _ => Ok [];
  extract_document_content := fun _ => "";
  chain_failure := fun _ _ => None;
  model_reply := fun _ _ => Ok "Hello!";
  post_task := fun _ _ => Raise timeout_error;
  validate_task := fun _ => Raise (PyExn "ValidationError" "invalid task");
  connection_failure := None;
  insert_failure := fun _ => None
|}.

Definition empty_app : app_state := {|
  factory_of := new_factory;
  checkpoints := ∅;
  conversation_sessions := ∅;
  metadata := ∅;
  feedback := []
|}.

Definition demo_chat (decompose : bool) (settings : dict) : chat_request := {|
  req_message := "Hi";
  req_model := "gpt-4.1-mini";
  req_userToken := "alice";
  req_vendor := "openai";
  req_settings := settings;
  req_files := [];
  req_decompose := PBool decompose;
  req_session_id := Some "s1";
  req_conversation_id := Some "c1"
|}.


(** An answer with two headed sections, as the agent decomposes it. *)
Definition two_sections : DecomposedResponse := {|
  response := "Intro: hello. Body: details.";
  components := [ [("Intro", "Intro: hello.")]; [("Body", "Body: details.")] ];
  explanations := [("Intro", "the opening"); ("Body", "the content")]
|}.

Definition demo_agent : agent_env := {|
  agent_ainvoke := fun _ _ => Ok (Some two_sections);
  repr_other := fun _ => ""
|}.

Definition demo_envelope : dict :=
  task_envelope "t1" "alice" "c1" "Intro: hello. Body: details.".

(** A gateway whose decomposition call reaches the service: the transport
    and the JSON coding of the task are collapsed, the body of the answer
    stands for the task [handle_task] builds from the envelope. *)
Definition linked_externals : externals := {|
  uuid4 := uuid4 demo_externals;
  decompose_endpoint := "tasks/send";
  json_loads := json_loads demo_externals;
  with_structured_output_failure := with_structured_output_failure demo_externals;
  process_uploaded_files := process_uploaded_files demo_externals;
  extract_document_content := extract_document_content demo_externals;
  chain_failure := chain_failure demo_externals;
  model_reply := fun _ _ => Ok "Intro: hello. Body: details.";
  post_task := fun _ envelope => Ok (PDict envelope);
  validate_task := fun body =>
    match body with
    | PDict envelope => handle_task demo_agent envelope
    | _ => Raise (PyExn "ValidationError" "invalid task")
    end;
  connection_failure := None;
  insert_failure := fun _ => None
|}.

(** Nine ratings. *)
Definition nine_ratings : dict :=
  [ ("ratings", PList (replicate 9 (PInt 5))); ("comments", PStr "fine") ].

End Scenario.

(* ===================================================================== *)
(** * Notions used to state the properties *)
(* ===================================================================== *)

Module Notions.
Import Py Scenario.

(** A token without the separator. *)
Definition dash_free (s : string) : Prop := Str.has_char "-" s = false.



(** Every cached handle was allocated by the factory, and no handle sits
    under two keys. *)
Definition cache_wf (f : factory) : Prop :=
  (forall k h, model_cache f !! k = Some h -> handle_id h < allocated f)
  /\ (forall k1 k2 h1 h2,
        model_cache f !! k1 = Some h1 -> model_cache f !! k2 = Some h2 ->
        handle_id h1 = handle_id h2 -> k1 = k2).

(** The handle a call returned (a blank one when it raised). *)
Definition returned (r : result handle * factory) : handle :=
  match r.1 with
  | Ok h => h
  | Raise _ => {| handle_id := 0; handle_class := ""; handle_config := ∅ |}
  end.

Definition cold_call : result handle * factory :=
  get_model demo_platform new_factory "openai" "gpt-4.1" (Some [("temperature", PInt 0)]).

Definition warm_call : result handle * factory :=
  get_model demo_platform cold_call.2 "openai" "gpt-4.1" (Some [("temperature", PInt 1)]).

(** [l] is the first key of the component [c]. *)
Definition labelled (c : component) (l : string) : Prop :=
  exists v rest, c = (l, v) :: rest.

(** The same on decoded JSON. *)
Definition key_of (c l : pyval) : Prop :=
  exists k v rest, c = PDict ((k, v) :: rest) /\ l = PStr k.

(** In a payload, [outputStructure] lists the first keys of [components],
    in order; the two fields come together. *)
Definition structure_follows_components (rd : payload) : Prop :=
  match rd !! "components", rd !! "outputStructure" with
  | Some cs, Some os =>
      exists items labels, cs = PList items /\ os = PList labels
                           /\ Forall2 key_of items labels
  | None, None => True
  | _, _ => False
  end.

(** The labels in a payload are the first keys of its components. *)
Definition labels_recomputed (rd : payload) : Prop :=
  forall items labels,
    rd !! "components" = Some (PList items) ->
    rd !! "outputStructure" = Some (PList labels) ->
    first_keys items = Ok labels.

(** The payload of a result, empty when there is none. *)
Definition payload_of (r : result payload) : payload :=
  match r with
  | Ok rd => rd
  | Raise _ => ∅
  end.

(** The request with decomposition switched off. *)
Definition without_decompose (data : chat_request) : chat_request := {|
  req_message := req_message data;
  req_model := req_model data;
  req_userToken := req_userToken data;
  req_vendor := req_vendor data;
  req_settings := req_settings data;
  req_files := req_files data;
  req_decompose := PBool false;
  req_session_id := req_session_id data;
  req_conversation_id := req_conversation_id data
|}.


(** The history an invocation reads: what the store holds under the key. *)
Definition history_at (s : app_state) (thread_id : string) : list message :=
  default [] (checkpoints s !! thread_id).

End Notions.
Export Notions.

(* ===================================================================== *)
(** * File handling ([backend/src/mod/file_handlers.py]) *)
(* ===================================================================== *)

Module FileHandlers.
Import Py.

Definition FileProcessingError (message : string) : exn :=
  PyExn "FileProcessingError" message.

Definition MAX_FILE_SIZE : Z := 10 * 1024 * 1024.
Definition MAX_COMBINED_CONTENT : Z := 100 * 1024.

Definition SUPPORTED_EXTENSIONS : list (string * string) := [
  ("txt", "text/plain");
  ("csv", "text/csv");
  ("pdf", "application/pdf");
  ("md", "text/markdown");
  ("docx", "application/vnd.openxmlformats-officedocument.wordprocessingml.document");
  ("xlsx", "application/vnd.openxmlformats-officedocument.spreadsheetml.sheet");
  ("json", "application/json");
  ("html", "text/html") ].

Inductive loader_class :=
| TextLoader
| CSVLoader
| PyPDFLoader
| UnstructuredFileLoader.

Definition FILE_LOADERS : list (string * loader_class) := [
  ("txt", TextLoader);
  ("csv", CSVLoader);
  ("pdf", PyPDFLoader);
  ("md", TextLoader);
  ("default", UnstructuredFileLoader) ].

(** [d.get(key)] on a dictionary literal. *)
Fixpoint lookup_key {A} (d : list (string * A)) (key : string) : option A :=
  match d with
  | [] => None
  | (k, a) :: rest => if String.eqb k key then Some a else lookup_key rest key
  end.

(** A loaded document: a langchain [Document] with its [page_content], or
    any other object, of which the code takes [str(doc)]. *)
Inductive document :=
| Document (page_content : string)
| Opaque (text : string).

(** The file system and the langchain loaders and splitter. *)
Record file_env := {
  path_exists : string -> bool;
  getsize : string -> result Z;
  loader_failure : loader_class -> string -> option exn;
  load : loader_class -> string -> result (list document);
  split_documents : Z -> Z -> list document -> result (list document)
}.

(** [filepath.split('.')[-1].lower() if '.' in filepath else None] *)
Definition file_ext (filepath : string) : option string :=
  if Str.has_char "." filepath
  then Some (Str.lower (default EmptyString (last (Str.split "." filepath))))
  else None.

(** [validate_file]: the pair [(is_valid, error_message)].  The comparison of
    the guessed mime type only logs. *)
Definition validate_file (F : file_env) (filepath : string) : result (bool * option string) :=
  (* Check if file exists *)
  if negb (path_exists F filepath)
  then Ok (false, Some ("File not found: " +:+ filepath))
  else
    (* Check file size *)
    file_size ← getsize F filepath;
    if (MAX_FILE_SIZE <? file_size)%Z
    then Ok (false, Some ("File too large (" +:+ pretty file_size
                          +:+ " bytes). Maximum size is " +:+ pretty MAX_FILE_SIZE
                          +:+ " bytes."))
    else
      (* Check file extension *)
      match file_ext filepath with
      | Some (String _ _ as ext) =>
          match lookup_key SUPPORTED_EXTENSIONS ext with
          | Some _ => Ok (true, None)
          | None => Ok (false, Some ("Unsupported file type: " +:+ ext))
          end
      | _ => Ok (false, Some "Unsupported file type: unknown")
      end.

(** [get_loader_for_file]: the loader class and the path it was built on. *)
Definition get_loader_for_file (F : file_env) (filepath : string)
  : result (loader_class * string) :=
  match file_ext filepath with
  | Some (String _ _ as ext) =>
      let loader_class :=
        match lookup_key FILE_LOADERS ext with
        | Some c => Some c
        | None => lookup_key FILE_LOADERS "default"
        end in
      match loader_class with
      | None =>
          Raise (FileProcessingError ("No document loader available for file type: " +:+ ext))
      | Some c =>
          match loader_failure F c filepath with
          | Some e =>
              Raise (FileProcessingError
                       ("Failed to initialize document loader: " +:+ Exn.str e))
          | None => Ok (c, filepath)
          end
      end
  | _ => Raise (FileProcessingError ("Cannot determine file type for " +:+ filepath))
  end.

(** An entry of [failed_files]. *)
Record failed_file := {
  failed_path : string;
  failed_error : option string
}.

(** The body of the [try] of the loop over the files: the documents of a
    file, or the message of a file that did not validate. *)
Definition load_file (F : file_env) (file_path : string)
  : result (list document + option string) :=
  (* Validate file *)
  '(is_valid, error_message) ← validate_file F file_path;
  if negb is_valid then Ok (inr error_message)
  else
    (* Get appropriate loader *)
    loader ← get_loader_for_file F file_path;
    (* Load the document *)
    loaded_docs ← load F loader.1 loader.2;
    mret (inl loaded_docs).

(** One turn of the loop, on [(documents, failed_files)]. *)
Definition process_file (F : file_env) (acc : list document * list failed_file)
    (file_path : string) : list document * list failed_file :=
  match load_file F file_path with
  | Ok (inl loaded_docs) => (acc.1 ++ loaded_docs, acc.2)
  | Ok (inr error_message) =>
      (acc.1, acc.2 ++ [ {| failed_path := file_path; failed_error := error_message |} ])
  | Raise e =>
      (acc.1, acc.2 ++ [ {| failed_path := file_path; failed_error := Some (Exn.str e) |} ])
  end.

(** [f"{f['path']}: {f['error']}"] *)
Definition failure_line (f : failed_file) : string :=
  failed_path f +:+ ": " +:+ default "None" (failed_error f).

(** [process_uploaded_files]: the pair [(documents, failed_files)]. *)
Definition process_uploaded_files (F : file_env) (file_paths : list string)
    (chunk_size chunk_overlap : Z) : result (list document * list failed_file) :=
  match file_paths with
  | [] => Ok ([], [])
  | _ =>
      let '(documents, failed_files) := foldl (process_file F) ([], []) file_paths in
      match documents with
      | _ :: _ =>
          (* If we have documents, split them into chunks *)
          match split_documents F chunk_size chunk_overlap documents with
          | Ok split_docs => Ok (split_docs, failed_files)
          | Raise e =>
              (* Return the original unsplit documents if splitting fails *)
              Ok (documents,
                  failed_files ++ [ {| failed_path := "document_splitting";
                                       failed_error := Some (Exn.str e) |} ])
          end
      | [] =>
          match failed_files with
          | _ :: _ =>
              (* If all files failed *)
              Raise (FileProcessingError
                       ("Failed to process all files: "
                        +:+ Str.join ", " (map failure_line failed_files)))
          | [] => Ok (documents, failed_files)
          end
      end
  end.

(** [doc.page_content] when the object has one, [str(doc)] otherwise. *)
Definition document_text (doc : document) : string :=
  match doc with
  | Document page_content => page_content
  | Opaque text => text
  end.

Definition truncation_notice : string := "...(content truncated due to length)".

(** [extract_document_content].  Its two handlers are not reached: reading
    the text of a document and joining strings do not raise. *)
Definition extract_document_content (documents : list document) (max_length : Z) : string :=
  match documents with
  | [] => EmptyString
  | _ =>
      (* Extract content from each document *)
      let contents := map document_text documents in
      (* Combine content with separators *)
      let combined := Str.join (Str.newline +:+ Str.newline) contents in
      (* Trim if necessary to avoid exceeding context limits *)
      if (max_length <? Z.of_nat (String.length combined))%Z
      then Str.slice_to max_length combined +:+ truncation_notice
      else combined
  end.

(** [get_supported_file_types] *)
Definition get_supported_file_types : list string := map fst SUPPORTED_EXTENSIONS.

(** [cleanup_files] on the set of paths that exist; [os.remove] may fail,
    which is logged. *)
Definition cleanup_files (remove_failure : string -> option exn)
    (present : gset string) (file_paths : list string) : gset string :=
  foldl (fun present file_path =>
           if bool_decide (file_path ∈ present)
           then match remove_failure file_path with
                | None => present ∖ {[ file_path ]}
                | Some _ => present
                end
           else present)
        present file_paths.

End FileHandlers.

(* ===================================================================== *)
(** * The in-memory index of the conversation manager
      ([backend/src/mod/conversation_manager.py]) *)
(* ===================================================================== *)

Module Manager.
Import Py.

(** What [_conversations] holds for a conversation: the empty dictionary of
    a new one, or the messages loaded from the checkpoint store. *)
Inductive memory :=
| NewMemory
| LoadedMessages (messages : list message).

Record event := {
  ev_timestamp : Q;
  ev_session_id : string;
  ev_type : pyval;
  ev_data : pyval
}.

(** The manager's [_storage_dir], [_conversations], [_last_accessed] and
    [_events]. *)
Record manager := {
  storage_dir : option string;
  conversations : gmap string memory;
  last_accessed : gmap string Q;
  events : gmap string (list event)
}.

Definition set_conversations (c : gmap string memory) (self : manager) : manager :=
  {| storage_dir := storage_dir self; conversations := c;
     last_accessed := last_accessed self; events := events self |}.

Definition set_last_accessed (a : gmap string Q) (self : manager) : manager :=
  {| storage_dir := storage_dir self; conversations := conversations self;
     last_accessed := a; events := events self |}.

Definition set_events (e : gmap string (list event)) (self : manager) : manager :=
  {| storage_dir := storage_dir self; conversations := conversations self;
     last_accessed := last_accessed self; events := e |}.

(** [_load_conversation] and [_aload_conversation]: the checkpoint saver is
    asked for the thread named by the conversation id itself; a thread it
    does not hold makes the subscript of [None] raise the [TypeError] the
    first handler catches, any other failure is caught by the second. *)
Definition _load_conversation (saver_failure : string -> option exn)
    (store : gmap string (list message)) (self : manager) (conversation_id : string)
  : option (list message) :=
  match storage_dir self with
  | None | Some EmptyString => None
  | Some _ =>
      match saver_failure conversation_id with
      | Some _ => None
      | None => store !! conversation_id
      end
  end.

(** [get_or_create_memory] and [aget_or_create_memory]; [fresh] is the
    [uuid4] drawn for a missing id, [now] the reading of the clock. *)
Definition get_or_create_memory (saver_failure : string -> option exn)
    (store : gmap string (list message)) (fresh : string) (now : Q)
    (conversation_id : option string) (self : manager) : (string * memory) * manager :=
  (* Generate an ID if none provided *)
  let conversation_id :=
    match conversation_id with
    | Some (String _ _ as c) => c
    | _ => fresh
    end in
  (* Check if conversation exists *)
  let self :=
    match conversations self !! conversation_id with
    | Some _ => self
    | None =>
        (* Try to load from storage first *)
        let loaded := _load_conversation saver_failure store self conversation_id in
        let self :=
          match loaded with
          | Some ((_ :: _) as messages) =>
              set_conversations
                (<[conversation_id := LoadedMessages messages]> (conversations self)) self
          | _ =>
              (* Create new memory *)
              set_conversations (<[conversation_id := NewMemory]> (conversations self)) self
          end in
        match events self !! conversation_id with
        | Some _ => self
        | None => set_events (<[conversation_id := []]> (events self)) self
        end
    end in
  (* Update access timestamp *)
  let self := set_last_accessed (<[conversation_id := now]> (last_accessed self)) self in
  ((conversation_id, default NewMemory (conversations self !! conversation_id)), self).

(** What [get_conversation_history] returns: the empty list of an unknown
    conversation, or the memory of a known one. *)
Inductive history :=
| NoHistory
| Memory (m : memory).

(** [get_conversation_history] *)
Definition get_conversation_history (now : Q) (conversation_id : string) (self : manager)
  : history * manager :=
  match conversations self !! conversation_id with
  | None => (NoHistory, self)
  | Some m =>
      (* Update access timestamp *)
      (Memory m, set_last_accessed (<[conversation_id := now]> (last_accessed self)) self)
  end.

(** [record_event] *)
Definition record_event (now : Q) (session_id conversation_id : string)
    (event_type : pyval) (data : pyval) (self : manager) : manager :=
  let log := default [] (events self !! conversation_id) in
  set_events
    (<[conversation_id :=
         log ++ [ {| ev_timestamp := now;
                     ev_session_id := session_id;
                     ev_type := event_type;
                     ev_data := if truthy data then data else PDict [] |} ]]>
       (events self))
    self.

End Manager.

(* ===================================================================== *)
(** * The remaining routes of the gateway ([backend/src/mod/app.py]) *)
(* ===================================================================== *)

Module Routes.
Import Py.

(** ** [GET /models] and [GET /health] *)

Definition model_card (m : model_entry) : pyval :=
  PDict (("id", PStr (entry_id m))
         :: match entry_name m with
            | Some n => [("name", PStr n)]
            | None => []
            end).

(** The [Card] of a vendor enumeration. *)
Definition Card (v : vendor) : dict :=
  [ ("id", PStr (VendorID v));
    ("name", PStr (DisplayName v));
    ("models", PList (map model_card (CardModels v))) ].

(** [models/model_registry.py] *)
Definition AVAILABLE_VENDORS : list dict := map Card MODEL_VENDORS.

(** [get_models] *)
Definition get_models : payload :=
  <["vendors" := PList (map PDict AVAILABLE_VENDORS)]> ∅.

(** [bool(os.getenv(name))] *)
Definition env_set (P : platform) (name : string) : bool :=
  match getenv P name with
  | Some (String _ _) => true
  | _ => false
  end.

(** [health_check] *)
Definition health_check (P : platform) : payload :=
  <["vendors" := PList (map PStr get_supported_vendors)]>
    (<["file_types" := PList (map PStr FileHandlers.get_supported_file_types)]>
      (<["api_keys" := PDict [ ("openai", PBool (env_set P "OPENAI_API_KEY"));
                               ("anthropic", PBool (env_set P "ANTHROPIC_API_KEY")) ]]>
        (<["status" := PStr "ok"]> ∅))).

(** ** [POST /save_settings] *)




(** ** [POST /log_event] *)

(** The request body; the conversation and session ids are strings when
    present, as the interface sends them. *)
Record log_event_request := {
  le_event_type : pyval;
  le_conversation_id : option string;
  le_session_id : option string;
  le_data : option pyval
}.

(** [log_event]: the body of the 200 response, and the manager afterwards. *)
Definition log_event (now : Q) (data : log_event_request) (self : Manager.manager)
  : payload * Manager.manager :=
  let event_type := le_event_type data in
  let conversation_id := default "global" (le_conversation_id data) in
  let session_id := default "" (le_session_id data) in
  let event_data := default (PDict []) (le_data data) in
  if negb (truthy event_type)
  then (<["error" := PStr "Missing event_type"]> ∅, self)
  else (<["success" := PBool true]> ∅,
        Manager.record_event now session_id conversation_id event_type event_data self).

(** ** [POST /upload] *)

Definition supported_file_types : list string :=
  ["jpg"; "jpeg"; "png"; "pdf"; "docx"; "txt"].

(** [os.path.join(a, b)] *)
Definition path_join (a b : string) : string :=
  if String.prefix "/" b then b
  else if String.eqb a "" || Str.ends_with "/" a then a +:+ b
  else a +:+ "/" +:+ b.

(** An [UploadFile]: its name and its bytes. *)
Record upload := {
  filename : option string;
  file_contents : string
}.

(** The files on disk, by path. *)
Definition disk := gmap string string.

(** The upload folder of the configuration, and the failures of opening,
    reading or writing: the exception, and what is left of the file when it
    had been opened. *)
Record upload_env := {
  UPLOAD_FOLDER : string;
  io_failure : string -> string -> option (exn * option string)
}.

(** [upload_file]: the response, and the disk afterwards. *)
Definition upload_file (U : upload_env) (file : upload) (d : disk) : result payload * disk :=
  (* Check for empty filename *)
  match filename file with
  | Some EmptyString => (Raise (HTTPException 400 "No selected file"), d)
  | None =>
      (* [os.path.join] refuses [None] *)
      (Raise (HTTPException 500
                ("File upload failed: "
                 +:+ "expected str, bytes or os.PathLike object, not NoneType")), d)
  | Some filename =>
      let file_path := path_join (UPLOAD_FOLDER U) filename in
      match io_failure U file_path (file_contents file) with
      | Some (e, remains) =>
          (Raise (HTTPException 500 ("File upload failed: " +:+ Exn.str e)),
           match remains with
           | Some partial => <[file_path := partial]> d
           | None => d
           end)
      | None =>
          (* Check if file type is supported *)
          let file_ext := FileHandlers.file_ext filename in
          let is_supported :=
            match file_ext with
            | Some ext => bool_decide (ext ∈ supported_file_types)
            | None => false
            end in
          (Ok (<["supported" := PBool is_supported]>
                (<["file_path" := PStr file_path]>
                  (<["filename" := PStr filename]>
                    (<["success" := PBool true]> ∅)))),
           <[file_path := file_contents file]> d)
      end
  end.

End Routes.

(* ===================================================================== *)
(** * Further notions used to state the properties *)
(* ===================================================================== *)

Module MoreNotions.
Import Py.

(** The vendor and the model are on the list [GET /models] answers with. *)
Definition listed (vendor_name model_id : string) : Prop :=
  exists card models m,
    card ∈ Routes.AVAILABLE_VENDORS
    /\ dict_lookup card "id" = Some (PStr vendor_name)
    /\ dict_lookup card "models" = Some (PList models)
    /\ m ∈ models
    /\ subscript m "id" = Ok (PStr model_id).

(** The result is one of the two rejections of the membership checks. *)
Definition rejected_as_unsupported (r : result handle) (vendor_arg model_id : string) : Prop :=
  r = Raise (ModelInitializationError ("Unsupported vendor: " +:+ Str.lower vendor_arg))
  \/ r = Raise (ModelInitializationError ("Unsupported model: " +:+ model_id)).

(** The part carries a non-empty [components] entry. *)
Definition carries_components (p : part) : bool :=
  match p with
  | DataPart data => truthy (dict_get data "components" (PList []))
  | _ => false
  end.

(** The three entries a decomposition adds to a payload. *)
Definition decomposition_entries (cs output_type : pyval) (labels : list pyval)
    (rd : payload) : payload :=
  <["outputStructure" := PList labels]>
    (<["outputType" := output_type]> (<["components" := cs]> rd)).

(** The parts of all the artifacts of a task, in order. *)
Definition all_parts (t : task) : list part :=
  concat (map parts (default [] (artifacts t))).

(** One of the three keys of a decomposition. *)
Definition decomposition_key (k : string) : Prop :=
  k = "components" \/ k = "outputType" \/ k = "outputStructure".

(** The loader [FILE_LOADERS] gives to an extension, with its default. *)
Definition loader_for (ext : string) : FileHandlers.loader_class :=
  default FileHandlers.UnstructuredFileLoader
    (FileHandlers.lookup_key FileHandlers.FILE_LOADERS ext).

(** The documents a file contributes: those its loader returns when the
    file validates and loads, none otherwise. *)
Definition loaded_from (F : FileHandlers.file_env) (file_path : string)
  : list FileHandlers.document :=
  match FileHandlers.load_file F file_path with
  | Ok (inl docs) => docs
  | _ => []
  end.

(** The entry of [failed_files] a file gives rise to, if any. *)
Definition failure_of (F : FileHandlers.file_env) (file_path : string)
  : option FileHandlers.failed_file :=
  match FileHandlers.load_file F file_path with
  | Ok (inl _) => None
  | Ok (inr error_message) =>
      Some {| FileHandlers.failed_path := file_path;
              FileHandlers.failed_error := error_message |}
  | Raise e =>
      Some {| FileHandlers.failed_path := file_path;
              FileHandlers.failed_error := Some (Exn.str e) |}
  end.

(** The documents joined by blank lines, as [extract_document_content]
    combines them. *)
Definition combined_text (documents : list FileHandlers.document) : string :=
  Str.join (Str.newline +:+ Str.newline) (map FileHandlers.document_text documents).



(** The id [get_or_create_memory] works on: the given one, or the fresh one
    when none (or an empty one) is given. *)
Definition requested_id (fresh : string) (conversation_id : option string) : string :=
  match conversation_id with
  | Some (String _ _ as c) => c
  | _ => fresh
  end.

(** The event a request to [POST /log_event] records, read at time [now]. *)
Definition event_of (now : Q) (data : Routes.log_event_request) : Manager.event :=
  {| Manager.ev_timestamp := now;
     Manager.ev_session_id := default "" (Routes.le_session_id data);
     Manager.ev_type := Routes.le_event_type data;
     Manager.ev_data :=
       let event_data := default (PDict []) (Routes.le_data data) in
       if truthy event_data then event_data else PDict [] |}.

(** The request is recorded, and under the conversation [cid]. *)
Definition recorded_under (cid : string) (data : Routes.log_event_request) : bool :=
  truthy (Routes.le_event_type data)
  && String.eqb (default "global" (Routes.le_conversation_id data)) cid.

(** The manager after a sequence of requests, each with the time it was
    handled at. *)
Definition after_requests (requests : list (Q * Routes.log_event_request))
    (self : Manager.manager) : Manager.manager :=
  foldl (fun m r => (Routes.log_event r.1 r.2 m).2) self requests.

(** The metadata entry a chat records. *)
Definition chat_metadata (X : externals) (data : chat_request) : metadata_entry :=
  {| md_session_id := default (uuid4 X 0) (req_session_id data);
     md_model := req_model data;
     md_settings := req_settings data |}.

(** The output type [handle_task] derives from the text. *)
Definition output_type_of (text : string) : string :=
  if Str.contains "email" (Str.lower text) then "email"
  else if Str.contains "report" (Str.lower text) then "report"
  else "document".

End MoreNotions.
Export MoreNotions.

(* ===================================================================== *)
(** * More deployments, for running the model *)
(* ===================================================================== *)

Module Fixtures.
Import Py Scenario.

Definition db_error : exn := PyExn "UniqueViolation" "duplicate key value".

(** A gateway whose database refuses the [INSERT]. *)
Definition failing_db_externals : externals := {|
  uuid4 := uuid4 demo_externals;
  decompose_endpoint := decompose_endpoint demo_externals;
  json_loads := json_loads demo_externals;
  with_structured_output_failure := with_structured_output_failure demo_externals;
  process_uploaded_files := process_uploaded_files demo_externals;
  extract_document_content := extract_document_content demo_externals;
  chain_failure := chain_failure demo_externals;
  model_reply := model_reply demo_externals;
  post_task := post_task demo_externals;
  validate_task := validate_task demo_externals;
  connection_failure := None;
  insert_failure := fun _ => Some db_error
|}.

(** Ten ratings. *)
Definition ten_fives : dict :=
  [ ("ratings", PList (replicate 10 (PInt 5))); ("comments", PStr "fine") ].

(** A disk with one text file, which loads as one document. *)
Definition notes_env : FileHandlers.file_env := {|
  FileHandlers.path_exists := fun p => String.eqb p "uploads/notes.txt";
  FileHandlers.getsize := fun _ => Ok 11%Z;
  FileHandlers.loader_failure := fun _ _ => None;
  FileHandlers.load := fun _ _ => Ok [FileHandlers.Document "hello world"];
  FileHandlers.split_documents := fun _ _ docs => Ok docs
|}.



(** The default upload folder, on a disk that takes every write. *)
Definition demo_upload_env : Routes.upload_env := {|
  Routes.UPLOAD_FOLDER := "uploads";
  Routes.io_failure := fun _ _ => None
|}.

(** A manager with a storage directory and nothing in memory. *)
Definition empty_manager : Manager.manager := {|
  Manager.storage_dir := Some "conversations";
  Manager.conversations := ∅;
  Manager.last_accessed := ∅;
  Manager.events := ∅
|}.

End Fixtures.

(* ===================================================================== *)
(** * Properties: thread keys *)
(* ===================================================================== *)

Module ThreadKeys.
Import Py.

Lemma has_char_cons c d s :
  Str.has_char c (String d s) = false -> c <> d /\ Str.has_char c s = false.
Proof.
  simpl. intros H. apply orb_false_elim in H as [Hcd Hs].
  split; [|exact Hs]. intros ->. rewrite Ascii.eqb_refl in Hcd. discriminate.
Qed.

(** The separator is found at the same place in both keys once neither
    token contains it. *)
Lemma dash_split t1 : forall t2 c1 c2,
  dash_free t1 -> dash_free t2 ->
  t1 +:+ "-" +:+ c1 = t2 +:+ "-" +:+ c2 -> t1 = t2 /\ c1 = c2.
Proof.
  unfold dash_free.
  induction t1 as [|a t1 IH]; intros [|b t2] c1 c2 H1 H2 Heq; simpl in Heq.
  - by inversion Heq.
  - inversion Heq; subst. apply has_char_cons in H2 as [Hne _]. by destruct Hne.
  - inversion Heq; subst. apply has_char_cons in H1 as [Hne _]. by destruct Hne.
  - inversion Heq; subst.
    apply has_char_cons in H1 as [_ H1]. apply has_char_cons in H2 as [_ H2].
    destruct (IH t2 c1 c2 H1 H2) as [-> ->]; done.
Qed.

(** Without the assumption two pairs can share a key. *)
Lemma thread_key_collision :
  chat_thread_id "a-b" "c" = chat_thread_id "a" "b-c" /\ ("a-b", "c") <> ("a", "b-c").
Proof. split; [reflexivity | discriminate]. Qed.

(** C2. The thread key of chat and decompose calls is
    [user_token + "-" + conversation_id]: equal pairs give equal keys, and,
    for tokens that do not contain the separator, equal keys come from equal
    pairs only.  The decomposition service derives the same key from the
    envelope the gateway sends. *)
Theorem thread_key_deterministic_injective (t1 c1 t2 c2 : string) :
  dash_free t1 -> dash_free t2 ->
  chat_thread_id t1 c1 = t1 +:+ "-" +:+ c1
  /\ (chat_thread_id t1 c1 = chat_thread_id t2 c2 <-> (t1, c1) = (t2, c2))
  /\ (forall E task_id output,
        task_thread_id E (task_envelope task_id t1 c1 output) = chat_thread_id t1 c1).
Proof.
  intros H1 H2. split; [reflexivity|]. split.
  - split.
    + intros Heq. destruct (dash_split t1 t2 c1 c2 H1 H2 Heq) as [-> ->]. reflexivity.
    + intros [= -> ->]. reflexivity.
  - intros E task_id output. reflexivity.
Qed.

Lemma thread_key_deterministic_injective_witness :
  chat_thread_id "alice" "c-1" = "alice-c-1"
  /\ (chat_thread_id "alice" "c-1" = chat_thread_id "bob" "c-1"
      <-> ("alice", "c-1") = ("bob", "c-1")).
Proof.
  pose proof (thread_key_deterministic_injective "alice" "c-1" "bob" "c-1"
                (eq_refl : dash_free "alice") (eq_refl : dash_free "bob")) as [H1 [H2 _]].
  exact (conj H1 H2).
Defined.

End ThreadKeys.

(* ===================================================================== *)
(** * Properties: the model factory *)
(* ===================================================================== *)

Module FactoryProps.
Import Py Scenario.

(** The classes [handle_vendor_exception] produces. *)
Lemma handle_vendor_exception_class e v :
  class_name_of (handle_vendor_exception e v) = "RateLimitError"
  \/ class_name_of (handle_vendor_exception e v) = "APIKeyError"
  \/ class_name_of (handle_vendor_exception e v) = "ModelInitializationError".
Proof.
  unfold handle_vendor_exception.
  repeat case_match; simpl; auto.
Qed.

(** C10. [get_model] is not total in its settings: with a supported vendor
    and model, a settings value that cannot be hashed (a list, a nested
    dict) makes the cache-key computation raise a [TypeError] that leaves
    [get_model] as it is, the factory unchanged; the membership checks come
    first, and the translation of [_handle_vendor_error] never yields that
    class. *)
Theorem get_model_unhashable_setting_raises_TypeError (P : platform) (self : factory) :
  get_model P self "openai" "gpt-4.1" (Some [("stop", PList [PStr "END"])])
  = (Raise (PyExn "TypeError" "unhashable type: 'list'"), self)
  /\ get_model P self "openai" "gpt-4.1" (Some [("metadata", PDict [("team", PStr "a")])])
     = (Raise (PyExn "TypeError" "unhashable type: 'dict'"), self)
  /\ get_model P self "acme" "gpt-4.1" (Some [("stop", PList [PStr "END"])])
     = (Raise (ModelInitializationError "Unsupported vendor: acme"), self)
  /\ get_model P self "openai" "gpt-5" (Some [("stop", PList [PStr "END"])])
     = (Raise (ModelInitializationError "Unsupported model: gpt-5"), self)
  /\ (forall e v, class_name_of (handle_vendor_exception e v) <> "TypeError").
Proof.
  repeat split; try reflexivity.
  intros e v H.
  destruct (handle_vendor_exception_class e v) as [H'|[H'|H']];
    rewrite H' in H; discriminate.
Qed.

(** An unhashable value anywhere in the settings stops [get_model] for every
    supported vendor and model. *)
Lemma get_model_hash_failure P self vendor_arg model_id settings v e :
  vendor_lookup (Str.lower vendor_arg) = Some v ->
  existsb (fun m => String.eqb (entry_id m) model_id) (CardModels v) = true ->
  hash_settings P settings = Raise e ->
  get_model P self vendor_arg model_id (Some settings) = (Raise e, self).
Proof.
  intros Hv Hm Hh. unfold get_model. simpl. rewrite Hv, Hm, Hh. reflexivity.
Qed.

(** Ollama: the key check of [_create_model_class] runs before the guard on
    [ModelAPIKey], and its variable name is the empty string. *)
Lemma ollama_key_check (P : platform) fresh model_id settings :
  import_failure P Ollama = None ->
  getenv P "" = None ->
  _create_model_class P fresh Ollama model_id settings
  = Raise (APIKeyError (APIKeyNotFoundError Ollama)).
Proof.
  intros Hi Hg. unfold _create_model_class. rewrite Hi. simpl. rewrite Hg. reflexivity.
Qed.

(** C6 (the code at the failing input).  With an empty environment the
    Ollama handle is not resolved: [get_model] raises the translated
    missing-key error. *)
Theorem ollama_get_model_fails_without_key :
  get_model bare_platform new_factory "ollama" "llama3.1" None
  = (Raise (ModelInitializationError
       "Ollama error: Ollama API key not found. Please set OPENAI_API_KEY environment variable."),
     new_factory).
Proof. reflexivity. Qed.

End FactoryProps.

(* ===================================================================== *)
(** * Properties: settings clamping *)
(* ===================================================================== *)

Module Clamping.
Import Py Scenario.














End Clamping.

(* ===================================================================== *)
(** * Properties: the handle cache *)
(* ===================================================================== *)

Module Caching.
Import Py Scenario.

Lemma new_factory_wf : cache_wf new_factory.
Proof. split; intros *; simpl; rewrite lookup_empty; discriminate. Qed.

Lemma clear_cache_wf f : cache_wf (clear_cache f).
Proof. split; intros *; simpl; rewrite lookup_empty; discriminate. Qed.

Lemma append_cancel_l (s a b : string) : s +:+ a = s +:+ b -> a = b.
Proof. induction s as [|c s IH]; simpl; intros H; [exact H | inversion H; auto]. Qed.

Lemma cache_key_inj vendor_name model_id h1 h2 :
  cache_key vendor_name model_id h1 = cache_key vendor_name model_id h2 -> h1 = h2.
Proof.
  unfold cache_key. intros H.
  do 4 apply append_cancel_l in H.
  by apply pretty_Z_inj in H.
Qed.

Lemma create_handle_id P fresh v model_id settings h :
  _create_model_class P fresh v model_id settings = Ok h -> handle_id h = fresh.
Proof.
  unfold _create_model_class, mbind, result_bind. intros H.
  repeat (case_match; simplify_eq); reflexivity.
Qed.

(** What a successful [get_model] did: a hit returns the stored handle and
    leaves the factory alone, a miss allocates and stores one handle. *)
Lemma get_model_ok P f vendor_arg model_id settings h f' :
  get_model P f vendor_arg model_id settings = (Ok h, f') ->
  exists hh,
    hash_settings P (default [] settings) = Ok hh
    /\ let key := cache_key (Str.lower vendor_arg) model_id hh in
       (model_cache f !! key = Some h /\ f' = f)
       \/ (model_cache f !! key = None
           /\ handle_id h = allocated f
           /\ f' = {| model_cache := <[key := h]> (model_cache f);
                      allocated := S (allocated f) |}).
Proof.
  unfold get_model. intros H.
  destruct (vendor_lookup (Str.lower vendor_arg)) as [mv|]; [|by inversion H].
  destruct (negb _); [by inversion H|].
  destruct (hash_settings P (default [] settings)) as [hh|e]; [|by inversion H].
  exists hh. split; [reflexivity|]. simpl.
  destruct (model_cache f !! cache_key (Str.lower vendor_arg) model_id hh) as [m|] eqn:Ec.
  - left. by inversion H.
  - right. destruct (_create_model_class P (allocated f) mv model_id (default [] settings))
      as [m|e] eqn:Em; [|by inversion H].
    inversion H; subst. split; [reflexivity|].
    split; [by eapply create_handle_id|reflexivity].
Qed.

Lemma get_model_stored P f vendor_arg model_id settings h f' hh :
  get_model P f vendor_arg model_id settings = (Ok h, f') ->
  hash_settings P (default [] settings) = Ok hh ->
  model_cache f' !! cache_key (Str.lower vendor_arg) model_id hh = Some h.
Proof.
  intros H Hh. apply get_model_ok in H as (hh' & Hh' & H).
  rewrite Hh in Hh'. inversion Hh'; subst hh'. simpl in H.
  destruct H as [[Hc ->]|(Hc & _ & ->)]; [exact Hc|].
  simpl. apply lookup_insert_eq.
Qed.

(** A cache hit: no construction, no change. *)
Lemma get_model_hit P f vendor_arg model_id settings h f' :
  get_model P f vendor_arg model_id settings = (Ok h, f') ->
  get_model P f' vendor_arg model_id settings = (Ok h, f').
Proof.
  intros H.
  pose proof H as (hh & Hh & _)%get_model_ok.
  pose proof (get_model_stored _ _ _ _ _ _ _ _ H Hh) as Hs.
  unfold get_model in *.
  destruct (vendor_lookup (Str.lower vendor_arg)) as [mv|]; [|by inversion H].
  destruct (negb _); [by inversion H|].
  rewrite Hh. rewrite Hs. reflexivity.
Qed.

(** [get_model] only ever adds entries. *)
Lemma get_model_keeps P f vendor_arg model_id settings r f' k h :
  get_model P f vendor_arg model_id settings = (r, f') ->
  model_cache f !! k = Some h -> model_cache f' !! k = Some h.
Proof.
  unfold get_model. intros H Hk.
  repeat (case_match; simplify_eq/=); try done.
  rewrite lookup_insert_ne; [done|]. congruence.
Qed.

Lemma get_model_wf P f vendor_arg model_id settings r f' :
  cache_wf f ->
  get_model P f vendor_arg model_id settings = (r, f') -> cache_wf f'.
Proof.
  intros [Hlt Hinj] H. unfold get_model in H.
  repeat (case_match; simplify_eq/=); try (by split).
  match goal with E : _create_model_class _ _ _ _ _ = Ok _ |- _ =>
    apply create_handle_id in E end.
  split; simpl.
  - intros k h0 Hk. apply lookup_insert_Some in Hk as [[<- <-]|[_ Hk]].
    + lia.
    + apply Hlt in Hk. lia.
  - intros k1 k2 h1 h2 Hk1 Hk2 Hid.
    apply lookup_insert_Some in Hk1 as [[<- <-]|[Hn1 Hk1]];
      apply lookup_insert_Some in Hk2 as [[<- <-]|[Hn2 Hk2]]; try done.
    + apply Hlt in Hk2. lia.
    + apply Hlt in Hk1. lia.
    + eauto.
Qed.

(** The settings [{"contextLength": 1}] and [{"contextLength": 2**61}] hash
    alike on every platform: an [int] is hashed modulo [2**61 - 1]. *)
Lemma context_length_collision (P : platform) :
  hash_settings P [("contextLength", PInt 1)]
  = hash_settings P [("contextLength", PInt (2 ^ 61))].
Proof. reflexivity. Qed.

(** C3 (as amended).  Two successive [get_model] calls with identical
    arguments return the same cached handle, the second without constructing
    anything; the handle is stored under
    [vendor:model_id:hash(frozenset(settings.items()))]; settings with the
    same hash share that handle, settings with a different hash get a handle
    of their own; and a cached handle is never replaced. *)
Theorem cached_handle_by_settings_hash (P : platform) (f f1 f2 : factory)
    (vendor_arg model_id : string) (s1 s2 : dict) (h1 h2 : handle) :
  cache_wf f ->
  get_model P f vendor_arg model_id (Some s1) = (Ok h1, f1) ->
  get_model P f1 vendor_arg model_id (Some s2) = (Ok h2, f2) ->
  get_model P f1 vendor_arg model_id (Some s1) = (Ok h1, f1)
  /\ (exists hh, hash_settings P s1 = Ok hh
        /\ model_cache f1 !! cache_key (Str.lower vendor_arg) model_id hh = Some h1)
  /\ (hash_settings P s2 = hash_settings P s1 -> h2 = h1 /\ f2 = f1)
  /\ (hash_settings P s2 <> hash_settings P s1 -> handle_id h2 <> handle_id h1)
  /\ (forall k h, model_cache f !! k = Some h -> model_cache f2 !! k = Some h).
Proof.
  intros Hwf E1 E2.
  pose proof (get_model_hit _ _ _ _ _ _ _ E1) as Hhit.
  pose proof E1 as (hh1 & Hh1 & _)%get_model_ok. simpl in Hh1.
  pose proof (get_model_stored _ _ _ _ _ _ _ _ E1 Hh1) as Hs1.
  pose proof (get_model_wf _ _ _ _ _ _ _ Hwf E1) as [Hlt1 Hinj1].
  split; [exact Hhit|].
  split; [by exists hh1|].
  split; [|split].
  - intros Heq.
    pose proof E2 as (hh2 & Hh2 & Hcase)%get_model_ok. simpl in Hh2, Hcase.
    rewrite Heq, Hh1 in Hh2. inversion Hh2; subst hh2.
    destruct Hcase as [[Hc ->]|(Hc & _)]; [|congruence].
    split; [congruence | reflexivity].
  - intros Hne Hid.
    pose proof E2 as (hh2 & Hh2 & Hcase)%get_model_ok. simpl in Hh2, Hcase.
    assert (hh2 <> hh1) as Hhh by (intros ->; apply Hne; congruence).
    destruct Hcase as [[Hc ->]|(Hc & Hfresh & _)].
    + apply Hhh. eapply cache_key_inj. eapply Hinj1; eassumption.
    + apply Hlt1 in Hs1. lia.
  - intros k h Hk.
    eapply get_model_keeps; [exact E2|].
    eapply get_model_keeps; [exact E1|exact Hk].
Qed.

(** Two temperatures, two handles; the first settings again, the first
    handle again. *)
Lemma cached_handle_by_settings_hash_witness :
  get_model demo_platform cold_call.2 "openai" "gpt-4.1" (Some [("temperature", PInt 0)])
  = (Ok (returned cold_call), cold_call.2)
  /\ handle_id (returned warm_call) <> handle_id (returned cold_call).
Proof.
  destruct (cached_handle_by_settings_hash demo_platform new_factory
              cold_call.2 warm_call.2 "openai" "gpt-4.1"
              [("temperature", PInt 0)] [("temperature", PInt 1)]
              (returned cold_call) (returned warm_call) new_factory_wf)
    as (Hhit & _ & _ & Hne & _).
  - vm_compute. reflexivity.
  - vm_compute. reflexivity.
  - split; [exact Hhit|]. apply Hne. vm_compute. discriminate.
Defined.

(** C3 (counterexample).  Changing [contextLength] from [1] to [2**61]
    changes neither the cache key nor the handle: the second call returns
    the handle built for the first, with [max_tokens = 1], where a fresh
    factory would have built one with [max_tokens = 32000]. *)
Lemma colliding_settings_share_a_handle :
  (get_model demo_platform
     (get_model demo_platform new_factory "openai" "gpt-4.1"
        (Some [("contextLength", PInt 1)])).2
     "openai" "gpt-4.1" (Some [("contextLength", PInt (2 ^ 61))])).1
  = (get_model demo_platform new_factory "openai" "gpt-4.1"
       (Some [("contextLength", PInt 1)])).1
  /\ (exists h,
        (get_model demo_platform new_factory "openai" "gpt-4.1"
           (Some [("contextLength", PInt 1)])).1 = Ok h
        /\ handle_config h !! "max_tokens" = Some (PInt 1))
  /\ (exists h,
        (get_model demo_platform new_factory "openai" "gpt-4.1"
           (Some [("contextLength", PInt (2 ^ 61))])).1 = Ok h
        /\ handle_config h !! "max_tokens" = Some (PInt 32000)).
Proof.
  split; [vm_compute; reflexivity|].
  split; eexists; (split; [vm_compute; reflexivity | vm_compute; reflexivity]).
Qed.

End Caching.

(* ===================================================================== *)
(** * Properties: feedback *)
(* ===================================================================== *)

Module FeedbackProps.
Import Py Scenario.

(** The 400 raised for invalid ratings is caught by the handler of the
    enclosing [try], which answers 500; nothing is stored. *)
Lemma invalid_ratings_become_500 P X data s :
  ten_ratings (dict_get (default [] data) "ratings" PNone) = None ->
  submit_feedback P X data s
  = (Raise (HTTPException 500 "Encountered error: 400: Submitted invalid ratings"), s).
Proof.
  intros H. unfold submit_feedback, catch, mbind, action_bind, bind, lift.
  rewrite H. reflexivity.
Qed.

(** C5 (the code at the failing input).  A submission with nine ratings is
    answered with status 500, not 400; the message still names the invalid
    ratings and no row is inserted. *)
Theorem nine_ratings_answered_with_500 (P : platform) (X : externals) (s : app_state) :
  submit_feedback P X (Some nine_ratings) s
  = (Raise (HTTPException 500 "Encountered error: 400: Submitted invalid ratings"), s)
  /\ status_of (submit_feedback P X (Some nine_ratings) s).1 = 500
  /\ feedback (submit_feedback P X (Some nine_ratings) s).2 = feedback s.
Proof.
  rewrite (invalid_ratings_become_500 P X (Some nine_ratings) s eq_refl).
  repeat split.
Qed.

(** Ten integer ratings are stored and answered with 200. *)
Lemma ten_ratings_stored :
  (submit_feedback demo_platform demo_externals
     (Some [("ratings", PList (replicate 10 (PInt 5)))]) empty_app).1
  = Ok (<["success" := PBool true]> ∅)
  /\ feedback (submit_feedback demo_platform demo_externals
       (Some [("ratings", PList (replicate 10 (PInt 5)))]) empty_app).2
     = [ {| row_values := replicate 10 5%Z; row_comments := PStr "" |} ].
Proof. split; reflexivity. Qed.

End FeedbackProps.

(* ===================================================================== *)
(** * Properties: the shape of a decomposition *)
(* ===================================================================== *)

Module DecompositionProps.
Import Py Scenario.

Lemma labels_of_spec cs : forall ls,
  labels_of cs = Ok ls -> Forall2 labelled cs ls.
Proof.
  induction cs as [|c cs IH]; simpl; intros ls H.
  - inversion H. constructor.
  - destruct c as [|[k v] rest]; simpl in H; [discriminate|].
    destruct (labels_of cs) as [ks|e]; simpl in H; [|discriminate].
    inversion H; subst. constructor; [by exists v, rest | by apply IH].
Qed.

Lemma first_keys_spec cs : forall ls,
  first_keys cs = Ok ls -> Forall2 key_of cs ls.
Proof.
  induction cs as [|c cs IH]; simpl; intros ls H.
  - inversion H. constructor.
  - destruct (first_key c) as [k|e] eqn:Ek; simpl in H; [|discriminate].
    destruct (first_keys cs) as [ks|e]; simpl in H; [|discriminate].
    inversion H; subst. constructor; [|by apply IH].
    destruct c as [| | | | |items|[|[k' v] rest]]; simpl in Ek; try discriminate.
    inversion Ek; subst. exists k', v, rest. split; reflexivity.
Qed.

Lemma merge_part_structure rd p rd' :
  structure_follows_components rd ->
  merge_part rd p = Ok rd' -> structure_follows_components rd'.
Proof.
  intros Hrd H. destruct p as [text|uri|data]; simpl in H; try discriminate.
  destruct (truthy (dict_get data "components" (PList [])));
    [|inversion H; subst; exact Hrd].
  destruct (output_structure (dict_get data "components" (PList []))) as [labels|e] eqn:Eo;
    simpl in H; [|discriminate].
  inversion H; subst rd'. unfold structure_follows_components.
  rewrite lookup_insert_ne by done. rewrite lookup_insert_ne by done.
  rewrite lookup_insert_eq. rewrite lookup_insert_eq.
  destruct (dict_get data "components" (PList [])) as [| | | | |items|]; simpl in Eo;
    try discriminate.
  exists items, labels. repeat split. by apply first_keys_spec.
Qed.

Lemma merge_parts_structure ps : forall rd rd',
  structure_follows_components rd ->
  merge_parts rd ps = Ok rd' -> structure_follows_components rd'.
Proof.
  induction ps as [|p ps IH]; simpl; intros rd rd' Hrd H.
  - inversion H; subst; exact Hrd.
  - destruct (merge_part rd p) as [rd1|e] eqn:E; simpl in H; [|discriminate].
    eapply IH; [|exact H]. by eapply merge_part_structure.
Qed.

Lemma merge_artifacts_structure arts : forall rd rd',
  structure_follows_components rd ->
  merge_artifacts rd arts = Ok rd' -> structure_follows_components rd'.
Proof.
  induction arts as [|a arts IH]; simpl; intros rd rd' Hrd H.
  - inversion H; subst; exact Hrd.
  - destruct (merge_parts rd (parts a)) as [rd1|e] eqn:E; simpl in H; [|discriminate].
    eapply IH; [|exact H]. by eapply merge_parts_structure.
Qed.

Lemma empty_structure : structure_follows_components ∅.
Proof. unfold structure_follows_components. by rewrite !lookup_empty. Qed.

Lemma process_decomposed_response_structure X task_response rd :
  process_decomposed_response X task_response = Ok rd ->
  structure_follows_components rd.
Proof.
  unfold process_decomposed_response. intros H.
  destruct (validate_task X task_response) as [t|e]; simpl in H; [|discriminate].
  destruct (artifacts t) as [arts|].
  - eapply merge_artifacts_structure; [apply empty_structure | exact H].
  - inversion H. apply empty_structure.
Qed.

(** What a completed task of the server carries. *)
Lemma handle_task_ok E data t :
  handle_task E data = Ok t ->
  exists cs output_type labels,
    t = {| contextId := "1234"; task_ident := "asdf"; task_state := "completed";
           artifacts := Some [ {| artifactId := "myartifact";
                                  parts := [DataPart (response_data_of cs output_type labels)] |} ] |}
    /\ labels_of cs = Ok labels
    /\ Forall2 labelled cs labels.
Proof.
  unfold handle_task, try_except. intros H.
  destruct (decompose_task E data (task_thread_id E data)) as [rd|e] eqn:Ed;
    simpl in H; [|discriminate].
  inversion H; subst t; clear H.
  unfold decompose_task, mbind, result_bind, mret, result_ret, lift_opt in Ed.
  repeat (case_match; simplify_eq); eexists _, _, _; (split; [reflexivity|]).
  all: try match goal with Hc : components _ = _ |- _ => rewrite Hc end.
  all: split; [done|].
  all: first [ by apply labels_of_spec | constructor ].
Qed.

Lemma merge_part_first_keys rd p rd' :
  labels_recomputed rd -> merge_part rd p = Ok rd' -> labels_recomputed rd'.
Proof.
  intros Hrd H. destruct p as [text|uri|data]; simpl in H; try discriminate.
  destruct (truthy (dict_get data "components" (PList [])));
    [|inversion H; subst; exact Hrd].
  destruct (output_structure (dict_get data "components" (PList []))) as [labels|e] eqn:Eo;
    simpl in H; [|discriminate].
  inversion H; subst rd'. intros items labels'.
  rewrite lookup_insert_ne by done. rewrite lookup_insert_ne by done.
  rewrite lookup_insert_eq. rewrite lookup_insert_eq.
  intros [= Hc] [= <-]. rewrite Hc in Eo. exact Eo.
Qed.

Lemma merge_parts_first_keys ps : forall rd rd',
  labels_recomputed rd -> merge_parts rd ps = Ok rd' -> labels_recomputed rd'.
Proof.
  induction ps as [|p ps IH]; simpl; intros rd rd' Hrd H.
  - inversion H; subst; exact Hrd.
  - destruct (merge_part rd p) as [rd1|e] eqn:E; simpl in H; [|discriminate].
    eapply IH; [|exact H]. by eapply merge_part_first_keys.
Qed.

Lemma merge_artifacts_first_keys arts : forall rd rd',
  labels_recomputed rd -> merge_artifacts rd arts = Ok rd' -> labels_recomputed rd'.
Proof.
  induction arts as [|a arts IH]; simpl; intros rd rd' Hrd H.
  - inversion H; subst; exact Hrd.
  - destruct (merge_parts rd (parts a)) as [rd1|e] eqn:E; simpl in H; [|discriminate].
    eapply IH; [|exact H]. by eapply merge_parts_first_keys.
Qed.

Lemma process_decomposed_response_first_keys X task_response rd :
  process_decomposed_response X task_response = Ok rd -> labels_recomputed rd.
Proof.
  unfold process_decomposed_response. intros H.
  assert (labels_recomputed ∅) as H0 by (intros ? ?; by rewrite lookup_empty).
  destruct (validate_task X task_response) as [t|e]; simpl in H; [|discriminate].
  destruct (artifacts t) as [arts|].
  - eapply merge_artifacts_first_keys; [exact H0 | exact H].
  - inversion H. exact H0.
Qed.

(** C7.  In the task the decomposition service answers with, and in the
    payload the gateway builds from an answer, [outputStructure] is the list
    of the first keys of the elements of [components], in the order of
    [components]: the two lists have the same length and the i-th entry of
    [outputStructure] is the key the i-th component starts with (its only
    key when it has one).  Both are computed from [components] at that
    point. *)
Theorem output_structure_follows_components (E : agent_env) (X : externals)
    (data : dict) (t : task) (task_response : pyval) (rd : payload) :
  handle_task E data = Ok t ->
  process_decomposed_response X task_response = Ok rd ->
  (exists cs output_type labels,
     artifacts t = Some [ {| artifactId := "myartifact";
                             parts := [DataPart (response_data_of cs output_type labels)] |} ]
     /\ labels_of cs = Ok labels
     /\ length labels = length cs
     /\ (forall i c, cs !! i = Some c ->
          exists l v rest, labels !! i = Some l /\ c = (l, v) :: rest))
  /\ structure_follows_components rd
  /\ (forall items labels,
        rd !! "components" = Some (PList items) ->
        rd !! "outputStructure" = Some (PList labels) ->
        first_keys items = Ok labels
        /\ length labels = length items
        /\ (forall i c, items !! i = Some c ->
             exists k v rest, labels !! i = Some (PStr k) /\ c = PDict ((k, v) :: rest))).
Proof.
  intros Ht Hrd. split; [|split].
  - apply handle_task_ok in Ht as (cs & output_type & labels & -> & Hl & HF).
    exists cs, output_type, labels. split; [reflexivity|]. split; [exact Hl|].
    split; [symmetry; by eapply Forall2_length|].
    intros i c Hi.
    destruct (Forall2_lookup_l _ _ _ _ _ HF Hi) as (l & Hli & v & rest & ->).
    by exists l, v, rest.
  - by eapply process_decomposed_response_structure.
  - intros items labels Hc Ho.
    pose proof (process_decomposed_response_structure _ _ _ Hrd) as Hs.
    pose proof (process_decomposed_response_first_keys _ _ _ Hrd) as Hk.
    unfold structure_follows_components in Hs. rewrite Hc, Ho in Hs.
    destruct Hs as (items' & labels' & [= <-] & [= <-] & HF).
    split; [by apply Hk|].
    split; [symmetry; by eapply Forall2_length|].
    intros i c Hi.
    destruct (Forall2_lookup_l _ _ _ _ _ HF Hi) as (l & Hli & k & v & rest & -> & ->).
    by exists k, v, rest.
Qed.

(** An answer with the sections [Intro] and [Body]: the service and the
    gateway both report the structure [Intro; Body]. *)
Lemma output_structure_follows_components_witness :
  structure_follows_components
    (payload_of (process_decomposed_response linked_externals (PDict demo_envelope)))
  /\ payload_of (process_decomposed_response linked_externals (PDict demo_envelope))
       !! "outputStructure" = Some (PList [PStr "Intro"; PStr "Body"]).
Proof.
  destruct (output_structure_follows_components demo_agent linked_externals
              demo_envelope
              {| contextId := "1234"; task_ident := "asdf"; task_state := "completed";
                 artifacts :=
                   Some [ {| artifactId := "myartifact";
                             parts := [DataPart (response_data_of (components two_sections)
                                                   "document" ["Intro"; "Body"])] |} ] |}
              (PDict demo_envelope)
              (payload_of (process_decomposed_response linked_externals (PDict demo_envelope))))
    as (_ & Hs & _).
  - reflexivity.
  - vm_compute. reflexivity.
  - split; [exact Hs|]. vm_compute. reflexivity.
Defined.

End DecompositionProps.

(* ===================================================================== *)
(** * Properties: chat and regenerate *)
(* ===================================================================== *)

Module ChatProps.
Import Py Scenario.

Ltac unfold_action :=
  unfold raise_if in *;
  unfold catch, mbind, action_bind, bind, mret, action_ret, ret, raise, lift,
         modify in *.

Lemma last_content_snoc msgs reply :
  last_content (msgs ++ [AIMessage reply]) = Ok reply.
Proof. unfold last_content. by rewrite last_snoc. Qed.

(** An invocation reads and writes the partition of its thread key. *)
Lemma ainvoke_ok X c input thread_id s msgs s' :
  ainvoke X c input thread_id s = (Ok msgs, s') ->
  exists reply,
    model_reply X c (history_at s thread_id ++ [HumanMessage input]) = Ok reply
    /\ msgs = (history_at s thread_id ++ [HumanMessage input]) ++ [AIMessage reply]
    /\ s' = set_checkpoints (<[thread_id := msgs]> (checkpoints s)) s.
Proof.
  unfold ainvoke, history_at. intros H.
  destruct (model_reply X c _) as [reply|e]; inversion H; subst.
  by exists reply.
Qed.


(** [respond], stage by stage. *)
Lemma respond_unfold X data c user_input conversation_id s :
  respond X data c user_input conversation_id s
  = match ainvoke X c user_input
            (chat_thread_id (req_userToken data) conversation_id) s with
    | (Ok msgs, s') =>
        match last_content msgs with
        | Ok text =>
            (Ok (if truthy (req_decompose data)
                 then decompose_response X
                        (response_payload data text conversation_id) text
                        conversation_id (req_userToken data)
                 else response_payload data text conversation_id), s')
        | Raise e =>
            (Raise (HTTPException 500 ("Error from language model: " +:+ Exn.str e)), s')
        end
    | (Raise e, s') =>
        (Raise (HTTPException 500 ("Error from language model: " +:+ Exn.str e)), s')
    end.
Proof.
  unfold respond. unfold_action.
  destruct (ainvoke X c user_input _ s) as [[msgs|e] s']; [|reflexivity].
  destruct (last_content msgs); reflexivity.
Qed.

(** A successful [respond]: the model replied on the history stored under
    the chat thread key, and the payload is built from that reply. *)
Lemma respond_ok X data c user_input conversation_id s body s' :
  respond X data c user_input conversation_id s = (Ok body, s') ->
  exists reply,
    let thread_id := chat_thread_id (req_userToken data) conversation_id in
    model_reply X c (history_at s thread_id ++ [HumanMessage user_input]) = Ok reply
    /\ s' = set_checkpoints
              (<[thread_id := (history_at s thread_id ++ [HumanMessage user_input])
                              ++ [AIMessage reply]]> (checkpoints s)) s
    /\ body = (if truthy (req_decompose data)
               then decompose_response X
                      (response_payload data reply conversation_id) reply
                      conversation_id (req_userToken data)
               else response_payload data reply conversation_id).
Proof.
  rewrite respond_unfold. intros H.
  destruct (ainvoke X c user_input _ s) as [[msgs|e] s1] eqn:Ea; [|discriminate].
  apply ainvoke_ok in Ea as (reply & Hr & -> & ->).
  rewrite last_content_snoc in H. inversion H; subst.
  exists reply. simpl. auto.
Qed.

Lemma chat_unfold P X data s :
  chat P X data s
  = match chat_setup P X data s with
    | (Ok (conversation_id, c, user_input), s1) =>
        match respond X data c user_input conversation_id s1 with
        | (Ok body, s') => (Ok body, s')
        | (Raise e, s') =>
            (if is_a "ModelInitializationError" e
             then Raise (HTTPException 400 (Exn.str e))
             else Raise (HTTPException 500
                    ("An unexpected error occurred. Please try again." +:+ Str.newline
                     +:+ Exn.str e)), s')
        end
    | (Raise e, s') =>
        (if is_a "ModelInitializationError" e
         then Raise (HTTPException 400 (Exn.str e))
         else Raise (HTTPException 500
                ("An unexpected error occurred. Please try again." +:+ Str.newline
                 +:+ Exn.str e)), s')
    end.
Proof.
  unfold chat, chat_body. unfold_action.
  destruct (chat_setup P X data s) as [[[[cid c] ui]|e] s1].
  - destruct (respond X data c ui cid s1) as [[body|e] s']; [reflexivity|].
    by destruct (is_a _ e).
  - by destruct (is_a _ e).
Qed.

Lemma payload_text data text cid :
  response_payload data text cid !! "text" = Some (PStr text).
Proof. unfold response_payload. by simplify_map_eq. Qed.

Lemma payload_conversation_id data text cid :
  response_payload data text cid !! "conversation_id" = Some (PStr cid).
Proof. unfold response_payload. by simplify_map_eq. Qed.

(** A successful chat: the reply of the model, the thread it was stored
    under, and the payload. *)
Lemma chat_ok P X data s body s' :
  chat P X data s = (Ok body, s') ->
  exists cid c user_input s1 reply,
    chat_setup P X data s = (Ok (cid, c, user_input), s1)
    /\ respond X data c user_input cid s1 = (Ok body, s')
    /\ body = (if truthy (req_decompose data)
               then decompose_response X (response_payload data reply cid) reply
                      cid (req_userToken data)
               else response_payload data reply cid).
Proof.
  rewrite chat_unfold. intros H.
  destruct (chat_setup P X data s) as [[[[cid c] ui]|e] s1] eqn:Es;
    [|destruct (is_a _ e); discriminate].
  destruct (respond X data c ui cid s1) as [[body'|e] s2] eqn:Er;
    [|destruct (is_a _ e); discriminate].
  inversion H; subst.
  pose proof Er as (reply & _ & _ & Hb)%respond_ok.
  by exists cid, c, ui, s1, reply.
Qed.

Lemma chat_setup_without_decompose P X data :
  chat_setup P X (without_decompose data) = chat_setup P X data.
Proof. reflexivity. Qed.

(** C1.  When decomposition is requested and the decomposition call (the
    request to the service or the processing of its answer) raises, [chat]
    answers exactly as it does for the same request without decomposition:
    status 200, the payload with the text of the model, the model, the
    vendor and the conversation id, and none of [components], [outputType],
    [outputStructure]; the state left behind is the same too. *)
Theorem decomposition_failure_is_absorbed (P : platform) (X : externals)
    (data : chat_request) (s s' : app_state) (body : payload)
    (text cid : string) (e : exn) :
  truthy (req_decompose data) = true ->
  chat P X (without_decompose data) s = (Ok body, s') ->
  body !! "text" = Some (PStr text) ->
  body !! "conversation_id" = Some (PStr cid) ->
  decomposition X text cid (req_userToken data) = Raise e ->
  chat P X data s = (Ok body, s')
  /\ status_of (chat P X data s).1 = 200
  /\ body !! "model" = Some (PStr (req_model data))
  /\ body !! "vendor" = Some (PStr (req_vendor data))
  /\ body !! "components" = None
  /\ body !! "outputType" = None
  /\ body !! "outputStructure" = None.
Proof.
  intros Htruthy H0 Htext Hcid Hdec.
  apply chat_ok in H0 as (cid' & c & ui & s1 & reply & Hs & Hr & Hb).
  simpl in Hb. subst body.
  rewrite payload_text in Htext. rewrite payload_conversation_id in Hcid.
  inversion Htext; inversion Hcid; subst reply cid'. clear Htext Hcid.
  rewrite chat_setup_without_decompose in Hs.
  assert (chat P X data s = (Ok (response_payload (without_decompose data) text cid), s'))
    as Hchat.
  { rewrite chat_unfold, Hs. rewrite respond_unfold in Hr |- *.
    change (req_userToken (without_decompose data)) with (req_userToken data) in Hr.
    destruct (ainvoke X c ui (chat_thread_id (req_userToken data) cid) s1)
      as [[msgs|e1] s2]; [|discriminate].
    destruct (last_content msgs) as [text'|e1]; [|discriminate].
    cbn [truthy req_decompose without_decompose] in Hr.
    apply pair_equal_spec in Hr as [Hp ->].
    assert (text' = text) as ->.
    { apply (f_equal (fun r : result payload =>
                        match r with Ok m => m !! "text" | Raise _ => None end)) in Hp.
      rewrite !payload_text in Hp. congruence. }
    rewrite Htruthy. unfold decompose_response. rewrite Hdec. reflexivity. }
  split; [exact Hchat|]. rewrite Hchat.
  unfold response_payload. simpl. repeat split; by simplify_map_eq.
Qed.

(** The decomposition call times out; the chat is answered all the same. *)
Lemma decomposition_failure_is_absorbed_witness :
  (chat demo_platform demo_externals (demo_chat true []) empty_app).1
  = Ok (response_payload (demo_chat true []) "Hello!" "c1")
  /\ status_of (chat demo_platform demo_externals (demo_chat true []) empty_app).1 = 200.
Proof.
  destruct (decomposition_failure_is_absorbed demo_platform demo_externals
              (demo_chat true []) empty_app
              (chat demo_platform demo_externals
                 (without_decompose (demo_chat true [])) empty_app).2
              (response_payload (demo_chat true []) "Hello!" "c1")
              "Hello!" "c1" timeout_error) as (H & Hs & _).
  - reflexivity.
  - vm_compute. reflexivity.
  - vm_compute. reflexivity.
  - vm_compute. reflexivity.
  - reflexivity.
  - rewrite H. split; [reflexivity | exact Hs].
Defined.








Lemma length_append (a b : string) :
  String.length (a +:+ b) = String.length a + String.length b.
Proof. induction a as [|c a IH]; simpl; [reflexivity | by rewrite IH]. Qed.










End ChatProps.

(* ===================================================================== *)
(** * Properties: more on the model factory *)
(* ===================================================================== *)

Module FactoryMore.
Import Py Scenario Fixtures.

Lemma py_hash_raise P v e : py_hash P v = Raise e -> class_name_of e = "TypeError".
Proof. destruct v; simpl; intros H; inversion H; reflexivity. Qed.

Lemma hash_items_raise P d : forall e,
  hash_items P d = Raise e -> class_name_of e = "TypeError".
Proof.
  induction d as [|[k v] d IH]; simpl; intros e H; [discriminate|].
  destruct (py_hash P v) as [hv|e1] eqn:Ev; simpl in H.
  - destruct (hash_items P d) as [hs|e2]; simpl in H; [discriminate|].
    inversion H; subst. by apply IH.
  - inversion H; subst. by eapply py_hash_raise.
Qed.

Lemma hash_settings_raise P d e :
  hash_settings P d = Raise e -> class_name_of e = "TypeError".
Proof.
  unfold hash_settings. destruct (hash_items P d) as [hs|e1] eqn:E; simpl; [discriminate|].
  intros H. inversion H; subst. by eapply hash_items_raise.
Qed.

(** What [get_model] raises is not an [HTTPException], and the factory is
    unchanged. *)
Lemma get_model_raises P f vendor_arg model_id settings e f' :
  get_model P f vendor_arg model_id settings = (Raise e, f') ->
  f' = f /\ exists c m, e = PyExn c m.
Proof.
  unfold get_model. intros H.
  destruct (vendor_lookup (Str.lower vendor_arg)) as [mv|];
    [|inversion H; split; [done | by eexists _, _]].
  destruct (negb _); [inversion H; split; [done | by eexists _, _]|].
  destruct (hash_settings P (default [] settings)) as [hh|e1] eqn:Eh.
  - destruct (model_cache f !! _); [discriminate|].
    destruct (_create_model_class P (allocated f) mv model_id (default [] settings))
      as [m|e1]; [discriminate|].
    unfold _handle_vendor_error in H. inversion H; subst. split; [reflexivity|].
    destruct (FactoryProps.handle_vendor_exception_class e1 mv) as [Hc|[Hc|Hc]];
      destruct (handle_vendor_exception e1 mv) as [? ?|c m]; try discriminate;
      by exists c, m.
  - inversion H; subst. split; [reflexivity|].
    apply hash_settings_raise in Eh. destruct e as [? ?|c m]; [discriminate|].
    by exists c, m.
Qed.

(** X1.  When [get_model] raises, the factory is left as it was (nothing is
    cached for a failed construction), and the exception is one of the
    three classes [handle_vendor_exception] produces or the [TypeError] of
    the hash of the settings.  An [APIKeyError] leaves [get_model] only when
    the construction raised an exception whose class name contains
    [AuthenticationError]. *)
Theorem get_model_failure_is_classified (P : platform) (f f' : factory)
    (vendor_arg model_id : string) (settings : option dict) (e : exn) :
  get_model P f vendor_arg model_id settings = (Raise e, f') ->
  f' = f
  /\ (class_name_of e = "ModelInitializationError"
      \/ class_name_of e = "APIKeyError"
      \/ class_name_of e = "RateLimitError"
      \/ (class_name_of e = "TypeError"
          /\ hash_settings P (default [] settings) = Raise e))
  /\ (class_name_of e = "APIKeyError" ->
      exists v e0,
        vendor_lookup (Str.lower vendor_arg) = Some v
        /\ _create_model_class P (allocated f) v model_id (default [] settings) = Raise e0
        /\ Str.contains "AuthenticationError" (class_name_of e0) = true).
Proof.
  unfold get_model. intros H.
  destruct (vendor_lookup (Str.lower vendor_arg)) as [mv|];
    [|inversion H; split; [done|]; split; [by left | discriminate]].
  destruct (negb _); [inversion H; split; [done|]; split; [by left | discriminate]|].
  destruct (hash_settings P (default [] settings)) as [hh|e1] eqn:Eh.
  - destruct (model_cache f !! _); [discriminate|].
    destruct (_create_model_class P (allocated f) mv model_id (default [] settings))
      as [m|e1] eqn:Ec; [discriminate|].
    unfold _handle_vendor_error in H. inversion H; subst. split; [reflexivity|].
    split.
    + destruct (FactoryProps.handle_vendor_exception_class e1 mv) as [Hc|[Hc|Hc]]; auto.
    + intros Hk. exists mv, e1. split; [reflexivity|]. split; [exact Ec|].
      unfold handle_vendor_exception in Hk.
      destruct (Str.contains "RateLimitError" (class_name_of e1)); [discriminate|].
      destruct (Str.contains "AuthenticationError" (class_name_of e1)); [reflexivity|].
      destruct (Str.contains "APIError" (class_name_of e1)); [discriminate|].
      destruct (Str.contains "Timeout" (class_name_of e1)); discriminate.
  - inversion H; subst. split; [reflexivity|].
    pose proof (hash_settings_raise _ _ _ Eh) as Hc. split.
    + right; right; right. by split.
    + rewrite Hc. discriminate.
Qed.

(** Without any key in the environment the request for an Ollama handle
    fails with a [ModelInitializationError], and the factory stays empty. *)
Lemma get_model_failure_is_classified_witness :
  (get_model bare_platform new_factory "ollama" "llama3.1" None).2 = new_factory
  /\ class_name_of
       (ModelInitializationError
          "Ollama error: Ollama API key not found. Please set OPENAI_API_KEY environment variable.")
     <> "APIKeyError".
Proof.
  destruct (get_model_failure_is_classified bare_platform new_factory new_factory
              "ollama" "llama3.1" None
              (ModelInitializationError
                 "Ollama error: Ollama API key not found. Please set OPENAI_API_KEY environment variable.")
              eq_refl) as (Hf & _ & _).
  split; [exact Hf | discriminate].
Defined.

(** Each vendor of the catalog is found under its own id. *)
Lemma vendor_lookup_catalog v :
  v ∈ MODEL_VENDORS -> vendor_lookup (VendorID v) = Some v.
Proof.
  unfold MODEL_VENDORS. intros H.
  repeat (apply elem_of_cons in H as [->|H]; [reflexivity|]).
  by apply elem_of_nil in H.
Qed.

Lemma vendor_lookup_Some name v :
  vendor_lookup name = Some v -> v ∈ MODEL_VENDORS /\ VendorID v = name.
Proof.
  unfold vendor_lookup. intros H.
  apply fmap_Some in H as ([i v'] & H & ->).
  apply list_find_Some in H as (Hi & Hp & _). simpl.
  split.
  - apply list_elem_of_lookup_2 in Hi. by apply elem_of_reverse in Hi.
  - apply Is_true_true in Hp. by apply String.eqb_eq in Hp.
Qed.

Lemma model_listed v model_id :
  model_id ∈ map entry_id (CardModels v) ->
  existsb (fun m => String.eqb (entry_id m) model_id) (CardModels v) = true.
Proof.
  intros H. apply existsb_exists.
  apply list_elem_of_fmap in H as (m & -> & Hm).
  exists m. split; [by apply list_elem_of_In | apply String.eqb_refl].
Qed.

(** A missing key, as [_create_model_class] sees it. *)
Lemma create_without_key P fresh v model_id settings :
  import_failure P v = None ->
  Routes.env_set P (APIKey v) = false ->
  _create_model_class P fresh v model_id settings
  = Raise (APIKeyError (APIKeyNotFoundError v)).
Proof.
  unfold _create_model_class, Routes.env_set. intros -> Hk. simpl.
  destruct (getenv P (APIKey v)) as [[|c k]|]; try discriminate; reflexivity.
Qed.

(** X2.  For every vendor of the catalog: when the environment variable of
    the key is unset or empty and no handle is cached for the request,
    [get_model] raises a [ModelInitializationError] whose message is the
    display name of the vendor, [" error: "] and the vendor's key-not-found
    text; the [APIKeyError] raised inside does not reach the caller. *)
Theorem missing_api_key_is_a_ModelInitializationError (P : platform) (f : factory)
    (v : vendor) (vendor_arg model_id : string) (settings : dict) (h : Z) :
  v ∈ MODEL_VENDORS ->
  Str.lower vendor_arg = VendorID v ->
  model_id ∈ map entry_id (CardModels v) ->
  import_failure P v = None ->
  Routes.env_set P (APIKey v) = false ->
  hash_settings P settings = Ok h ->
  model_cache f !! cache_key (VendorID v) model_id h = None ->
  get_model P f vendor_arg model_id (Some settings)
  = (Raise (ModelInitializationError
              (DisplayName v +:+ " error: " +:+ APIKeyNotFoundError v)), f).
Proof.
  intros Hv Hl Hm Hi Hk Hh Hc. unfold get_model. simpl.
  rewrite Hl, (vendor_lookup_catalog v Hv), (model_listed v model_id Hm). simpl.
  rewrite Hh, Hc, (create_without_key P _ v model_id settings Hi Hk).
  reflexivity.
Qed.

Lemma missing_api_key_is_a_ModelInitializationError_witness :
  get_model bare_platform new_factory "Anthropic" "claude-3-opus-latest"
    (Some [("temperature", PInt 0)])
  = (Raise (ModelInitializationError
       "Anthropic error: Anthropic API key not found. Please set OPENAI_API_KEY environment variable."),
     new_factory).
Proof.
  apply (missing_api_key_is_a_ModelInitializationError bare_platform new_factory
           Anthropic "Anthropic" "claude-3-opus-latest" [("temperature", PInt 0)]
           (Z.lxor (31 * (31 * 17) + 11000033) 0)).
  - set_solver.
  - reflexivity.
  - set_solver.
  - reflexivity.
  - reflexivity.
  - vm_compute. reflexivity.
  - reflexivity.
Defined.

(** Distinct keys: lookups do not depend on the order of the entries. *)
Lemma dict_lookup_Permutation (d1 d2 : dict) key :
  d1 ≡ₚ d2 -> NoDup d1.*1 -> dict_lookup d1 key = dict_lookup d2 key.
Proof.
  induction 1 as [|[k v] l l' Hp IH|[k1 v1] [k2 v2] l|l1 l2 l3 H1 IH1 H2 IH2]; intros Hnd.
  - reflexivity.
  - simpl. apply NoDup_cons in Hnd as [_ Hnd]. by rewrite IH.
  - simpl. apply NoDup_cons in Hnd as [Hn _]. simpl in Hn.
    destruct (String.eqb k1 key) eqn:E1, (String.eqb k2 key) eqn:E2; try reflexivity.
    apply String.eqb_eq in E1, E2. subst. exfalso. apply Hn. set_solver.
  - rewrite IH1 by done. apply IH2. by rewrite <- H1.
Qed.

Lemma hash_items_Permutation P (d1 d2 : dict) :
  d1 ≡ₚ d2 -> forall hs1, hash_items P d1 = Ok hs1 ->
  exists hs2, hash_items P d2 = Ok hs2 /\ hs1 ≡ₚ hs2.
Proof.
  induction 1 as [|[k v] l l' Hp IH|[k1 v1] [k2 v2] l|l1 l2 l3 H1 IH1 H2 IH2];
    intros hs1 H.
  - exists hs1. by split.
  - simpl in *. destruct (py_hash P v) as [hv|]; simpl in *; [|discriminate].
    destruct (hash_items P l) as [hs|]; simpl in *; [|discriminate].
    destruct (IH hs eq_refl) as (hs2 & -> & Hperm). simpl.
    inversion H; subst. eexists. split; [reflexivity|]. by constructor.
  - simpl in *.
    destruct (py_hash P v1) as [h1|]; simpl in *;
      destruct (py_hash P v2) as [h2|]; simpl in *; try discriminate;
      destruct (hash_items P l) as [hs|]; simpl in *; try discriminate.
    inversion H; subst. eexists. split; [reflexivity|]. apply perm_swap.
  - destruct (IH1 hs1 H) as (hs2 & E2 & Hp2).
    destruct (IH2 hs2 E2) as (hs3 & E3 & Hp3).
    exists hs3. split; [exact E3 | by etrans].
Qed.

(** The hash of a frozenset of items does not depend on their order. *)
Lemma hash_settings_Permutation P (d1 d2 : dict) h :
  d1 ≡ₚ d2 -> hash_settings P d1 = Ok h -> hash_settings P d2 = Ok h.
Proof.
  unfold hash_settings. intros Hp H.
  destruct (hash_items P d1) as [hs1|] eqn:E1; simpl in H; [|discriminate].
  destruct (hash_items_Permutation P d1 d2 Hp hs1 E1) as (hs2 & -> & Hperm). simpl.
  inversion H; subst. do 2 f_equal.
  apply (Sorted_unique Z.le); try apply Sorted_merge_sort; try apply _.
  by rewrite !merge_sort_Permutation.
Qed.

Lemma create_Permutation P fresh v model_id (d1 d2 : dict) :
  d1 ≡ₚ d2 -> NoDup d1.*1 ->
  _create_model_class P fresh v model_id d1 = _create_model_class P fresh v model_id d2.
Proof.
  intros Hp Hnd. unfold _create_model_class, dict_get.
  by rewrite !(dict_lookup_Permutation d1 d2 _ Hp Hnd).
Qed.

(** X3.  Two settings dictionaries with the same entries in a different
    order have the same hash, hence the same cache key, and [get_model]
    answers both alike, result and factory. *)
Theorem settings_order_is_irrelevant (P : platform) (f : factory)
    (vendor_arg model_id : string) (d1 d2 : dict) (h : Z) :
  d1 ≡ₚ d2 -> NoDup d1.*1 ->
  hash_settings P d1 = Ok h ->
  hash_settings P d2 = Ok h
  /\ get_model P f vendor_arg model_id (Some d2) = get_model P f vendor_arg model_id (Some d1).
Proof.
  intros Hp Hnd Hh.
  pose proof (hash_settings_Permutation P d1 d2 h Hp Hh) as Hh2.
  split; [exact Hh2|].
  unfold get_model.
  change (default [] (Some d2)) with d2. change (default [] (Some d1)) with d1.
  rewrite Hh, Hh2.
  destruct (vendor_lookup (Str.lower vendor_arg)) as [mv|]; [|reflexivity].
  by rewrite (create_Permutation P (allocated f) mv model_id d1 d2 Hp Hnd).
Qed.

Lemma settings_order_is_irrelevant_witness :
  get_model demo_platform new_factory "openai" "gpt-4.1"
    (Some [("topP", PInt 1); ("temperature", PInt 0)])
  = get_model demo_platform new_factory "openai" "gpt-4.1"
      (Some [("temperature", PInt 0); ("topP", PInt 1)]).
Proof.
  refine (proj2 (settings_order_is_irrelevant demo_platform new_factory "openai" "gpt-4.1"
                   [("temperature", PInt 0); ("topP", PInt 1)]
                   [("topP", PInt 1); ("temperature", PInt 0)]
                   _ _ _ _)).
  - apply perm_swap.
  - apply (bool_decide_unpack _). vm_compute. reflexivity.
  - vm_compute. reflexivity.
Defined.

(** The configuration of a handle depends on the vendor, the model and the
    settings, not on the identity it is given. *)
Lemma create_elsewhere P n1 n2 v model_id settings h1 :
  _create_model_class P n1 v model_id settings = Ok h1 ->
  _create_model_class P n2 v model_id settings
  = Ok {| handle_id := n2; handle_class := handle_class h1;
          handle_config := handle_config h1 |}.
Proof.
  unfold _create_model_class, mbind, result_bind. intros H.
  repeat (case_match; simplify_eq); reflexivity.
Qed.

(** X4.  A handle built by [get_model] is returned again by the next call
    with the same arguments; after [clear_cache] the same call builds a new
    handle, of another identity and with the same class and configuration,
    and it is the only entry of the cache. *)
Theorem clear_cache_forces_reconstruction (P : platform) (f f1 : factory)
    (vendor_arg model_id : string) (settings : option dict) (h1 : handle) (hh : Z) :
  cache_wf f ->
  hash_settings P (default [] settings) = Ok hh ->
  model_cache f !! cache_key (Str.lower vendor_arg) model_id hh = None ->
  get_model P f vendor_arg model_id settings = (Ok h1, f1) ->
  get_model P f1 vendor_arg model_id settings = (Ok h1, f1)
  /\ exists h2 f2,
       get_model P (clear_cache f1) vendor_arg model_id settings = (Ok h2, f2)
       /\ handle_id h2 <> handle_id h1
       /\ handle_class h2 = handle_class h1
       /\ handle_config h2 = handle_config h1
       /\ (forall k h, model_cache f2 !! k = Some h ->
             k = cache_key (Str.lower vendor_arg) model_id hh /\ h = h2).
Proof.
  intros Hwf Hh Hmiss H.
  split; [by eapply Caching.get_model_hit|].
  unfold get_model in *.
  destruct (vendor_lookup (Str.lower vendor_arg)) as [mv|]; [|discriminate].
  destruct (negb _); [discriminate|].
  rewrite Hh in *. rewrite Hmiss in H.
  destruct (_create_model_class P (allocated f) mv model_id (default [] settings))
    as [m|e] eqn:Em; [|discriminate].
  inversion H; subst m f1; clear H. simpl.
  rewrite lookup_empty.
  rewrite (create_elsewhere P _ (S (allocated f)) _ _ _ _ Em).
  eexists _, _. split; [reflexivity|]. simpl.
  apply Caching.create_handle_id in Em.
  split; [lia|]. split; [reflexivity|]. split; [reflexivity|].
  intros k h Hk. apply lookup_insert_Some in Hk as [[<- <-]|[_ Hk]]; [done|].
  by rewrite lookup_empty in Hk.
Qed.

Lemma clear_cache_forces_reconstruction_witness :
  exists h2 f2,
    get_model demo_platform (clear_cache cold_call.2) "openai" "gpt-4.1"
      (Some [("temperature", PInt 0)]) = (Ok h2, f2)
    /\ handle_id h2 <> handle_id (returned cold_call)
    /\ handle_config h2 = handle_config (returned cold_call).
Proof.
  destruct (clear_cache_forces_reconstruction demo_platform new_factory cold_call.2
              "openai" "gpt-4.1" (Some [("temperature", PInt 0)]) (returned cold_call)
              (Z.lxor (31 * (31 * 17) + 11000033) 0))
    as (_ & h2 & f2 & E & Hid & _ & Hcfg & _).
  - apply Caching.new_factory_wf.
  - vm_compute. reflexivity.
  - reflexivity.
  - vm_compute. reflexivity.
  - exists h2, f2. split; [exact E|]. split; [exact Hid | exact Hcfg].
Defined.

Lemma listed_lookup vendor_name model_id :
  listed vendor_name model_id <->
  exists v, vendor_lookup vendor_name = Some v
            /\ existsb (fun m => String.eqb (entry_id m) model_id) (CardModels v) = true.
Proof.
  split.
  - intros (card & models & m & Hc & Hid & Hms & Hm & Hmid).
    unfold Routes.AVAILABLE_VENDORS in Hc.
    apply list_elem_of_fmap in Hc as (v & -> & Hv).
    exists v. simpl in Hid, Hms. inversion Hid; subst vendor_name.
    inversion Hms; subst models. clear Hid Hms.
    split; [by apply vendor_lookup_catalog|].
    apply list_elem_of_fmap in Hm as (me & -> & Hme).
    apply existsb_exists. exists me. split; [by apply list_elem_of_In|].
    unfold Routes.model_card in Hmid. simpl in Hmid. inversion Hmid.
    apply String.eqb_refl.
  - intros (v & Hv & Hm).
    apply vendor_lookup_Some in Hv as [Hv <-].
    apply existsb_exists in Hm as (me & Hme & Heq).
    apply String.eqb_eq in Heq. subst model_id.
    exists (Routes.Card v), (map Routes.model_card (CardModels v)), (Routes.model_card me).
    split; [unfold Routes.AVAILABLE_VENDORS; by apply list_elem_of_fmap_2|].
    split; [reflexivity|]. split; [reflexivity|].
    split; [apply list_elem_of_fmap_2; by apply list_elem_of_In|].
    reflexivity.
Qed.

(** The message of a translated vendor error starts with the name of the
    vendor, never with the [U] of the two rejections. *)
Lemma vendor_error_message e v msg :
  v ∈ MODEL_VENDORS ->
  handle_vendor_exception e v = ModelInitializationError msg ->
  exists c rest, msg = String c rest /\ c <> "U"%char.
Proof.
  unfold MODEL_VENDORS, handle_vendor_exception. intros Hv H.
  destruct (Str.contains "RateLimitError" (class_name_of e)); [discriminate|].
  destruct (Str.contains "AuthenticationError" (class_name_of e)); [discriminate|].
  destruct (Str.contains "APIError" (class_name_of e));
    [|destruct (Str.contains "Timeout" (class_name_of e))];
    injection H as <-;
    repeat (apply elem_of_cons in Hv as [->|Hv]);
    try (by apply elem_of_nil in Hv);
    cbn; eexists _, _; (split; [reflexivity|discriminate]).
Qed.

(** X5.  [get_model] answers with one of its two rejections ("Unsupported
    vendor", "Unsupported model") exactly for the pairs of a lower-cased
    vendor name and a model id that the list of [GET /models] does not
    carry. *)
Theorem listed_models_pass_validation (P : platform) (f : factory)
    (vendor_arg model_id : string) (settings : option dict) :
  rejected_as_unsupported (get_model P f vendor_arg model_id settings).1 vendor_arg model_id
  <-> ~ listed (Str.lower vendor_arg) model_id.
Proof.
  rewrite listed_lookup. unfold rejected_as_unsupported, get_model.
  destruct (vendor_lookup (Str.lower vendor_arg)) as [mv|] eqn:Ev.
  2: { split; [intros _ (v & [=] & _) | intros _; by left]. }
  destruct (existsb _ (CardModels mv)) eqn:Em; simpl.
  2: { split; [intros _ (v & [= <-] & Hm); congruence | intros _; by right]. }
  split; [|intros Hn; exfalso; apply Hn; by exists mv].
  intros Hr _.
  destruct (hash_settings P (default [] settings)) as [hh|e] eqn:Eh; simpl in Hr.
  - destruct (model_cache f !! _); simpl in Hr; [destruct Hr; discriminate|].
    destruct (_create_model_class P (allocated f) mv model_id (default [] settings))
      as [m|e]; simpl in Hr; [destruct Hr; discriminate|].
    apply vendor_lookup_Some in Ev as [Hv _].
    unfold _handle_vendor_error in Hr.
    destruct Hr as [Hr|Hr]; injection Hr as Hr;
      apply (vendor_error_message e mv _ Hv) in Hr as (c & rest & Hr & Hc);
      simpl in Hr; injection Hr as <- _; by apply Hc.
  - apply hash_settings_raise in Eh.
    destruct Hr as [Hr|Hr]; injection Hr as ->; discriminate.
Qed.

End FactoryMore.

(* ===================================================================== *)
(** * Properties: more on feedback *)
(* ===================================================================== *)

Module FeedbackMore.
Import Py Scenario Fixtures.

Lemma ints_of_length P rs : forall values,
  ints_of P rs = Ok values -> length values = length rs.
Proof.
  induction rs as [|r rs IH]; simpl; intros values H.
  - by inversion H.
  - destruct (to_int P r); simpl in H; [|discriminate].
    destruct (ints_of P rs) as [vs|]; simpl in H; [|discriminate].
    inversion H; subst. simpl. by rewrite (IH vs).
Qed.

Lemma ten_ratings_Some v rs :
  ten_ratings v = Some rs <-> v = PList rs /\ length rs = 10.
Proof.
  unfold ten_ratings. split.
  - destruct v; try discriminate.
    destruct (length items =? 10) eqn:E; [|discriminate].
    intros [= ->]. split; [reflexivity | by apply Nat.eqb_eq].
  - intros [-> Hl]. by rewrite Hl.
Qed.

(** X6.  [submit_feedback] answers 200 or 500, and 200 exactly when
    [ratings] is a list of ten values that [int] converts, the connection is
    obtained and the [INSERT] succeeds; then one row is appended, with the ten
    converted values and the comments (the empty string when absent), and the
    body is [{"success": true}].  An answer of 500 leaves the state as it
    was. *)
Theorem submit_feedback_outcomes (P : platform) (X : externals) (data : option dict)
    (s : app_state) :
  let ratings := dict_get (default [] data) "ratings" PNone in
  let comments := dict_get (default [] data) "comments" (PStr "") in
  let r := submit_feedback P X data s in
  (status_of r.1 = 200 \/ status_of r.1 = 500)
  /\ (status_of r.1 = 200 <->
      exists rs values,
        ratings = PList rs /\ length rs = 10 /\ ints_of P rs = Ok values
        /\ connection_failure X = None
        /\ insert_failure X {| row_values := values; row_comments := comments |} = None)
  /\ (forall rs values,
        ratings = PList rs -> ints_of P rs = Ok values -> status_of r.1 = 200 ->
        length values = 10
        /\ r.1 = Ok (<["success" := PBool true]> ∅)
        /\ r.2 = set_feedback
                   (feedback s ++ [ {| row_values := values; row_comments := comments |} ]) s)
  /\ (status_of r.1 = 500 -> r.2 = s).
Proof.
  intros ratings comments r. subst r.
  unfold submit_feedback, insert_feedback, catch, mbind, action_bind, bind, lift,
    raise, modify, mret, action_ret, ret.
  fold ratings. fold comments.
  destruct (ten_ratings ratings) as [rs|] eqn:Et; simpl.
  2: { split; [by right|]. split; [|split; [|done]].
       - split; [discriminate|]. intros (rs & values & Hr & Hl & _).
         assert (ten_ratings ratings = Some rs) as Hs by by apply ten_ratings_Some.
         congruence.
       - intros rs values Hr Hi [=]. }
  apply ten_ratings_Some in Et as [Er Hl].
  destruct (ints_of P rs) as [values|e] eqn:Ei; simpl.
  2: { split; [by right|]. split; [|split; [|done]].
       - split; [discriminate|]. intros (rs' & values & Hr & _ & Hi & _).
         rewrite Er in Hr. inversion Hr; subst. congruence.
       - intros rs' values Hr Hi [=]. }
  destruct (connection_failure X) as [e|] eqn:Ec; simpl.
  { split; [by right|]. split; [|split; [|done]].
    - split; [discriminate|]. by intros (? & ? & _ & _ & _ & [=] & _).
    - intros rs' values' Hr Hi [=]. }
  destruct (insert_failure X {| row_values := values; row_comments := comments |})
    as [e|] eqn:Ef; simpl.
  { split; [by right|]. split; [|split; [|done]].
    - split; [discriminate|]. intros (rs' & values' & Hr & _ & Hi & _ & Hf).
      rewrite Er in Hr. inversion Hr; subst. rewrite Ei in Hi. inversion Hi; subst.
      congruence.
    - intros rs' values' Hr Hi [=]. }
  split; [by left|]. split; [|split; [|discriminate]].
  - split; [|done]. intros _. by exists rs, values.
  - intros rs' values' Hr Hi _.
    rewrite Er in Hr. inversion Hr; subst. rewrite Ei in Hi. inversion Hi; subst.
    split; [|done]. by rewrite (ints_of_length P rs' values' Ei).
Qed.

(** X7.  When the [INSERT] of valid feedback fails, the handler meant to
    report it misspells the [detail] keyword: whatever the database raised,
    the client reads the resulting [TypeError] in a response of status 500,
    and nothing is stored. *)
Theorem insert_failure_is_reported_as_TypeError (P : platform) (X : externals)
    (data : option dict) (s : app_state) (rs : list pyval) (values : list Z) (ex : exn) :
  dict_get (default [] data) "ratings" PNone = PList rs ->
  length rs = 10 ->
  ints_of P rs = Ok values ->
  connection_failure X = None ->
  insert_failure X {| row_values := values;
                      row_comments := dict_get (default [] data) "comments" (PStr "") |}
  = Some ex ->
  submit_feedback P X data s
  = (Raise (HTTPException 500
       "Encountered error: HTTPException.__init__() got an unexpected keyword argument 'detaiil'"),
     s).
Proof.
  intros Hr Hl Hi Hc Hf.
  unfold submit_feedback, insert_feedback, catch, mbind, action_bind, bind, lift,
    raise, modify, mret, action_ret, ret.
  rewrite (proj2 (ten_ratings_Some _ rs) (conj Hr Hl)). simpl.
  rewrite Hi, Hc. simpl. rewrite Hf. reflexivity.
Qed.

Lemma insert_failure_is_reported_as_TypeError_witness :
  submit_feedback demo_platform failing_db_externals (Some ten_fives) empty_app
  = (Raise (HTTPException 500
       "Encountered error: HTTPException.__init__() got an unexpected keyword argument 'detaiil'"),
     empty_app).
Proof.
  apply (insert_failure_is_reported_as_TypeError demo_platform failing_db_externals
           (Some ten_fives) empty_app (replicate 10 (PInt 5)) (replicate 10 5%Z) db_error);
    reflexivity.
Defined.

End FeedbackMore.

(* ===================================================================== *)
(** * Properties: saving settings *)
(* ===================================================================== *)

Module SettingsProps.
Import Py Scenario.



End SettingsProps.

(* ===================================================================== *)
(** * Properties: the parts of a decomposition *)
(* ===================================================================== *)

Module DecompositionMore.
Import Py Scenario Fixtures.

Lemma decomposition_entries_twice cs ot ls cs' ot' ls' rd :
  decomposition_entries cs ot ls (decomposition_entries cs' ot' ls' rd)
  = decomposition_entries cs ot ls rd.
Proof.
  unfold decomposition_entries. apply map_eq. intros k.
  destruct (decide (k = "outputStructure")) as [->|H1];
    [by rewrite !lookup_insert_eq|].
  destruct (decide (k = "outputType")) as [->|H2];
    [by repeat (rewrite lookup_insert_eq || rewrite lookup_insert_ne by done)|].
  destruct (decide (k = "components")) as [->|H3];
    [by repeat (rewrite lookup_insert_eq || rewrite lookup_insert_ne by done)|].
  rewrite !lookup_insert_ne by done. reflexivity.
Qed.

(** What one part does to the payload. *)
Lemma merge_part_Ok rd p rd' :
  merge_part rd p = Ok rd' ->
  exists data, p = DataPart data
    /\ if carries_components p
       then exists labels,
              output_structure (dict_get data "components" (PList [])) = Ok labels
              /\ rd' = decomposition_entries (dict_get data "components" (PList []))
                         (dict_get data "outputType" (PStr "")) labels rd
       else rd' = rd.
Proof.
  destruct p as [text|uri|data]; simpl; try discriminate.
  intros H. exists data. split; [reflexivity|].
  destruct (truthy (dict_get data "components" (PList []))); [|by inversion H].
  destruct (output_structure _) as [labels|]; simpl in H; [|discriminate].
  inversion H. by exists labels.
Qed.

Lemma merge_parts_last ps : forall rd rd',
  merge_parts rd ps = Ok rd' ->
  match last (filter (fun p => carries_components p = true) ps) with
  | None => rd' = rd
  | Some p =>
      exists data labels,
        p = DataPart data
        /\ output_structure (dict_get data "components" (PList [])) = Ok labels
        /\ rd' = decomposition_entries (dict_get data "components" (PList []))
                   (dict_get data "outputType" (PStr "")) labels rd
  end.
Proof.
  induction ps as [|p ps IH]; intros rd rd' H; simpl in H.
  - by inversion H.
  - destruct (merge_part rd p) as [rd1|] eqn:E1; simpl in H; [|discriminate].
    apply merge_part_Ok in E1 as (data & -> & E1).
    specialize (IH rd1 rd' H).
    rewrite filter_cons.
    destruct (carries_components (DataPart data)) eqn:Ec.
    + destruct E1 as (labels & Hl & ->).
      rewrite decide_True by done. rewrite last_cons.
      destruct (last (filter _ ps)) as [q|].
      * destruct IH as (data' & labels' & -> & Hl' & ->).
        exists data', labels'. split; [done|]. split; [done|].
        apply decomposition_entries_twice.
      * subst rd'. by exists data, labels.
    + subst rd1. rewrite decide_False by done. exact IH.
Qed.

Lemma merge_artifacts_parts arts : forall rd,
  merge_artifacts rd arts = merge_parts rd (concat (map parts arts)).
Proof.
  induction arts as [|a arts IH]; intros rd; simpl; [reflexivity|].
  assert (forall ps qs rd0,
            merge_parts rd0 (ps ++ qs) = merge_parts rd0 ps ≫= fun r => merge_parts r qs) as Happ.
  { induction ps as [|p ps IHp]; intros qs rd0; simpl; [reflexivity|].
    destruct (merge_part rd0 p); simpl; [apply IHp|reflexivity]. }
  rewrite Happ. destruct (merge_parts rd (parts a)); simpl; [apply IH|reflexivity].
Qed.

(** X9.  When [process_decomposed_response] returns, every part of every
    artifact is a data part, and the payload is empty when none of them has
    components, and otherwise consists of the components of the last part
    that has some, its output type (the empty string when absent) and the
    first keys of these components. *)
Theorem last_components_part_wins (X : externals) (task_response : pyval)
    (t : task) (rd : payload) :
  validate_task X task_response = Ok t ->
  process_decomposed_response X task_response = Ok rd ->
  Forall (fun p => exists data, p = DataPart data) (all_parts t)
  /\ match last (filter (fun p => carries_components p = true) (all_parts t)) with
     | None => rd = ∅
     | Some p =>
         exists data labels,
           p = DataPart data
           /\ output_structure (dict_get data "components" (PList [])) = Ok labels
           /\ rd = decomposition_entries (dict_get data "components" (PList []))
                     (dict_get data "outputType" (PStr "")) labels ∅
     end.
Proof.
  unfold process_decomposed_response, all_parts. intros -> H. simpl in H.
  split.
  - destruct (artifacts t) as [arts|]; [|constructor]. simpl.
    rewrite merge_artifacts_parts in H.
    generalize dependent (∅ : payload). generalize (concat (map parts arts)).
    induction l as [|p ps IH]; intros rd0 H; [constructor|].
    simpl in H. destruct (merge_part rd0 p) as [rd1|] eqn:E1; simpl in H; [|discriminate].
    constructor; [|by eapply IH].
    apply merge_part_Ok in E1 as (data & -> & _). by exists data.
  - destruct (artifacts t) as [arts|]; simpl.
    + rewrite merge_artifacts_parts in H. by apply merge_parts_last.
    + by inversion H.
Qed.

(** A decomposition carries the three keys of a decomposition and no other. *)
Lemma process_decomposed_response_keys X task_response rd k :
  process_decomposed_response X task_response = Ok rd ->
  ~ decomposition_key k -> rd !! k = None.
Proof.
  unfold process_decomposed_response. intros H Hk.
  destruct (validate_task X task_response) as [t|]; simpl in H; [|discriminate].
  destruct (artifacts t) as [arts|]; [|inversion H; apply lookup_empty].
  rewrite merge_artifacts_parts in H. apply merge_parts_last in H.
  destruct (last _) as [p|]; [|subst; apply lookup_empty].
  destruct H as (data & labels & _ & _ & ->).
  unfold decomposition_entries, decomposition_key in *.
  rewrite !lookup_insert_ne by (intros <-; tauto). apply lookup_empty.
Qed.

(** A decomposition is empty or consists of the three entries. *)
Lemma process_decomposed_response_shape X task_response rd :
  process_decomposed_response X task_response = Ok rd ->
  rd = ∅ \/ exists cs ot labels, rd = decomposition_entries cs ot labels ∅.
Proof.
  unfold process_decomposed_response. intros H.
  destruct (validate_task X task_response) as [t|]; simpl in H; [|discriminate].
  destruct (artifacts t) as [arts|]; [|inversion H; by left].
  rewrite merge_artifacts_parts in H. apply merge_parts_last in H.
  destruct (last _) as [p|]; [|by left].
  destruct H as (data & labels & _ & _ & ->). right. by eexists _, _, _.
Qed.

Lemma last_components_part_wins_witness :
  process_decomposed_response linked_externals (PDict demo_envelope)
  = Ok (decomposition_entries
          (PList [PDict [("Intro", PStr "Intro: hello.")]; PDict [("Body", PStr "Body: details.")]])
          (PStr "document") [PStr "Intro"; PStr "Body"] ∅).
Proof.
  destruct (process_decomposed_response linked_externals (PDict demo_envelope))
    as [rd|e] eqn:E; [|vm_compute in E; discriminate].
  destruct (last_components_part_wins linked_externals (PDict demo_envelope)
              {| contextId := "1234"; task_ident := "asdf"; task_state := "completed";
                 artifacts :=
                   Some [ {| artifactId := "myartifact";
                             parts := [DataPart (response_data_of (components two_sections)
                                                   "document" ["Intro"; "Body"])] |} ] |}
              rd eq_refl E) as [_ H].
  simpl in H. destruct H as (data & labels & [= <-] & Hl & ->).
  simpl in Hl. injection Hl as <-. reflexivity.
Defined.

End DecompositionMore.

(* ===================================================================== *)
(** * Properties: more on chat and regenerate *)
(* ===================================================================== *)

Module ChatMore.
Import Py Scenario Fixtures.
Import ChatProps.

Lemma set_factory_same s : set_factory (factory_of s) s = s.
Proof. by destruct s. Qed.

(** X10.  A chat request with an empty message, model or vendor is answered
    with status 500, not with the 400 raised for it, and the state is left as
    it was. *)
Theorem chat_rejections_are_answered_500 (P : platform) (X : externals)
    (data : chat_request) (s : app_state) :
  req_message data = "" \/ req_model data = "" \/ req_vendor data = "" ->
  status_of (chat P X data s).1 = 500
  /\ (chat P X data s).2 = s.
Proof.
  intros H. rewrite chat_unfold.
  unfold chat_setup. unfold_action.
  destruct (String.eqb (req_message data) "") eqn:E1; [by split|].
  destruct (String.eqb (req_model data) "") eqn:E2; [by split|].
  destruct (String.eqb (req_vendor data) "") eqn:E3; [by split|].
  apply String.eqb_neq in E1, E2, E3. by destruct H as [H|[H|H]].
Qed.

Lemma chat_rejections_are_answered_500_witness :
  status_of (chat demo_platform demo_externals
               {| req_message := ""; req_model := "gpt-4.1"; req_userToken := "alice";
                  req_vendor := "openai"; req_settings := []; req_files := [];
                  req_decompose := PBool false; req_session_id := None;
                  req_conversation_id := None |} empty_app).1 = 500.
Proof.
  refine (proj1 (chat_rejections_are_answered_500 demo_platform demo_externals _ empty_app _)).
  left. reflexivity.
Defined.

(** What [chat_setup] answers when the factory raises. *)
Lemma chat_setup_factory_failure P X data s e f' :
  req_message data <> "" -> req_model data <> "" -> req_vendor data <> "" ->
  get_model P (factory_of s) (req_vendor data) (req_model data) (Some (req_settings data))
  = (Raise e, f') ->
  chat_setup P X data s = (Raise e, s).
Proof.
  intros H1 H2 H3 Hg.
  pose proof (FactoryMore.get_model_raises _ _ _ _ _ _ _ Hg) as [-> _].
  unfold chat_setup, factory_get_model. unfold_action.
  apply String.eqb_neq in H1, H2, H3. rewrite H1, H2, H3.
  cbn beta iota zeta. rewrite Hg. by rewrite set_factory_same.
Qed.

(** X11.  When the factory raises for the vendor, model and settings of a
    request, [chat] answers 400 with the message of the exception if it is a
    [ModelInitializationError] and 500 otherwise, [regenerate] answers 500
    in both cases, and neither changes the state. *)
Theorem factory_rejection_statuses (P : platform) (X : externals)
    (cq : chat_request) (rq : regenerate_request) (s : app_state) (e : exn) (f' : factory) :
  req_message cq <> "" -> req_model cq <> "" -> req_vendor cq <> "" ->
  rg_vendor rq = req_vendor cq -> rg_model rq = req_model cq ->
  rg_settings rq = req_settings cq ->
  get_model P (factory_of s) (req_vendor cq) (req_model cq) (Some (req_settings cq))
  = (Raise e, f') ->
  chat P X cq s
  = (Raise (if is_a "ModelInitializationError" e
            then HTTPException 400 (Exn.str e)
            else HTTPException 500
                   ("An unexpected error occurred. Please try again." +:+ Str.newline
                    +:+ Exn.str e)), s)
  /\ regenerate P X rq s
     = (Raise (HTTPException 500 ("Regeneration failed: " +:+ Exn.str e)), s)
  /\ (exists m, e = PyExn (class_name_of e) m).
Proof.
  intros H1 H2 H3 Hv Hm Hs Hg. split; [|split].
  - rewrite chat_unfold, (chat_setup_factory_failure P X cq s e f' H1 H2 H3 Hg).
    by destruct (is_a _ e).
  - pose proof (FactoryMore.get_model_raises _ _ _ _ _ _ _ Hg) as [-> _].
    unfold regenerate, factory_get_model. unfold_action.
    rewrite Hv, Hm, Hs, Hg. by rewrite set_factory_same.
  - pose proof (FactoryMore.get_model_raises _ _ _ _ _ _ _ Hg) as [_ (c & m & ->)].
    by exists m.
Qed.

Lemma factory_rejection_statuses_witness :
  status_of (chat demo_platform demo_externals
               {| req_message := "Hi"; req_model := "gpt-4.1"; req_userToken := "alice";
                  req_vendor := "acme"; req_settings := []; req_files := [];
                  req_decompose := PBool false; req_session_id := None;
                  req_conversation_id := None |} empty_app).1 = 400
  /\ status_of (regenerate demo_platform demo_externals
                  {| rg_text := ""; rg_prompt := ""; rg_model := "gpt-4.1";
                     rg_vendor := "acme"; rg_settings := []; rg_conversation_id := None;
                     rg_session_id := None; rg_component_title := "";
                     rg_original_response := ""; rg_original_prompt := "" |} empty_app).1 = 500.
Proof.
  destruct (factory_rejection_statuses demo_platform demo_externals
              {| req_message := "Hi"; req_model := "gpt-4.1"; req_userToken := "alice";
                 req_vendor := "acme"; req_settings := []; req_files := [];
                 req_decompose := PBool false; req_session_id := None;
                 req_conversation_id := None |}
              {| rg_text := ""; rg_prompt := ""; rg_model := "gpt-4.1";
                 rg_vendor := "acme"; rg_settings := []; rg_conversation_id := None;
                 rg_session_id := None; rg_component_title := "";
                 rg_original_response := ""; rg_original_prompt := "" |}
              empty_app (ModelInitializationError "Unsupported vendor: acme") new_factory)
    as (Hc & Hr & _); try discriminate; try reflexivity.
  rewrite Hc, Hr. split; reflexivity.
Defined.

(** [chat_setup] records the session and one metadata entry when it
    succeeds, and no metadata when it fails. *)
Lemma chat_setup_metadata P X data s r s1 :
  chat_setup P X data s = (r, s1) ->
  feedback s1 = feedback s
  /\ match r with
     | Ok (cid, _, _) =>
         metadata s1
         = <[cid := default [] (metadata s !! cid) ++ [chat_metadata X data]]> (metadata s)
         /\ conversation_sessions s1 !! cid
            = Some (default (uuid4 X 0) (req_session_id data))
     | Raise _ => metadata s1 = metadata s
     end.
Proof.
  unfold chat_setup, open_conversation, acreate_chain, record_metadata,
    factory_get_model, chat_metadata. unfold_action. intros H.
  repeat (case_match; simplify_eq); simpl; try done.
  all: split; [done|]; split; [done|]; by rewrite lookup_insert_eq.
Qed.

(** [respond] writes to the checkpoint store only. *)
Lemma respond_frame X data c user_input conversation_id s r s' :
  respond X data c user_input conversation_id s = (r, s') ->
  metadata s' = metadata s /\ conversation_sessions s' = conversation_sessions s
  /\ feedback s' = feedback s /\ factory_of s' = factory_of s.
Proof.
  rewrite respond_unfold. unfold ainvoke. intros H.
  repeat (case_match; simplify_eq); done.
Qed.

(** X12.  A chat never removes or changes a metadata entry: every log is
    extended at its end.  A chat that is answered appended exactly one entry
    (session, model, settings) to the log of the conversation it names,
    recorded the session of that conversation, and left the other logs and
    the feedback table alone. *)
Theorem chat_metadata_is_append_only (P : platform) (X : externals)
    (data : chat_request) (s : app_state) :
  let r := chat P X data s in
  (forall k log, metadata s !! k = Some log ->
     exists more, metadata r.2 !! k = Some (log ++ more))
  /\ (forall body cid,
        r.1 = Ok body -> body !! "conversation_id" = Some (PStr cid) ->
        metadata r.2 !! cid = Some (default [] (metadata s !! cid) ++ [chat_metadata X data])
        /\ conversation_sessions r.2 !! cid
           = Some (default (uuid4 X 0) (req_session_id data))
        /\ (forall k, k <> cid -> metadata r.2 !! k = metadata s !! k))
  /\ feedback r.2 = feedback s.
Proof.
  intros r. subst r. rewrite chat_unfold.
  destruct (chat_setup P X data s) as [[[[cid c] ui]|e] s1] eqn:Es.
  - apply chat_setup_metadata in Es as (Hf & Hm & Hcs).
    destruct (respond X data c ui cid s1) as [[body|e] s'] eqn:Er.
    + pose proof Er as (Hm' & Hcs' & Hf' & _)%respond_frame.
      apply respond_ok in Er as (reply & _ & _ & Hb). simpl in *.
      split; [|split; [|congruence]].
      * intros k log Hk. rewrite Hm', Hm.
        destruct (decide (k = cid)) as [->|Hne].
        -- rewrite lookup_insert_eq, Hk. simpl. by eexists.
        -- rewrite lookup_insert_ne by done. exists []. by rewrite app_nil_r.
      * intros body' cid' [= <-] Hc.
        assert (cid' = cid) as ->.
        { subst body. destruct (truthy (req_decompose data)).
          - unfold decompose_response in Hc.
            destruct (decomposition X reply cid (req_userToken data)) as [rd|] eqn:Ed.
            + unfold decomposition in Ed.
              destruct (acall_mod_agent X reply _ cid _) as [dd|]; simpl in Ed;
                [|discriminate].
              rewrite lookup_union_r in Hc
                by (eapply DecompositionMore.process_decomposed_response_keys;
                    [exact Ed | unfold decomposition_key; intros [?|[?|?]]; discriminate]).
              rewrite payload_conversation_id in Hc. congruence.
            + rewrite payload_conversation_id in Hc. congruence.
          - rewrite payload_conversation_id in Hc. congruence. }
        rewrite Hm', Hcs', Hm. rewrite lookup_insert_eq.
        split; [done|]. split; [done|].
        intros k Hk. by rewrite lookup_insert_ne.
    + pose proof Er as (Hm' & Hcs' & Hf' & _)%respond_frame.
      assert (metadata s' = <[cid:=default [] (metadata s !! cid) ++ [chat_metadata X data]]>
                              (metadata s) /\ feedback s' = feedback s) as [Hms Hfs]
        by (split; congruence).
      destruct (is_a _ e); simpl.
      all: split; [|split; [discriminate|done]].
      all: intros k log Hk; rewrite Hms.
      all: destruct (decide (k = cid)) as [->|Hne];
        [rewrite lookup_insert_eq, Hk; simpl; by eexists
        |rewrite lookup_insert_ne by done; exists []; by rewrite app_nil_r].
  - apply chat_setup_metadata in Es as (Hf & Hm).
    destruct (is_a _ e); simpl.
    all: split; [|split; [discriminate|done]].
    all: intros k log Hk; rewrite Hm; exists []; by rewrite app_nil_r.
Qed.

(** X13.  The body of an answered chat carries the reply of the model as
    [text] (the last message of the thread it was stored under), the model
    and the vendor of the request and the conversation id, whatever the
    decomposition service answered; its only other keys are the three of a
    decomposition, which come together and are absent when decomposition was
    not requested. *)
Theorem chat_payload_fields (P : platform) (X : externals) (data : chat_request)
    (s s' : app_state) (body : payload) :
  chat P X data s = (Ok body, s') ->
  exists reply cid,
    body !! "text" = Some (PStr reply)
    /\ body !! "model" = Some (PStr (req_model data))
    /\ body !! "vendor" = Some (PStr (req_vendor data))
    /\ body !! "conversation_id" = Some (PStr cid)
    /\ last (history_at s' (chat_thread_id (req_userToken data) cid))
       = Some (AIMessage reply)
    /\ (forall k, is_Some (body !! k) ->
          k ∈ ["text"; "model"; "vendor"; "conversation_id"] \/ decomposition_key k)
    /\ (is_Some (body !! "components") <-> is_Some (body !! "outputStructure"))
    /\ (is_Some (body !! "components") <-> is_Some (body !! "outputType"))
    /\ (truthy (req_decompose data) = false -> body !! "components" = None).
Proof.
  intros H.
  apply chat_ok in H as (cid & c & ui & s1 & reply & Hs & Hr & Hb).
  apply respond_ok in Hr as (reply' & Hm & -> & Hb').
  assert (reply' = reply) as ->.
  { rewrite Hb in Hb'. clear -Hb'.
    assert (forall r, (if truthy (req_decompose data)
                       then decompose_response X (response_payload data r cid) r cid
                              (req_userToken data)
                       else response_payload data r cid) !! "text" = Some (PStr r)) as Ht.
    { intros r. destruct (truthy _); [|apply payload_text].
      unfold decompose_response, decomposition.
      destruct (acall_mod_agent X r _ cid _) as [dd|]; simpl; [|apply payload_text].
      destruct (process_decomposed_response X dd) as [rd|] eqn:Ed; [|apply payload_text].
      rewrite lookup_union_r; [apply payload_text|].
      eapply DecompositionMore.process_decomposed_response_keys; [exact Ed|].
      unfold decomposition_key. intros [?|[?|?]]; discriminate. }
    pose proof (Ht reply) as H1. rewrite Hb' in H1. rewrite Ht in H1. congruence. }
  exists reply, cid. clear Hb'.
  assert (exists rd, body = rd ∪ response_payload data reply cid
                     /\ (rd = ∅ \/ exists cs ot labels,
                            rd = decomposition_entries cs ot labels ∅)
                     /\ (truthy (req_decompose data) = false -> rd = ∅)) as (rd & -> & Hrd & Hoff).
  { subst body. destruct (truthy (req_decompose data)).
    - unfold decompose_response, decomposition.
      destruct (acall_mod_agent X reply _ cid _) as [dd|]; simpl.
      + destruct (process_decomposed_response X dd) as [rd|] eqn:Ed.
        * exists rd. split; [done|]. split; [|done].
          by eapply DecompositionMore.process_decomposed_response_shape.
        * exists ∅. rewrite (left_id_L ∅ (∪)). split; [done|]. split; [by left|done].
      + exists ∅. rewrite (left_id_L ∅ (∪)). split; [done|]. split; [by left|done].
    - exists ∅. rewrite (left_id_L ∅ (∪)). split; [done|]. split; [by left|done]. }
  assert (forall k, ~ decomposition_key k -> rd !! k = None) as Hkeys.
  { intros k Hk. destruct Hrd as [->|(cs & ot & labels & ->)]; [apply lookup_empty|].
    unfold decomposition_entries, decomposition_key in *.
    rewrite !lookup_insert_ne by (intros <-; tauto). apply lookup_empty. }
  assert (forall k, decomposition_key k -> response_payload data reply cid !! k = None) as Hbase.
  { intros k [->|[->| ->]]; unfold response_payload; by simplify_map_eq. }
  repeat split.
  - rewrite lookup_union_r; [apply payload_text|].
    apply Hkeys. unfold decomposition_key. intros [?|[?|?]]; discriminate.
  - rewrite lookup_union_r; [unfold response_payload; by simplify_map_eq|].
    apply Hkeys. unfold decomposition_key. intros [?|[?|?]]; discriminate.
  - rewrite lookup_union_r; [unfold response_payload; by simplify_map_eq|].
    apply Hkeys. unfold decomposition_key. intros [?|[?|?]]; discriminate.
  - rewrite lookup_union_r; [apply payload_conversation_id|].
    apply Hkeys. unfold decomposition_key. intros [?|[?|?]]; discriminate.
  - unfold history_at. simpl. rewrite lookup_insert_eq. simpl. apply last_snoc.
  - intros k [v Hk]. apply lookup_union_Some_raw in Hk as [Hk|[_ Hk]].
    + right. destruct (decide (k = "components")) as [->|?]; [by left|].
      destruct (decide (k = "outputType")) as [->|?]; [right; by left|].
      destruct (decide (k = "outputStructure")) as [->|?]; [right; by right|].
      rewrite Hkeys in Hk; [discriminate|]. unfold decomposition_key. tauto.
    + left. unfold response_payload in Hk.
      repeat (apply lookup_insert_Some in Hk as [[<- _]|[_ Hk]]; [apply list_elem_of_In; simpl; tauto|]).
      by rewrite lookup_empty in Hk.
  - rewrite !lookup_union_l by (apply Hbase; unfold decomposition_key; tauto).
    destruct Hrd as [->|(cs & ot & labels & ->)].
    + rewrite !lookup_empty. intros [? [=]].
    + intros _. unfold decomposition_entries. by simplify_map_eq.
  - rewrite !lookup_union_l by (apply Hbase; unfold decomposition_key; tauto).
    destruct Hrd as [->|(cs & ot & labels & ->)].
    + rewrite !lookup_empty. intros [? [=]].
    + intros _. unfold decomposition_entries. by simplify_map_eq.
  - rewrite !lookup_union_l by (apply Hbase; unfold decomposition_key; tauto).
    destruct Hrd as [->|(cs & ot & labels & ->)].
    + rewrite !lookup_empty. intros [? [=]].
    + intros _. unfold decomposition_entries. by simplify_map_eq.
  - rewrite !lookup_union_l by (apply Hbase; unfold decomposition_key; tauto).
    destruct Hrd as [->|(cs & ot & labels & ->)].
    + rewrite !lookup_empty. intros [? [=]].
    + intros _. unfold decomposition_entries. by simplify_map_eq.
  - intros Hoff'. rewrite (Hoff Hoff'). rewrite (left_id_L ∅ (∪)).
    unfold response_payload. by simplify_map_eq.
Qed.

Lemma chat_payload_fields_witness :
  exists reply cid,
    payload_of (chat demo_platform demo_externals (demo_chat true []) empty_app).1 !! "text"
    = Some (PStr reply)
    /\ payload_of (chat demo_platform demo_externals (demo_chat true []) empty_app).1
         !! "conversation_id" = Some (PStr cid).
Proof.
  destruct (chat demo_platform demo_externals (demo_chat true []) empty_app)
    as [[body|e] s'] eqn:E; [|vm_compute in E; discriminate].
  destruct (chat_payload_fields demo_platform demo_externals (demo_chat true [])
              empty_app s' body E) as (reply & cid & Ht & _ & _ & Hc & _).
  exists reply, cid. simpl. split; [exact Ht | exact Hc].
Defined.

End ChatMore.

(* ===================================================================== *)
(** * Properties: the outcomes of a task *)
(* ===================================================================== *)

Module TaskProps.
Import Py Scenario Fixtures.

(** X14.  On a task as the gateway sends it, [handle_task] answers 200 or
    500: 500 for an empty text (not the 400 raised for it), and 200 exactly
    when the text is not empty, the agent returns a decomposed response and
    no component is empty; the task then carries one artifact with one data
    part, whose output type is "email", "report" or "document" by the words
    of the text. *)
Theorem handle_task_outcomes (E : agent_env) (task_id token cid text : string) :
  let r := handle_task E (task_envelope task_id token cid text) in
  let answer := agent_ainvoke E (PStr text) (chat_thread_id token cid) in
  (status_of r = 200 \/ status_of r = 500)
  /\ (text = "" -> status_of r = 500)
  /\ (status_of r = 200 <->
      text <> ""
      /\ exists d labels, answer = Ok (Some d) /\ labels_of (components d) = Ok labels)
  /\ (forall d labels,
        text <> "" -> answer = Ok (Some d) -> labels_of (components d) = Ok labels ->
        r = Ok {| contextId := "1234"; task_ident := "asdf"; task_state := "completed";
                  artifacts :=
                    Some [ {| artifactId := "myartifact";
                              parts := [DataPart (response_data_of (components d)
                                                    (output_type_of text) labels)] |} ] |}).
Proof.
  intros r answer.
  assert (r = match text with
              | EmptyString => Raise (HTTPException 500 "400: No response text provided")
              | _ =>
                  match answer with
                  | Ok (Some d) =>
                      match labels_of (components d) with
                      | Ok labels =>
                          Ok {| contextId := "1234"; task_ident := "asdf";
                                task_state := "completed";
                                artifacts :=
                                  Some [ {| artifactId := "myartifact";
                                            parts := [DataPart (response_data_of (components d)
                                                       (output_type_of text) labels)] |} ] |}
                      | Raise e => Raise (HTTPException 500 (Exn.str e))
                      end
                  | Ok None =>
                      Raise (HTTPException 500
                               "500: A decomposition request was sent but no response was found.")
                  | Raise e => Raise (HTTPException 500 (Exn.str e))
                  end
              end) as Hr.
  { subst r answer. unfold handle_task, decompose_task, task_thread_id, try_except.
    cbn -[Str.contains Str.lower labels_of agent_ainvoke chat_thread_id].
    destruct text as [|c text]; [reflexivity|].
    cbn -[Str.contains Str.lower labels_of agent_ainvoke chat_thread_id].
    change (token +:+ "-" +:+ cid) with (chat_thread_id token cid).
    destruct (agent_ainvoke E _ _) as [[d|]|e]; try reflexivity.
    cbn -[Str.contains Str.lower labels_of].
    unfold output_type_of.
    destruct (components d) as [|c0 cs] eqn:Ec; [reflexivity|].
    destruct (labels_of (c0 :: cs)); reflexivity. }
  rewrite Hr. clear Hr r.
  split; [|split; [|split]].
  - destruct text; [by right|]. destruct answer as [[d|]|e]; simpl; auto.
    destruct (labels_of _); simpl; auto.
  - by intros ->.
  - destruct text as [|c text]; simpl.
    + split; [discriminate|]. by intros [? _].
    + destruct answer as [[d|]|e]; simpl.
      * destruct (labels_of (components d)) as [labels|e] eqn:El; simpl.
        -- split; [|done]. intros _. split; [done|]. by exists d, labels.
        -- split; [discriminate|]. intros [_ (d' & labels & [= <-] & Hl)]. congruence.
      * split; [discriminate|]. by intros [_ (? & ? & [=] & _)].
      * split; [discriminate|]. by intros [_ (? & ? & [=] & _)].
  - intros d labels Hne -> ->. by destruct text.
Qed.

End TaskProps.

(* ===================================================================== *)
(** * Properties: file handling *)
(* ===================================================================== *)

Module FileProps.
Import Py Scenario Fixtures.
Import FileHandlers.

Lemma lookup_key_supported ext :
  is_Some (lookup_key SUPPORTED_EXTENSIONS ext) <-> ext ∈ get_supported_file_types.
Proof.
  unfold get_supported_file_types.
  induction SUPPORTED_EXTENSIONS as [|[k m] l IH]; simpl.
  - split; [by intros [? [=]] | by intros ?%elem_of_nil].
  - destruct (String.eqb k ext) eqn:E.
    + apply String.eqb_eq in E as ->. split; [intros _; by left | by eexists].
    + apply String.eqb_neq in E. rewrite IH. split; [by right|].
      intros [?|?]%elem_of_cons; [congruence|done].
Qed.

(** X15.  [validate_file] accepts a path exactly when the file exists, its
    size is at most 10 MiB and the lower-cased text after its last dot is one
    of the supported extensions; a rejection always comes with a message, an
    acceptance with none, and a missing file is reported before anything
    else. *)
Theorem validate_file_accepts (F : file_env) (filepath : string) :
  (validate_file F filepath = Ok (true, None) <->
   path_exists F filepath = true
   /\ (exists n, getsize F filepath = Ok n /\ (n <= MAX_FILE_SIZE)%Z)
   /\ (exists ext, file_ext filepath = Some ext /\ ext ∈ get_supported_file_types))
  /\ (forall is_valid error_message,
        validate_file F filepath = Ok (is_valid, error_message) ->
        (is_valid = true <-> error_message = None))
  /\ (path_exists F filepath = false ->
      validate_file F filepath = Ok (false, Some ("File not found: " +:+ filepath))).
Proof.
  unfold validate_file, mbind, result_bind.
  destruct (path_exists F filepath); cbn [negb].
  2: { split; [|split; [|done]].
       - split; [discriminate|]. by intros [[=] _].
       - intros ? ? [= <- <-]. split; discriminate. }
  destruct (getsize F filepath) as [n|e].
  2: { split; [|split; [|discriminate]].
       - split; [discriminate|]. by intros [_ [(? & [=] & _) _]].
       - by intros ? ? [=]. }
  destruct (Z.ltb_spec MAX_FILE_SIZE n).
  { split; [|split; [|discriminate]].
    - split; [discriminate|]. intros [_ [(n' & [= <-] & Hn) _]]. lia.
    - intros ? ? [= <- <-]. split; discriminate. }
  destruct (file_ext filepath) as [[|c ext]|].
  - split; [|split; [|discriminate]].
    + split; [discriminate|]. intros [_ [_ (ext & [= <-] & He)]].
      apply lookup_key_supported in He as [? He]. vm_compute in He. discriminate.
    + intros ? ? [= <- <-]. split; discriminate.
  - destruct (lookup_key SUPPORTED_EXTENSIONS (String c ext)) as [m|] eqn:El.
    + split; [|split; [|discriminate]].
      * split; [|intros _; reflexivity]. intros _. split; [reflexivity|].
        split; [exists n; split; [reflexivity|assumption]|].
        exists (String c ext). split; [reflexivity|].
        apply lookup_key_supported. by eexists.
      * intros ? ? [= <- <-]. done.
    + split; [|split; [|discriminate]].
      * split; [discriminate|]. intros [_ [_ (ext' & [= <-] & He)]].
        apply lookup_key_supported in He as [? He]. congruence.
      * intros ? ? [= <- <-]. split; discriminate.
  - split; [|split; [|discriminate]].
    + split; [discriminate|]. by intros [_ [_ (ext & [=] & _)]].
    + intros ? ? [= <- <-]. split; discriminate.
Qed.

(** X16.  For a file [validate_file] accepts, [get_loader_for_file] finds
    a loader class: the text loader for [txt] and [md], the CSV loader for
    [csv], the PDF loader for [pdf], the unstructured loader for the other
    supported extensions; it fails only when the loader itself cannot be
    built. *)
Theorem validated_file_has_a_loader (F : file_env) (filepath : string) :
  validate_file F filepath = Ok (true, None) ->
  exists ext,
    file_ext filepath = Some ext
    /\ ((ext = "txt" \/ ext = "md") /\ loader_for ext = TextLoader
        \/ ext = "csv" /\ loader_for ext = CSVLoader
        \/ ext = "pdf" /\ loader_for ext = PyPDFLoader
        \/ (ext = "docx" \/ ext = "xlsx" \/ ext = "json" \/ ext = "html")
           /\ loader_for ext = UnstructuredFileLoader)
    /\ get_loader_for_file F filepath
       = match loader_failure F (loader_for ext) filepath with
         | None => Ok (loader_for ext, filepath)
         | Some e =>
             Raise (FileProcessingError
                      ("Failed to initialize document loader: " +:+ Exn.str e))
         end.
Proof.
  intros H.
  unfold validate_file, mbind, result_bind in H.
  destruct (path_exists F filepath); [|discriminate]. cbn [negb] in H.
  destruct (getsize F filepath) as [n|]; [|discriminate].
  destruct (_ <? _)%Z; [discriminate|].
  destruct (file_ext filepath) as [[|c ext]|] eqn:Ee; try discriminate.
  destruct (lookup_key SUPPORTED_EXTENSIONS (String c ext)) as [m|] eqn:El; [|discriminate].
  assert (String c ext ∈ get_supported_file_types) as Hin
    by (apply lookup_key_supported; by eexists).
  exists (String c ext). split; [reflexivity|].
  unfold get_loader_for_file. rewrite Ee.
  unfold get_supported_file_types in Hin. simpl in Hin.
  repeat (apply elem_of_cons in Hin as [Hin|Hin]; [rewrite Hin; split;
            [unfold loader_for; vm_compute; tauto|
             unfold loader_for; cbn; by destruct (loader_failure F _ filepath)]|]).
  by apply elem_of_nil in Hin.
Qed.

(** The text file of the demo disk is loaded by the text loader. *)
Lemma validated_file_has_a_loader_witness :
  get_loader_for_file notes_env "uploads/notes.txt" = Ok (TextLoader, "uploads/notes.txt").
Proof.
  destruct (validated_file_has_a_loader notes_env "uploads/notes.txt" eq_refl)
    as (ext & He & _ & Hl).
  injection He as <-. exact Hl.
Defined.

(** One turn of the loop. *)
Lemma process_file_eq F acc p :
  process_file F acc p
  = (acc.1 ++ loaded_from F p, acc.2 ++ option_list (failure_of F p)).
Proof.
  unfold process_file, loaded_from, failure_of.
  destruct (load_file F p) as [[docs|msg]|e]; simpl; by rewrite ?app_nil_r.
Qed.

(** The loop, file by file. *)
Lemma process_files_fold F paths : forall documents failed_files,
  foldl (process_file F) (documents, failed_files) paths
  = (documents ++ concat (map (loaded_from F) paths),
     failed_files ++ omap (failure_of F) paths).
Proof.
  induction paths as [|p paths IH]; intros documents failed_files.
  - simpl. by rewrite !app_nil_r.
  - cbn [foldl map concat omap list_omap]. rewrite process_file_eq. cbn [fst snd].
    rewrite IH. rewrite <- !app_assoc.
    by destruct (failure_of F p).
Qed.

Lemma failure_of_path F p x : failure_of F p = Some x -> failed_path x = p.
Proof.
  unfold failure_of. destruct (load_file F p) as [[docs|msg]|e]; intros [= <-]; reflexivity.
Qed.

Lemma omap_failure_paths F paths :
  map failed_path (omap (failure_of F) paths)
  = filter (fun p => is_Some (failure_of F p)) paths.
Proof.
  induction paths as [|p paths IH]; [reflexivity|].
  cbn [omap list_omap]. rewrite filter_cons.
  destruct (failure_of F p) as [x|] eqn:E.
  - rewrite decide_True by by eexists. simpl.
    rewrite (failure_of_path F p x E). f_equal. exact IH.
  - rewrite decide_False by (intros [? [=]]). exact IH.
Qed.

(** X17.  [process_uploaded_files] in terms of what each file gives (its
    documents, or one failure entry): it raises exactly when no document was
    loaded and some file failed, and then a [FileProcessingError] that lists
    every failure; otherwise it returns the chunks of the loaded documents
    with the failures in order of the files, or the unsplit documents and an
    added [document_splitting] entry when splitting fails; an empty list of
    paths gives two empty lists. *)
Theorem process_uploaded_files_outcomes (F : file_env) (file_paths : list string)
    (chunk_size chunk_overlap : Z) :
  let loaded := concat (map (loaded_from F) file_paths) in
  let failures := omap (failure_of F) file_paths in
  let r := process_uploaded_files F file_paths chunk_size chunk_overlap in
  (file_paths = [] -> r = Ok ([], []))
  /\ ((exists e, r = Raise e) <-> loaded = [] /\ failures <> [])
  /\ (forall e, r = Raise e ->
        e = FileProcessingError
              ("Failed to process all files: "
               +:+ Str.join ", " (map failure_line failures)))
  /\ (forall documents failed_files,
        r = Ok (documents, failed_files) ->
        (loaded = [] /\ documents = [] /\ failed_files = [])
        \/ (loaded <> [] /\ failed_files = failures
            /\ split_documents F chunk_size chunk_overlap loaded = Ok documents)
        \/ (loaded <> [] /\ documents = loaded
            /\ exists e,
                 split_documents F chunk_size chunk_overlap loaded = Raise e
                 /\ failed_files
                    = failures ++ [ {| failed_path := "document_splitting";
                                       failed_error := Some (Exn.str e) |} ]))
  /\ map failed_path failures = filter (fun p => is_Some (failure_of F p)) file_paths.
Proof.
  intros loaded failures r.
  assert (r = match file_paths with
              | [] => Ok ([], [])
              | _ =>
                  match loaded with
                  | _ :: _ =>
                      match split_documents F chunk_size chunk_overlap loaded with
                      | Ok split_docs => Ok (split_docs, failures)
                      | Raise e =>
                          Ok (loaded,
                              failures ++ [ {| failed_path := "document_splitting";
                                               failed_error := Some (Exn.str e) |} ])
                      end
                  | [] =>
                      match failures with
                      | _ :: _ =>
                          Raise (FileProcessingError
                                   ("Failed to process all files: "
                                    +:+ Str.join ", " (map failure_line failures)))
                      | [] => Ok ([], [])
                      end
                  end
              end) as Hr.
  { subst r loaded failures. unfold process_uploaded_files.
    destruct file_paths as [|p ps]; [reflexivity|].
    rewrite process_files_fold. rewrite !app_nil_l.
    generalize (concat (map (loaded_from F) (p :: ps))) (omap (failure_of F) (p :: ps)).
    intros l fs. destruct l; [|reflexivity]. by destruct fs. }
  rewrite Hr. clear Hr r.
  split; [by intros ->|]. split; [|split; [|split]].
  - destruct file_paths as [|p ps].
    { split; [by intros [? [=]] | by intros [_ ?]]. }
    destruct loaded as [|d ds].
    + destruct failures as [|x xs].
      * split; [by intros [? [=]] | by intros [_ ?]].
      * split; [done | intros _; by eexists].
    + split; [|by intros [[=] _]].
      destruct (split_documents _ _ _ _); by intros [? [=]].
  - intros e. destruct file_paths as [|p ps]; [discriminate|].
    destruct loaded as [|d ds].
    + destruct failures; [discriminate|]. by intros [= <-].
    + destruct (split_documents _ _ _ _); discriminate.
  - intros documents failed_files. destruct file_paths as [|p ps].
    { intros [= <- <-]. by left. }
    destruct loaded as [|d ds].
    + destruct failures; [|discriminate]. intros [= <- <-]. by left.
    + destruct (split_documents F chunk_size chunk_overlap (d :: ds)) as [sd|e] eqn:Es.
      * intros [= <- <-]. right; left. done.
      * intros [= <- <-]. right; right. split; [done|]. split; [done|]. by exists e.
  - apply omap_failure_paths.
Qed.

Lemma length_take n : forall s,
  String.length (Str.take n s) = Nat.min n (String.length s).
Proof.
  induction n as [|n IH]; intros [|c s]; simpl; try reflexivity.
  by rewrite IH.
Qed.

Lemma take_all n : forall s, String.length s <= n -> Str.take n s = s.
Proof.
  induction n as [|n IH]; intros [|c s]; simpl; intros H; try reflexivity; try lia.
  rewrite IH; [reflexivity | lia].
Qed.

(** The length of what [extract_document_content] returns. *)
Lemma extract_length documents max_length :
  (0 <= max_length)%Z ->
  (Z.of_nat (String.length (extract_document_content documents max_length))
   <= max_length + 36)%Z.
Proof.
  intros Hm. unfold extract_document_content.
  destruct documents as [|d ds]; [simpl; lia|].
  fold (combined_text (d :: ds)).
  destruct (Z.ltb_spec max_length (Z.of_nat (String.length (combined_text (d :: ds))))).
  - rewrite ChatProps.length_append. unfold Str.slice_to.
    rewrite (proj2 (Z.leb_le 0 max_length) Hm), length_take.
    change (String.length truncation_notice) with 36. lia.
  - lia.
Qed.

(** X18.  For a length limit that is not negative,
    [extract_document_content] returns at most 36 characters more than the
    limit: the joined contents when they fit, their first [max_length]
    characters followed by the truncation notice when they do not. *)
Theorem extract_document_content_is_bounded (documents : list document) (max_length : Z) :
  (0 <= max_length)%Z ->
  let out := extract_document_content documents max_length in
  let combined := combined_text documents in
  (Z.of_nat (String.length out) <= max_length + 36)%Z
  /\ ((Z.of_nat (String.length combined) <= max_length)%Z -> out = combined)
  /\ ((max_length < Z.of_nat (String.length combined))%Z ->
      out = Str.take (Z.to_nat max_length) combined +:+ truncation_notice
      /\ String.length (Str.take (Z.to_nat max_length) combined) = Z.to_nat max_length)
  /\ (forall d, documents = [d] ->
        (Z.of_nat (String.length (document_text d)) <= max_length)%Z ->
        out = document_text d).
Proof.
  intros Hm out combined.
  split; [by apply extract_length|].
  assert (out = if (max_length <? Z.of_nat (String.length combined))%Z
                then Str.take (Z.to_nat max_length) combined +:+ truncation_notice
                else combined) as Ho.
  { subst out combined. unfold extract_document_content, combined_text, Str.slice_to.
    rewrite (proj2 (Z.leb_le 0 max_length) Hm).
    destruct documents as [|d ds]; [|reflexivity].
    simpl. destruct (Z.ltb_spec max_length (Z.of_nat 0)); [lia | reflexivity]. }
  split; [|split].
  - intros Hle. rewrite Ho. by rewrite (proj2 (Z.ltb_ge _ _) Hle).
  - intros Hlt. rewrite Ho, (proj2 (Z.ltb_lt _ _) Hlt). split; [reflexivity|].
    rewrite length_take. lia.
  - intros d -> Hd. rewrite Ho. subst combined. unfold combined_text. simpl.
    by rewrite (proj2 (Z.ltb_ge _ _) Hd).
Qed.

Lemma extract_document_content_is_bounded_witness :
  extract_document_content [Document "alpha"; Document "beta"] 8
  = "alpha" +:+ Str.newline +:+ Str.newline +:+ "b" +:+ truncation_notice.
Proof.
  destruct (extract_document_content_is_bounded [Document "alpha"; Document "beta"] 8)
    as (_ & _ & H & _); [lia|].
  destruct H as [H _]; [vm_compute; reflexivity|]. exact H.
Defined.






End FileProps.

(* ===================================================================== *)
(** * Properties: uploads *)
(* ===================================================================== *)

Module UploadProps.
Import Py Scenario Fixtures.
Import FileHandlers Routes.

(** A string with the separator splits into at least two segments. *)
Lemma split_two sep s :
  Str.has_char sep s = true -> exists a b rest, Str.split sep s = a :: b :: rest.
Proof.
  induction s as [|c s IH]; simpl; [discriminate|].
  destruct (Ascii.eqb sep c).
  - intros _. destruct s as [|d s]; simpl.
    + by exists EmptyString, EmptyString, [].
    + destruct (Ascii.eqb sep d); [by eexists _, _, _|].
      destruct (Str.split sep s) as [|seg segs]; by eexists _, _, _.
  - simpl. intros H. destruct (IH H) as (a & b & rest & ->). by eexists _, _, _.
Qed.

(** What precedes the last separator does not change the last segment. *)
Lemma last_split_app sep a : forall b,
  Str.has_char sep b = true ->
  last (Str.split sep (a +:+ b)) = last (Str.split sep b).
Proof.
  induction a as [|c a IH]; intros b Hb; [reflexivity|].
  assert (Str.has_char sep (a +:+ b) = true) as Hab.
  { clear IH. induction a as [|d a IHa]; simpl; [exact Hb|].
    rewrite IHa. apply orb_true_r. }
  simpl. destruct (Ascii.eqb sep c).
  - destruct (split_two sep _ Hab) as (x & y & rest & E).
    rewrite <- (IH b Hb), E. reflexivity.
  - destruct (split_two sep _ Hab) as (x & y & rest & E).
    rewrite <- (IH b Hb), E. reflexivity.
Qed.

Lemma has_char_app sep a b :
  Str.has_char sep b = true -> Str.has_char sep (a +:+ b) = true.
Proof.
  intros Hb. induction a as [|d a IHa]; simpl; [exact Hb|].
  rewrite IHa. apply orb_true_r.
Qed.

(** The extension of a stored upload is the extension of its name. *)
Lemma file_ext_join folder name :
  Str.has_char "." name = true ->
  file_ext (path_join folder name) = file_ext name.
Proof.
  intros H.
  assert (forall pre, file_ext (pre +:+ name) = file_ext name) as Hpre.
  { intros pre. unfold file_ext.
    by rewrite (has_char_app "." pre name H), H, (last_split_app "." pre name H). }
  unfold path_join.
  destruct (String.prefix "/" name); [reflexivity|].
  destruct (_ || _); [apply Hpre|].
  change (folder +:+ "/" +:+ name) with (folder +:+ ("/" +:+ name)).
  assert (forall x y z : string, x +:+ (y +:+ z) = (x +:+ y) +:+ z) as Hassoc.
  { intros x y z. induction x as [|c x IHx]; [reflexivity|].
    change (String c (x +:+ (y +:+ z)) = String c ((x +:+ y) +:+ z)). by rewrite IHx. }
  rewrite Hassoc. apply Hpre.
Qed.

(** X20.  [upload_file] answers 400 exactly for an empty file name, and
    then writes nothing.  Otherwise the content is written under
    [os.path.join(UPLOAD_FOLDER, filename)], whether or not the type is
    supported, and the body reports the name, the path and a [supported] flag
    that is true exactly for an extension of the endpoint's own list; a name
    that starts with a slash is written at that very path, outside the
    folder; no other file is touched. *)
Theorem upload_file_outcomes (U : upload_env) (file : upload) (d : disk) :
  let r := upload_file U file d in
  (status_of r.1 = 400 <-> filename file = Some EmptyString)
  /\ (status_of r.1 = 400 -> r.2 = d)
  /\ (forall name,
        filename file = Some name -> name <> EmptyString ->
        io_failure U (path_join (UPLOAD_FOLDER U) name) (file_contents file) = None ->
        r.2 = <[path_join (UPLOAD_FOLDER U) name := file_contents file]> d
        /\ exists body supported,
             r.1 = Ok body
             /\ body !! "filename" = Some (PStr name)
             /\ body !! "file_path" = Some (PStr (path_join (UPLOAD_FOLDER U) name))
             /\ body !! "supported" = Some (PBool supported)
             /\ (supported = true <->
                 exists ext, file_ext name = Some ext /\ ext ∈ supported_file_types))
  /\ (forall name,
        filename file = Some name -> String.prefix "/" name = true ->
        io_failure U name (file_contents file) = None ->
        r.2 !! name = Some (file_contents file))
  /\ (forall k,
        (forall name, filename file = Some name -> k <> path_join (UPLOAD_FOLDER U) name) ->
        r.2 !! k = d !! k).
Proof.
  intros r. subst r. unfold upload_file.
  destruct (filename file) as [[|c name]|] eqn:En.
  - simpl. split; [done|]. split; [done|]. split; [by intros ? [= <-]|].
    split; [by intros ? [= <-]|done].
  - split; [|split; [|split; [|split]]].
    + split; [|discriminate].
      destruct (io_failure U _ _) as [[e remains]|]; discriminate.
    + destruct (io_failure U _ _) as [[e remains]|]; discriminate.
    + intros name' [= <-] _ Hio. rewrite Hio. split; [reflexivity|].
      eexists _, _. split; [reflexivity|].
      split; [by simplify_map_eq|]. split; [by simplify_map_eq|].
      split; [by simplify_map_eq|].
      destruct (file_ext (String c name)) as [ext|].
      * rewrite bool_decide_eq_true. split; [by exists ext|].
        by intros (ext' & [= <-] & H).
      * split; [discriminate|]. by intros (ext' & [=] & _).
    + intros name' [= <-] Hpre Hio. unfold path_join. rewrite Hpre, Hio.
      simpl. apply lookup_insert_eq.
    + intros k Hk. specialize (Hk _ eq_refl).
      assert (path_join (UPLOAD_FOLDER U) (String c name) <> k) as Hk' by (intros E; by apply Hk).
      destruct (io_failure U _ _) as [[e [partial|]]|]; simpl.
      * by apply lookup_insert_ne.
      * reflexivity.
      * by apply lookup_insert_ne.
  - simpl. split; [split; discriminate|]. split; [discriminate|].
    split; [by intros ? [=]|]. split; [by intros ? [=]|done].
Qed.

(** X21.  For a stored upload whose name has an extension, the extension
    of the stored path is the extension of the name, so [validate_file]
    accepts it exactly when that extension is one of its own list; the file is
    both flagged as supported by [upload_file] and accepted by
    [validate_file] exactly for [pdf], [docx] and [txt]. *)
Theorem stored_upload_validation (F : file_env) (U : upload_env) (name : string) :
  let path := path_join (UPLOAD_FOLDER U) name in
  Str.has_char "." name = true ->
  path_exists F path = true ->
  (exists n, getsize F path = Ok n /\ (n <= MAX_FILE_SIZE)%Z) ->
  file_ext path = file_ext name
  /\ (validate_file F path = Ok (true, None) <->
      exists ext, file_ext name = Some ext /\ ext ∈ get_supported_file_types)
  /\ ((validate_file F path = Ok (true, None)
       /\ exists ext, file_ext name = Some ext /\ ext ∈ supported_file_types) <->
      exists ext, file_ext name = Some ext /\ ext ∈ ["pdf"; "docx"; "txt"]).
Proof.
  intros path Hdot He (n & Hn & Hle).
  pose proof (file_ext_join (UPLOAD_FOLDER U) name Hdot) as Hext. fold path in Hext.
  assert (validate_file F path = Ok (true, None) <->
          exists ext, file_ext name = Some ext /\ ext ∈ get_supported_file_types) as Hv.
  { unfold validate_file, mbind, result_bind. rewrite He, Hn. cbn [negb].
    destruct (Z.ltb_spec MAX_FILE_SIZE n); [lia|]. rewrite Hext.
    destruct (file_ext name) as [[|c ext]|].
    - split; [discriminate|]. intros (ext & [= <-] & Hin).
      apply FileProps.lookup_key_supported in Hin as [? Hin]. discriminate.
    - destruct (lookup_key SUPPORTED_EXTENSIONS (String c ext)) as [m|] eqn:El.
      + split; [|reflexivity]. intros _. exists (String c ext). split; [reflexivity|].
        apply FileProps.lookup_key_supported. by eexists.
      + split; [discriminate|]. intros (ext' & [= <-] & Hin).
        apply FileProps.lookup_key_supported in Hin as [? Hin]. congruence.
    - split; [discriminate|]. by intros (? & [=] & _). }
  split; [exact Hext|]. split; [exact Hv|].
  rewrite Hv. unfold get_supported_file_types, supported_file_types.
  cbn [map fst SUPPORTED_EXTENSIONS].
  split.
  - intros [(ext & E1 & H1) (ext' & E2 & H2)].
    rewrite E1 in E2. injection E2 as <-. exists ext. split; [exact E1|].
    apply list_elem_of_In in H1, H2. apply list_elem_of_In.
    simpl in H1, H2 |- *.
    intuition (subst; try discriminate; auto).
  - intros (ext & E & H). apply list_elem_of_In in H. simpl in H.
    split; exists ext; (split; [exact E|]); apply list_elem_of_In; simpl; tauto.
Qed.

Lemma stored_upload_validation_witness :
  validate_file notes_env "uploads/notes.txt" = Ok (true, None).
Proof.
  destruct (stored_upload_validation notes_env demo_upload_env "notes.txt")
    as (_ & H & _).
  - reflexivity.
  - reflexivity.
  - exists 11%Z. split; [reflexivity|]. unfold MAX_FILE_SIZE. lia.
  - apply H. exists "txt". split; [reflexivity|].
    apply list_elem_of_In. simpl. tauto.
Defined.

End UploadProps.

(* ===================================================================== *)
(** * Properties: cleaning up *)
(* ===================================================================== *)

Module CleanupProps.
Import Py.
Import FileHandlers.

(** X22.  After [cleanup_files] a file exists exactly when it existed
    before and, if it was listed, its removal failed. *)
Theorem cleanup_files_removes_listed_files (remove_failure : string -> option exn)
    (file_paths : list string) (present : gset string) (p : string) :
  p ∈ cleanup_files remove_failure present file_paths
  <-> p ∈ present /\ (p ∈ file_paths -> is_Some (remove_failure p)).
Proof.
  unfold cleanup_files. revert present.
  induction file_paths as [|q qs IH]; intros present; simpl.
  - split; [intros H; split; [exact H | by intros ?%elem_of_nil] | by intros [H _]].
  - rewrite IH. clear IH.
    destruct (bool_decide_reflect (q ∈ present)) as [Hq|Hq].
    + destruct (remove_failure q) as [e|] eqn:Er.
      * split; intros [Hp H]; (split; [exact Hp|]).
        -- intros [->|Hin]%elem_of_cons; [by rewrite Er | by apply H].
        -- intros Hin. apply H. by right.
      * split.
        -- intros [[Hp Hne]%elem_of_difference H]. split; [exact Hp|].
           intros [->|Hin]%elem_of_cons; [set_solver | by apply H].
        -- intros [Hp H]. 
           assert (p <> q) as Hne.
           { intros ->. destruct H as [? H]; [by left|congruence]. }
           split; [set_solver|]. intros Hin. apply H. by right.
    + split; intros [Hp H]; (split; [exact Hp|]).
      * intros [->|Hin]%elem_of_cons; [done | by apply H].
      * intros Hin. apply H. by right.
Qed.

End CleanupProps.

(* ===================================================================== *)
(** * Properties: the memory index and the event log *)
(* ===================================================================== *)

Module ManagerProps.
Import Py Scenario Fixtures.
Import Manager.

(** A conversation the manager holds: only the access time changes. *)
Lemma get_or_create_memory_known saver_failure store fresh now conversation_id self m :
  conversations self !! requested_id fresh conversation_id = Some m ->
  get_or_create_memory saver_failure store fresh now conversation_id self
  = ((requested_id fresh conversation_id, m),
     set_last_accessed
       (<[requested_id fresh conversation_id := now]> (last_accessed self)) self).
Proof.
  intros H. unfold get_or_create_memory.
  change (match conversation_id with
          | Some (String _ _ as c) => c
          | _ => fresh
          end) with (requested_id fresh conversation_id).
  rewrite H. cbn [conversations set_last_accessed]. by rewrite H.
Qed.

(** A conversation the manager does not hold: an entry is created for it,
    and an event log unless there is one. *)
Lemma get_or_create_memory_new saver_failure store fresh now conversation_id self :
  conversations self !! requested_id fresh conversation_id = None ->
  exists m,
    get_or_create_memory saver_failure store fresh now conversation_id self
    = ((requested_id fresh conversation_id, m),
       set_last_accessed
         (<[requested_id fresh conversation_id := now]> (last_accessed self))
         (set_events
            (match events self !! requested_id fresh conversation_id with
             | Some _ => events self
             | None => <[requested_id fresh conversation_id := []]> (events self)
             end)
            (set_conversations
               (<[requested_id fresh conversation_id := m]> (conversations self)) self))).
Proof.
  intros H. unfold get_or_create_memory.
  change (match conversation_id with
          | Some (String _ _ as c) => c
          | _ => fresh
          end) with (requested_id fresh conversation_id).
  rewrite H.
  destruct (_load_conversation saver_failure store self _) as [[|msg msgs]|].
  - exists NewMemory. cbn [events conversations set_conversations].
    destruct (events self !! _); cbn; by rewrite lookup_insert_eq.
  - exists (LoadedMessages (msg :: msgs)). cbn [events conversations set_conversations].
    destruct (events self !! _); cbn; by rewrite lookup_insert_eq.
  - exists NewMemory. cbn [events conversations set_conversations].
    destruct (events self !! _); cbn; by rewrite lookup_insert_eq.
Qed.

(** X23.  [get_or_create_memory] works on the given id, or on the fresh one
    when none or an empty one is given; afterwards the manager holds the
    returned memory under that id, entries and event logs it held before are
    unchanged, and a later call for the same id, or
    [get_conversation_history], returns the same memory whatever the
    checkpoint store holds by then. *)
Theorem memory_is_fixed_at_creation (saver_failure saver_failure' : string -> option exn)
    (store store' : gmap string (list message)) (fresh fresh' : string) (now now' : Q)
    (conversation_id : option string) (self : manager) :
  fresh <> EmptyString ->
  let r := get_or_create_memory saver_failure store fresh now conversation_id self in
  let cid := requested_id fresh conversation_id in
  r.1.1 = cid
  /\ cid <> EmptyString
  /\ (forall c, conversation_id = Some c -> c <> EmptyString -> cid = c)
  /\ conversations r.2 !! cid = Some r.1.2
  /\ (conversations self !! cid = None -> is_Some (events r.2 !! cid))
  /\ (forall k m, conversations self !! k = Some m -> conversations r.2 !! k = Some m)
  /\ (forall k log, events self !! k = Some log -> events r.2 !! k = Some log)
  /\ (forall k, k <> cid ->
        conversations r.2 !! k = conversations self !! k
        /\ events r.2 !! k = events self !! k)
  /\ (get_or_create_memory saver_failure' store' fresh' now' (Some cid) r.2).1 = r.1
  /\ (get_conversation_history now' cid r.2).1 = Memory r.1.2.
Proof.
  intros Hfresh r cid.
  assert (cid <> EmptyString) as Hcid.
  { subst cid. unfold requested_id. by destruct conversation_id as [[|a c]|]. }
  assert (requested_id fresh' (Some cid) = cid) as Hreq.
  { unfold requested_id. by destruct cid. }
  assert (r.1.1 = cid /\ conversations r.2 !! cid = Some r.1.2
          /\ (conversations self !! cid = None -> is_Some (events r.2 !! cid))
          /\ (forall k m, conversations self !! k = Some m -> conversations r.2 !! k = Some m)
          /\ (forall k log, events self !! k = Some log -> events r.2 !! k = Some log)
          /\ (forall k, k <> cid ->
                conversations r.2 !! k = conversations self !! k
                /\ events r.2 !! k = events self !! k)) as (H0 & H1 & H2 & H3 & H4 & H5).
  { destruct (conversations self !! cid) as [m|] eqn:Ec.
    - subst r. rewrite (get_or_create_memory_known _ _ _ _ _ _ m Ec). cbn.
      split; [reflexivity|]. split; [exact Ec|]. split; [discriminate|]. by repeat split.
    - destruct (get_or_create_memory_new saver_failure store fresh now conversation_id
                  self Ec) as [m Hm].
      subst r. rewrite Hm. fold cid. cbn.
      split; [reflexivity|]. split; [apply lookup_insert_eq|]. split.
      { intros _. destruct (events self !! cid) eqn:Ee; [by rewrite Ee|].
        rewrite lookup_insert_eq. by eexists. }
      split.
      { intros k m0 Hk. rewrite lookup_insert_ne; [exact Hk|]. congruence. }
      split.
      { intros k log Hk. destruct (events self !! cid) eqn:Ee; [exact Hk|].
        rewrite lookup_insert_ne; [exact Hk|]. congruence. }
      intros k Hk. split; [by rewrite lookup_insert_ne|].
      destruct (events self !! cid); [reflexivity | by rewrite lookup_insert_ne]. }
  split; [exact H0|]. split; [exact Hcid|]. split.
  { intros c -> Hc. subst cid. unfold requested_id. by destruct c. }
  split; [exact H1|]. split; [exact H2|]. split; [exact H3|]. split; [exact H4|].
  split; [exact H5|]. split.
  - rewrite <- Hreq in H1 at 1.
    rewrite (get_or_create_memory_known saver_failure' store' fresh' now' (Some cid)
               r.2 r.1.2 H1).
    rewrite Hreq. cbn [fst]. rewrite <- H0. by destruct r as [[? ?] ?].
  - unfold get_conversation_history. by rewrite H1.
Qed.

Lemma memory_is_fixed_at_creation_witness :
  (get_or_create_memory (fun _ => None) (<["c1" := [HumanMessage "late"]]> ∅) "uuid-9" 2
     (Some "c1")
     (get_or_create_memory (fun _ => None) ∅ "uuid-8" 1 (Some "c1") empty_manager).2).1
  = (get_or_create_memory (fun _ => None) ∅ "uuid-8" 1 (Some "c1") empty_manager).1.
Proof.
  destruct (memory_is_fixed_at_creation (fun _ => None) (fun _ => None) ∅
              (<["c1" := [HumanMessage "late"]]> ∅) "uuid-8" "uuid-9" 1 2
              (Some "c1") empty_manager) as (_ & _ & _ & _ & _ & _ & _ & _ & H & _).
  - discriminate.
  - exact H.
Defined.

Lemma log_event_events now data self k :
  default [] (events (Routes.log_event now data self).2 !! k)
  = default [] (events self !! k)
    ++ (if recorded_under k data then [event_of now data] else []).
Proof.
  unfold Routes.log_event, recorded_under, event_of, record_event.
  destruct (truthy (Routes.le_event_type data)); cbn [negb andb snd];
    [|by rewrite app_nil_r].
  cbn [events set_events].
  destruct (String.eqb_spec (default "global" (Routes.le_conversation_id data)) k)
    as [->|Hne].
  - by rewrite lookup_insert_eq.
  - rewrite lookup_insert_ne by done. by rewrite app_nil_r.
Qed.

(** X24.  After a sequence of [log_event] requests the event log of a
    conversation is its former log followed by the events of the requests
    that name it (or no conversation, for ["global"]) and have an event type,
    in the order of arrival; the conversations are untouched, and requests
    without an event type change nothing. *)
Theorem event_log_keeps_arrival_order (requests : list (Q * Routes.log_event_request))
    (self : manager) (cid : string) :
  default [] (events (after_requests requests self) !! cid)
  = default [] (events self !! cid)
    ++ map (fun r => event_of r.1 r.2) (filter (fun r => recorded_under cid r.2 = true) requests)
  /\ conversations (after_requests requests self) = conversations self
  /\ (Forall (fun r => truthy (Routes.le_event_type r.2) = false) requests ->
      after_requests requests self = self).
Proof.
  unfold after_requests. revert self.
  induction requests as [|[now data] requests IH]; intros self.
  - simpl. by rewrite app_nil_r.
  - cbn [foldl fst snd].
    destruct (IH ((Routes.log_event now data self).2)) as (IH1 & IH2 & IH3).
    split; [|split].
    + rewrite IH1, log_event_events, filter_cons. cbn [fst snd].
      destruct (recorded_under cid data).
      * rewrite decide_True by done. by rewrite <- app_assoc.
      * rewrite decide_False by done. by rewrite app_nil_r.
    + rewrite IH2. unfold Routes.log_event.
      by destruct (truthy (Routes.le_event_type data)).
    + intros [Hd Hr]%Forall_cons. cbn [fst snd] in Hd.
      rewrite (IH3 Hr). unfold Routes.log_event. by rewrite Hd.
Qed.

End ManagerProps.
